(** * The batch aggregation worker of the directory pivot tool

    A shallow embedding of [AnalysisWorker] (the [QThread] of
    [多目录文件透视某列.py]): the identifier extraction
    [_extract_monthly_card], the summary filter [_preprocess_df], and the
    loop of [run] with its four signals and its stop flag.

    Python strings are lists of code points, numbers are numpy scalars
    (64-bit integers that wrap around, and doubles), a [DataFrame] is a
    header and a list of rows, exceptions are values of [result], and the
    worker is a state-and-output computation: its state holds the two
    accumulators of [run] and the number of reads of [is_running], its
    output is the ordered list of what it did (flag reads, file reads,
    console lines, signals, additions to the running total). *)

From Stdlib Require Import String Ascii DecimalString ZArith List Bool Lia.
From Stdlib Require Import SpecFloat.
Import ListNotations.
Local Open Scope Z_scope.

(** ** Python [str] *)

Module PyStr.

(** A [str] is its sequence of code points. *)
Definition str := list Z.

(** The code points of an ASCII literal. *)
Definition of_ascii (s : string) : str :=
  map (fun a => Z.of_N (N_of_ascii a)) (list_ascii_of_string s).

Fixpoint eqb (s t : str) : bool :=
  match s, t with
  | [], [] => true
  | a :: s', b :: t' => (a =? b) && eqb s' t'
  | _, _ => false
  end.

Definition in_range (lo hi c : Z) : bool := (lo <=? c) && (c <=? hi).

(** [str.isspace] on one character: the white space [str.strip()] removes. *)
Definition isspace (c : Z) : bool :=
  in_range 9 13 c || in_range 28 32 c || (c =? 133) || (c =? 160)
  || (c =? 5760) || in_range 8192 8202 c || in_range 8232 8233 c
  || (c =? 8239) || (c =? 8287) || (c =? 12288).

Fixpoint lstrip (s : str) : str :=
  match s with
  | c :: s' => if isspace c then lstrip s' else s
  | [] => []
  end.

Definition rstrip (s : str) : str := rev (lstrip (rev s)).

(** [s.strip()] *)
Definition strip (s : str) : str := rstrip (lstrip s).

(** The literal [p] matches at the start of [s]. *)
Fixpoint startswith (p s : str) : bool :=
  match p, s with
  | [], _ => true
  | a :: p', b :: s' => (a =? b) && startswith p' s'
  | _ :: _, [] => false
  end.

(** [p in s]: the literal [p] occurs somewhere in [s]. *)
Fixpoint contains (p s : str) : bool :=
  startswith p s
  || match s with
     | [] => false
     | _ :: s' => contains p s'
     end.

(** First code point of each block of ten decimal digits (general category
    Nd, Unicode 14.0): [\d] of a [str] pattern is Unicode aware, so it
    accepts more than the ASCII digits [48..57]. *)
Definition Nd_blocks : list Z :=
  [48; 1632; 1776; 1984; 2406; 2534; 2662; 2790; 2918; 3046; 3174; 3302;
   3430; 3558; 3664; 3792; 3872; 4160; 4240; 6112; 6160; 6470; 6608; 6784;
   6800; 6992; 7088; 7232; 7248; 42528; 43216; 43264; 43472; 43504; 43600;
   44016; 65296; 66720; 68912; 69734; 69872; 69942; 70096; 70384; 70736;
   70864; 71248; 71360; 71472; 71904; 72016; 72784; 73040; 73120; 92768;
   92864; 93008; 120782; 120792; 120802; 120812; 120822; 123200; 123632;
   125264; 130032].

(** The character class [\d]. *)
Definition isdecimal (c : Z) : bool :=
  existsb (fun z => in_range z (z + 9) c) Nd_blocks.

(** [\d{n}] anchored at the start of [s]: the [n] digits matched. *)
Fixpoint match_digits (n : nat) (s : str) : option str :=
  match n with
  | O => Some []
  | S n' =>
      match s with
      | c :: s' =>
          if isdecimal c
          then match match_digits n' s' with
               | Some m => Some (c :: m)
               | None => None
               end
          else None
      | [] => None
      end
  end.

(** [re.search(r'\d{10}', s)]: the match at the leftmost position that has
    one, [None] when no position has. *)
Fixpoint search_10_digits (s : str) : option str :=
  match match_digits 10 s with
  | Some m => Some m
  | None =>
      match s with
      | [] => None
      | _ :: s' => search_10_digits s'
      end
  end.

(** The two summary markers, 合计 and 合 计. *)
Definition heji : str := [21512; 35745].
Definition he_ji : str := [21512; 32; 35745].

(** [re.search('合 计|合计', s) is not None]: at each position the
    alternatives are tried in turn. *)
Fixpoint search_total (s : str) : bool :=
  startswith he_ji s || startswith heji s
  || match s with
     | [] => false
     | _ :: s' => search_total s'
     end.

(** The maximal runs of decimal digits of [s], left to right ([run] is the
    run being read). *)
Fixpoint digit_runs_from (run : str) (s : str) : list str :=
  match s with
  | [] => match run with [] => [] | _ => [rev run] end
  | c :: s' =>
      if isdecimal c then digit_runs_from (c :: run) s'
      else match run with
           | [] => digit_runs_from [] s'
           | _ => rev run :: digit_runs_from [] s'
           end
  end.

Definition digit_runs (s : str) : list str := digit_runs_from [] s.

(** Ten decimal digits start at position [i] of [s]. *)
Definition ten_digits_at (s : str) (i : nat) : bool :=
  (10 <=? List.length (skipn i s))%nat
  && forallb isdecimal (firstn 10 (skipn i s)).

(** The text between the code points of an ASCII [str]; [None] when a code
    point is not ASCII. *)
Fixpoint to_ascii (s : str) : option string :=
  match s with
  | [] => Some EmptyString
  | c :: s' =>
      if in_range 0 127 c
      then match to_ascii s' with
           | Some t => Some (String (ascii_of_N (Z.to_N c)) t)
           | None => None
           end
      else None
  end.

End PyStr.
Import PyStr.

(** ** Numbers

    The amounts are numpy scalars: an [int64], whose arithmetic wraps
    around, or a [float64]. A double is a [spec_float] of the standard
    library, at the precision and the exponent range of binary64. *)

Definition float := spec_float.

(** The double nearest to the integer [z], ties to even. *)
Definition float_of_Z (z : Z) : float := binary_normalize 53 1024 z 0 false.

(** [x + y] of two doubles. *)
Definition fadd (x y : float) : float := SFadd 53 1024 x y.

(** [0.0] *)
Definition fzero : float := S754_zero false.

Definition is_nan (x : float) : bool :=
  match x with
  | S754_nan => true
  | _ => false
  end.

Inductive num :=
| I64 (z : Z)
| F64 (x : float).

(** The integer of the 64-bit two's-complement word of [z]. *)
Definition wrap (z : Z) : Z :=
  (z + 9223372036854775808) mod 18446744073709551616 - 9223372036854775808.

(** The double of a scalar: an integer is rounded to the nearest double. *)
Definition to_double (x : num) : float :=
  match x with
  | I64 z => float_of_Z z
  | F64 x => x
  end.

(** [float(x)] *)
Definition float_ (x : num) : num := F64 (to_double x).

(** [x + y] of two scalars: two integers are added in 64 bits; with a
    double, both are doubles. *)
Definition add (x y : num) : num :=
  match x, y with
  | I64 a, I64 b => I64 (wrap (a + b))
  | _, _ => F64 (fadd (to_double x) (to_double y))
  end.

(** The [int] [0] the totals start from. *)
Definition zero : num := I64 0.

(** What pandas and numpy do that the source does not show: the text
    [str(x)] of a number, the reading [pandas.to_numeric] gives of a text
    ([None] when the text is coerced to NaN), and the sum [ndarray.sum()]
    of an array of doubles, whose order of addition is numpy's own; all
    that is known of that sum here is that zeros add up to zero. *)
Class Pandas := {
  repr : num -> str;
  parse : str -> option num;
  fsum : list float -> float;
  fsum_zeros : forall n : nat, fsum (repeat fzero n) = fzero
}.

(** *** A sample of them, for the examples *)

(** The digits of [n], the most significant first. *)
Definition digits_of_N (n : N) : str :=
  of_ascii (NilZero.string_of_uint (N.to_uint n)).

Definition minus_sign : Z := 45.

Definition str_of_Z (z : Z) : str :=
  (if z <? 0 then [minus_sign] else []) ++ digits_of_N (Z.to_N (Z.abs z)).

(** The digits after the point of [r / 2 ^ k], for [r] below [2 ^ k]: at
    most [fuel] of them, and [k] are enough. *)
Fixpoint fraction_digits (fuel : nat) (k : Z) (r : Z) : str :=
  match fuel with
  | O => []
  | S fuel' =>
      if r =? 0 then []
      else (48 + (10 * r) / 2 ^ k)
           :: fraction_digits fuel' k ((10 * r) mod 2 ^ k)
  end.

(** The decimal expansion of the double [m * 2 ^ e], in full. *)
Definition expansion (m : positive) (e : Z) : str :=
  if 0 <=? e
  then digits_of_N (Z.to_N (Z.pos m * 2 ^ e)) ++ of_ascii ".0"
  else
    let k := - e in
    digits_of_N (Z.to_N (Z.pos m / 2 ^ k))
    ++ [46]
    ++ match fraction_digits (Z.to_nat k) k (Z.pos m mod 2 ^ k) with
       | [] => [48]
       | ds => ds
       end.

(** [str(x)]: an integer in decimal; a double by its decimal expansion,
    which is what Python writes of the doubles of the examples, integers
    and halves of a few digits. *)
Definition sample_repr (x : num) : str :=
  match x with
  | I64 z => str_of_Z z
  | F64 (S754_zero s) => (if s then [minus_sign] else []) ++ of_ascii "0.0"
  | F64 (S754_infinity s) => (if s then [minus_sign] else []) ++ of_ascii "inf"
  | F64 S754_nan => of_ascii "nan"
  | F64 (S754_finite s m e) =>
      (if s then [minus_sign] else []) ++ expansion m e
  end.

Definition is_ascii_digit (c : Z) : bool := in_range 48 57 c.

(** The number of the decimal digits [ds], read after [acc]. *)
Definition number_of_digits (ds : str) : Z :=
  fold_left (fun acc c => 10 * acc + (c - 48)) ds 0.

(** The reading of a text that is a decimal integer of 64 bits, with or
    without a minus sign; the other texts of the examples are no numbers,
    and no other text is read here. *)
Definition sample_parse (s : str) : option num :=
  let '(negative, ds) :=
    match s with
    | c :: s' => if c =? minus_sign then (true, s') else (false, s)
    | [] => (false, s)
    end in
  match ds with
  | [] => None
  | _ :: _ =>
      if forallb is_ascii_digit ds
      then
        let z := if negative : bool then - number_of_digits ds
                 else number_of_digits ds in
        if Z.eqb (wrap z) z then Some (I64 z) else None
      else None
  end.

(** The doubles added one after the other, from [0.0]. *)
Definition sample_fsum (xs : list float) : float := fold_left fadd xs fzero.

Fixpoint sample_fsum_zeros (n : nat)
  : sample_fsum (repeat fzero n) = fzero :=
  match n with
  | O => eq_refl
  | S n' => sample_fsum_zeros n'
  end.

Definition sample_pandas : Pandas :=
  {| repr := sample_repr;
     parse := sample_parse;
     fsum := sample_fsum;
     fsum_zeros := sample_fsum_zeros |}.

(** ** Exceptions *)

Inductive exn :=
| UnicodeDecodeError (msg : str)
| AttributeError (msg : str)
| KeyError (msg : str)
| Exception (msg : str).

(** [str(e)] *)
Definition str_exn (e : exn) : str :=
  match e with
  | UnicodeDecodeError m | AttributeError m | KeyError m | Exception m => m
  end.

(** [isinstance(e, UnicodeDecodeError)] *)
Definition is_UnicodeDecodeError (e : exn) : bool :=
  match e with
  | UnicodeDecodeError _ => true
  | _ => false
  end.

Inductive result (A : Type) :=
| Ok (a : A)
| Raise (e : exn).

Arguments Ok {A} a.
Arguments Raise {A} e.

(** Boolean indexing with the mask negated, [xs[~mask]]: the entries whose
    mask bit is set are dropped, in place. A mask computed from [xs] is as
    long as [xs]; entries past a shorter mask stay. *)
Fixpoint drop_where {A : Type} (mask : list bool) (xs : list A) : list A :=
  match mask, xs with
  | b :: mask', x :: xs' =>
      if b then drop_where mask' xs' else x :: drop_where mask' xs'
  | _, _ => xs
  end.

(** Positions of [true] in [bs], counted from [j]. *)
Fixpoint positions (bs : list bool) (j : nat) : list nat :=
  match bs with
  | [] => []
  | b :: bs' => if b then j :: positions bs' (S j) else positions bs' (S j)
  end.

(** ** Tables *)

(** A column label. The parsers make labels of header cells: text gives a
    [str], a number or a date of a spreadsheet header gives an object that
    is not a [str], kept here by its [str()]; such a label is equal to no
    [str]. *)
Inductive label :=
| Name (s : str)
| NotStr (s : str).

(** [str(c)] *)
Definition str_label (c : label) : str :=
  match c with
  | Name s | NotStr s => s
  end.

Definition label_eqb (a b : label) : bool :=
  match a, b with
  | Name s, Name t | NotStr s, NotStr t => PyStr.eqb s t
  | _, _ => false
  end.

(** [c in cols] *)
Definition label_in (c : label) (cols : list label) : bool :=
  existsb (label_eqb c) cols.

(** [str(c).strip() in ['合 计', '合计']] *)
Definition is_total_label (c : label) : bool :=
  let s := strip (str_label c) in
  PyStr.eqb s he_ji || PyStr.eqb s heji.

Inductive dtype := object | int64 | float64 | bool_.

(** [dt == 'object'] *)
Definition is_object (dt : dtype) : bool :=
  match dt with
  | object => true
  | _ => false
  end.

Record column := {
  col_label : label;
  col_dtype : dtype
}.

(** ** The file system and the stop flag *)

Inductive encoding := utf_8 | gbk.

(** What iterating [Path(directory).glob(pattern)] yields: the files in the
    order of the file system, and then, when [scan_error] is an exception,
    that exception instead of the end of the iteration. *)
Record listing (A : Type) := {
  entries : list A;
  scan_error : option exn
}.

Arguments entries {A} l.
Arguments scan_error {A} l.

(** [self.is_running] as the [k]-th read of it in a run sees it, [k]
    counted from [0]. The flag starts [True] and only [stop()] writes it, to
    [False]: [stop_after] is the number of reads that come before the call
    of [stop()], [None] when nobody calls it. *)
Definition is_running_at (stop_after : option nat) (k : nat) : bool :=
  match stop_after with
  | None => true
  | Some n => (k <? n)%nat
  end.

Section Analysis.

Context `{Pandas}.

(** A cell: a text, a number, or a missing value (NaN). *)
Inductive cell :=
| CStr (s : str)
| CNum (x : num)
| CNaN.

(** A [pandas.DataFrame]: the columns (label and dtype) in order, and the
    rows in order, a row holding one cell per column. *)
Record DataFrame := {
  header : list column;
  rows : list (list cell)
}.

(** [df.columns] *)
Definition columns (df : DataFrame) : list label :=
  map col_label (header df).

Record Series := {
  dtype_of : dtype;
  values : list cell
}.

Definition no_attribute_dtype : str :=
  of_ascii "'DataFrame' object has no attribute 'dtype'".

(** [df[col]] where the source goes on to use it as a column ([.dtype],
    [.astype], [pd.to_numeric]). A label that several columns carry selects
    a [DataFrame], on which that use raises; a label of no column raises
    [KeyError]. *)
Definition series_of (df : DataFrame) (col : label) : result Series :=
  match positions (map (label_eqb col) (columns df)) 0 with
  | [] => Raise (KeyError (str_label col))
  | [j] =>
      Ok {| dtype_of := nth j (map col_dtype (header df)) object;
            values := map (fun r => nth j r CNaN) (rows df) |}
  | _ :: _ :: _ => Raise (AttributeError no_attribute_dtype)
  end.

(** One cell under [.astype(str)]. *)
Definition astype_str (c : cell) : str :=
  match c with
  | CStr s => s
  | CNum x => repr x
  | CNaN => of_ascii "nan"
  end.

(** One cell under [pd.to_numeric(..., errors='coerce')]; [None] is NaN. *)
Definition to_numeric (c : cell) : option num :=
  match c with
  | CStr s => parse s
  | CNum x => Some x
  | CNaN => None
  end.

(** The cell of the coerced column. *)
Definition coerce (c : cell) : cell :=
  match to_numeric c with
  | Some x => CNum x
  | None => CNaN
  end.

Definition is_integer (c : cell) : bool :=
  match c with
  | CNum (I64 _) => true
  | _ => false
  end.

(** A cell in an array of doubles: an integer is rounded to a double. *)
Definition as_double (c : cell) : cell :=
  match c with
  | CNum x => CNum (F64 (to_double x))
  | _ => c
  end.

(** [pd.to_numeric(s, errors='coerce')]: a numeric column is returned as it
    is; the cells of an [object] column are coerced one by one, and the
    column is [int64] when every cell gives an integer (an empty column
    too), [float64] otherwise. *)
Definition pd_to_numeric (s : Series) : Series :=
  match dtype_of s with
  | object =>
      let cells := map coerce (values s) in
      if forallb is_integer cells
      then {| dtype_of := int64; values := cells |}
      else {| dtype_of := float64; values := map as_double cells |}
  | _ => s
  end.

(** The integer of a cell of an integer column. *)
Definition integer_of (c : cell) : Z :=
  match c with
  | CNum (I64 z) => z
  | _ => 0
  end.

(** The double of a cell of a [float64] column as [sum()] takes it: NaN is
    replaced by [0.0]. *)
Definition double_or_zero (c : cell) : float :=
  match c with
  | CNum x => if is_nan (to_double x) then fzero else to_double x
  | _ => fzero
  end.

(** [s.sum()] of a numeric column: the doubles of a [float64] column are
    added by numpy, NaN skipped; the integers of another column are added
    in 64 bits, one after the other. *)
Definition Series_sum (s : Series) : num :=
  match dtype_of s with
  | float64 => F64 (fsum (map double_or_zero (values s)))
  | _ => I64 (fold_left (fun acc c => wrap (acc + integer_of c)) (values s) 0)
  end.

(** [df.drop(columns=cols_to_drop)] *)
Definition drop (cols_to_drop : list label) (df : DataFrame) : DataFrame :=
  let mask := map (fun c => label_in c cols_to_drop) (columns df) in
  {| header := drop_where mask (header df);
     rows := map (drop_where mask) (rows df) |}.

(** The body of the loop of [_preprocess_df] at the column [col]. *)
Definition drop_total_rows (df : DataFrame) (col : label) : result DataFrame :=
  match series_of df col with
  | Raise e => Raise e
  | Ok s =>
      if is_object (dtype_of s)
      then
        let mask := map (fun c => search_total (astype_str c)) (values s) in
        Ok {| header := header df; rows := drop_where mask (rows df) |}
      else Ok df
  end.

(** [for col in cols: ...] of [_preprocess_df]. *)
Fixpoint for_columns (cols : list label) (df : DataFrame) : result DataFrame :=
  match cols with
  | [] => Ok df
  | col :: cols' =>
      match drop_total_rows df col with
      | Ok df' => for_columns cols' df'
      | Raise e => Raise e
      end
  end.

(** [AnalysisWorker._preprocess_df] *)
Definition _preprocess_df (df : DataFrame) : result DataFrame :=
  let cols_to_drop := filter is_total_label (columns df) in
  let df :=
    match cols_to_drop with
    | [] => df
    | _ :: _ => drop cols_to_drop df
    end in
  for_columns (columns df) df.

(** [AnalysisWorker._extract_monthly_card] *)
Definition _extract_monthly_card (filename : str) : str :=
  match search_10_digits filename with
  | Some m => m
  | None => []
  end.

(** [df.columns = names], for as many names as columns. *)
Definition set_columns (names : list str) (df : DataFrame) : DataFrame :=
  {| header :=
       map (fun nc => {| col_label := Name (fst nc);
                         col_dtype := col_dtype (snd nc) |})
         (combine names (header df));
     rows := rows df |}.

(** [if self.custom_headers is not None and
        len(self.custom_headers) == len(df.columns):
        df.columns = self.custom_headers] *)
Definition apply_custom_headers (custom_headers : option (list str))
  (df : DataFrame) : DataFrame :=
  match custom_headers with
  | Some names =>
      if (List.length names =? List.length (columns df))%nat
      then set_columns names df
      else df
  | None => df
  end.

(** ** The worker *)

Record FileResult := {
  directory : str;
  filename : str;
  monthly_card : str;
  amount : num
}.

Record RunSummary := {
  total_files : Z;
  total_amount : num
}.

(** The four signals of [AnalysisWorker]. *)
Inductive signal :=
| progress_updated (msg : str)
| file_result_ready (r : FileResult)
| finished_analysis (s : RunSummary)
| error_occurred (msg : str).

(** What the worker does, in order: a read of its flag, a read of a file,
    a line on the console, a signal, an addition to its running total. *)
Inductive action :=
| Poll (running : bool)
| ReadExcel (d name : str)
| ReadCsv (d name : str) (enc : encoding)
| Print (d name : str) (e : exn)
| Emit (sg : signal)
| Accumulate (file_total : num).

(** A spreadsheet file: its name and what [pd.read_excel(f, header=0)]
    gives. *)
Record xlsx_file := {
  xlsx_name : str;
  read_excel : result DataFrame
}.

(** A delimited-text file: its name and what
    [pd.read_csv(f, header=0, encoding=enc)] gives. *)
Record csv_file := {
  csv_name : str;
  read_csv : encoding -> result DataFrame
}.

(** What the run meets outside the worker: the two globs of each directory
    and the moment of [stop()]. *)
Record environment := {
  glob_xlsx : str -> listing xlsx_file;
  glob_csv : str -> listing csv_file;
  stop_after : option nat
}.

(** The attributes [__init__] sets from its arguments. *)
Record AnalysisWorker := {
  directories : list str;
  amount_column : str;
  custom_headers : option (list str)
}.

(** The two accumulators of [run], and the number of reads of
    [self.is_running] so far. *)
Record worker_state := {
  total_amount_all : num;
  total_files_all : Z;
  polls : nat
}.

Record step (A : Type) := Step {
  outcome : result A;
  after : worker_state;
  trace : list action
}.

Arguments Step {A} outcome after trace.
Arguments outcome {A} s.
Arguments after {A} s.
Arguments trace {A} s.

Definition M (A : Type) := worker_state -> step A.

Definition ret {A : Type} (a : A) : M A :=
  fun s => Step (Ok a) s [].

Definition bind {A B : Type} (m : M A) (k : A -> M B) : M B :=
  fun s =>
    let r := m s in
    match outcome r with
    | Ok a => let r' := k a (after r) in
              Step (outcome r') (after r') (trace r ++ trace r')
    | Raise e => Step (Raise e) (after r) (trace r)
    end.

Definition raise {A : Type} (e : exn) : M A :=
  fun s => Step (Raise e) s [].

(** [try: m except Exception as e: handler(e)] *)
Definition try_except {A : Type} (m : M A) (handler : exn -> M A) : M A :=
  fun s =>
    let r := m s in
    match outcome r with
    | Ok a => r
    | Raise e => let r' := handler e (after r) in
                 Step (outcome r') (after r') (trace r ++ trace r')
    end.

Definition lift {A : Type} (r : result A) : M A :=
  fun s => Step r s [].

Definition tell (a : action) : M unit :=
  fun s => Step (Ok tt) s [a].

Definition get : M worker_state :=
  fun s => Step (Ok s) s [].

Notation "x <- m ;; k" := (bind m (fun x => k))
  (at level 61, m at next level, right associativity).
Notation "m ;; k" := (bind m (fun _ => k))
  (at level 61, right associativity).

(** One read of [self.is_running]. *)
Definition is_running (env : environment) : M bool :=
  fun s =>
    let running := is_running_at (stop_after env) (polls s) in
    Step (Ok running)
      {| total_amount_all := total_amount_all s;
         total_files_all := total_files_all s;
         polls := S (polls s) |}
      [Poll running].

Definition emit (sg : signal) : M unit := tell (Emit sg).

(** [total_amount_all += file_total; total_files_all += 1] *)
Definition add_totals (file_total : num) : M unit :=
  fun s =>
    Step (Ok tt)
      {| total_amount_all := add (total_amount_all s) file_total;
         total_files_all := total_files_all s + 1;
         polls := polls s |}
      [Accumulate file_total].

(** The text before the directory in the progress message, 正在分析目录
    followed by a colon and a space. *)
Definition progress_prefix : str :=
  [27491; 22312; 20998; 26512; 30446; 24405; 58; 32].

(** [if self.amount_column in df.columns: ...], the same in both loops of
    [run]: the column made numeric, its sum, the signal with the sum as a
    [float], the two accumulators, to which the sum goes as it is. *)
Definition aggregate (self : AnalysisWorker) (d name : str) (df : DataFrame)
  : M unit :=
  if label_in (Name (amount_column self)) (columns df)
  then
    column <- lift (series_of df (Name (amount_column self))) ;;
    (let file_total := Series_sum (pd_to_numeric column) in
     emit (file_result_ready
             {| directory := d;
                filename := name;
                monthly_card := _extract_monthly_card name;
                amount := float_ file_total |}) ;;
     add_totals file_total)
  else ret tt.

(** The body of [for excel_file in Path(directory).glob("*.xlsx")], after
    the test of the flag. *)
Definition process_xlsx (self : AnalysisWorker) (d : str) (f : xlsx_file)
  : M unit :=
  try_except
    (tell (ReadExcel d (xlsx_name f)) ;;
     df <- lift (read_excel f) ;;
     df <- lift (_preprocess_df
                   (apply_custom_headers (custom_headers self) df)) ;;
     aggregate self d (xlsx_name f) df)
    (fun e => tell (Print d (xlsx_name f) e)).

(** [try: pd.read_csv(..., encoding='utf-8')
     except UnicodeDecodeError: pd.read_csv(..., encoding='gbk')] *)
Definition read_csv_with_fallback (d : str) (f : csv_file) : M DataFrame :=
  try_except
    (tell (ReadCsv d (csv_name f) utf_8) ;; lift (read_csv f utf_8))
    (fun e =>
       if is_UnicodeDecodeError e
       then tell (ReadCsv d (csv_name f) gbk) ;; lift (read_csv f gbk)
       else raise e).

(** The body of [for csv_file in Path(directory).glob("*.csv")], after the
    test of the flag. *)
Definition process_csv (self : AnalysisWorker) (d : str) (f : csv_file)
  : M unit :=
  try_except
    (df <- read_csv_with_fallback d f ;;
     df <- lift (_preprocess_df
                   (apply_custom_headers (custom_headers self) df)) ;;
     aggregate self d (csv_name f) df)
    (fun e => tell (Print d (csv_name f) e)).

(** [for f in glob: if not self.is_running: break; body(f)]. The iteration
    asks the glob for a file before each round: at the end of [fs] it meets
    [tail], the exception of the scan if there is one. *)
Fixpoint for_each {A : Type} (env : environment) (body : A -> M unit)
  (fs : list A) (tail : option exn) : M unit :=
  match fs with
  | [] =>
      match tail with
      | Some e => raise e
      | None => ret tt
      end
  | f :: fs' =>
      running <- is_running env ;;
      if running
      then body f ;; for_each env body fs' tail
      else ret tt
  end.

(** [for directory in self.directories: ...] *)
Fixpoint for_directories (self : AnalysisWorker) (env : environment)
  (ds : list str) : M unit :=
  match ds with
  | [] => ret tt
  | d :: ds' =>
      running <- is_running env ;;
      if running
      then
        emit (progress_updated (progress_prefix ++ d)) ;;
        for_each env (process_xlsx self d)
          (entries (glob_xlsx env d)) (scan_error (glob_xlsx env d)) ;;
        for_each env (process_csv self d)
          (entries (glob_csv env d)) (scan_error (glob_csv env d)) ;;
        for_directories self env ds'
      else ret tt
  end.

Definition initial_state : worker_state :=
  {| total_amount_all := zero; total_files_all := 0; polls := 0 |}.

(** [AnalysisWorker.run] *)
Definition run (self : AnalysisWorker) (env : environment) : step unit :=
  try_except
    (for_directories self env (directories self) ;;
     s <- get ;;
     emit (finished_analysis
             {| total_files := total_files_all s;
                total_amount := float_ (total_amount_all s) |}))
    (fun e => emit (error_occurred (str_exn e)))
    initial_state.

(** [AnalysisWorker.stop], called when the worker has read its flag [k]
    times: the environment from then on. *)
Definition stop (k : nat) (env : environment) : environment :=
  {| glob_xlsx := glob_xlsx env;
     glob_csv := glob_csv env;
     stop_after :=
       match stop_after env with
       | Some n => Some (Nat.min n k)
       | None => Some k
       end |}.

(** The signals among the actions, in order. *)
Fixpoint signals (t : list action) : list signal :=
  match t with
  | [] => []
  | Emit sg :: t' => sg :: signals t'
  | _ :: t' => signals t'
  end.

(** The file results among the signals, in order. *)
Fixpoint file_results (sgs : list signal) : list FileResult :=
  match sgs with
  | [] => []
  | file_result_ready r :: sgs' => r :: file_results sgs'
  | _ :: sgs' => file_results sgs'
  end.

(** The sums added to the running total, in order. *)
Fixpoint subtotals (t : list action) : list num :=
  match t with
  | [] => []
  | Accumulate x :: t' => x :: subtotals t'
  | _ :: t' => subtotals t'
  end.

(** ** The statements' vocabulary

    Definitions the theorems are stated with: the filter and the sum as
    the specification words them, and, for a file, a directory and a run,
    what the worker is to read, print, emit and count. *)

(** The column [c] is textual and its cell [x], as text, holds a summary
    marker. *)
Definition hit (c : column) (x : cell) : bool :=
  is_object (col_dtype c) && search_total (astype_str x).

(** The row [r] of a table with the columns [hdr] has a summary marker in a
    textual column. *)
Definition total_row (hdr : list column) (r : list cell) : bool :=
  existsb (fun cx => hit (fst cx) (snd cx)) (combine hdr r).

(** The summary filter as the specification words it: the columns whose
    trimmed name is a marker go, with their cells; then the rows that have
    a marker in a textual column go; what stays keeps its order. *)
Definition filter_spec (df : DataFrame) : DataFrame :=
  let total := fun c => is_total_label (col_label c) in
  let hdr := filter (fun c => negb (total c)) (header df) in
  {| header := hdr;
     rows := filter (fun r => negb (total_row hdr r))
               (map (drop_where (map total (header df))) (rows df)) |}.








(** [0 + x1 + ... + xn], added in this order as numpy adds two scalars. *)
Definition sum_from_zero (xs : list num) : num := fold_left add xs zero.

(** The test of the loop of [_preprocess_df] at the column of position [j],
    on the row [r]. *)
Definition col_hit (hdr : list column) (j : nat) (r : list cell) : bool :=
  is_object (nth j (map col_dtype hdr) object)
  && search_total (astype_str (nth j r CNaN)).

(** The table the worker has of a spreadsheet file: parsed, the override
    applied, filtered. *)
Definition load_xlsx (self : AnalysisWorker) (f : xlsx_file)
  : result DataFrame :=
  match read_excel f with
  | Ok df => _preprocess_df (apply_custom_headers (custom_headers self) df)
  | Raise e => Raise e
  end.

(** The parse of a delimited-text file: as UTF-8, and as GBK when, and only
    when, the UTF-8 parse fails to decode. *)
Definition parse_csv (f : csv_file) : result DataFrame :=
  match read_csv f utf_8 with
  | Ok df => Ok df
  | Raise e => if is_UnicodeDecodeError e then read_csv f gbk else Raise e
  end.

(** The table the worker has of a delimited-text file. *)
Definition load_csv (self : AnalysisWorker) (f : csv_file)
  : result DataFrame :=
  match parse_csv f with
  | Ok df => _preprocess_df (apply_custom_headers (custom_headers self) df)
  | Raise e => Raise e
  end.

(** The target column of a loaded table. *)
Definition target_column (self : AnalysisWorker) (df : DataFrame) : Series :=
  match series_of df (Name (amount_column self)) with
  | Ok column => column
  | Raise _ => {| dtype_of := object; values := [] |}
  end.

(** The sum of the target column of a loaded table, as numpy gives it. *)
Definition file_total (self : AnalysisWorker) (df : DataFrame) : num :=
  Series_sum (pd_to_numeric (target_column self df)).

(** The sum that a file adds to the running total, when the file loads and
    its table has the target column. *)
Definition subtotal_of (self : AnalysisWorker) (loaded : result DataFrame)
  : option num :=
  match loaded with
  | Ok df =>
      if label_in (Name (amount_column self)) (columns df)
      then Some (file_total self df)
      else None
  | Raise _ => None
  end.

(** The result of a file of name [name] in the directory [d], when the
    file loads and its table has the target column. *)
Definition result_of (self : AnalysisWorker) (d name : str)
  (loaded : result DataFrame) : option FileResult :=
  match loaded with
  | Ok df =>
      if label_in (Name (amount_column self)) (columns df)
      then Some {| directory := d;
                   filename := name;
                   monthly_card := _extract_monthly_card name;
                   amount := float_ (file_total self df) |}
      else None
  | Raise _ => None
  end.

Definition xlsx_result (self : AnalysisWorker) (d : str) (f : xlsx_file)
  : option FileResult :=
  result_of self d (xlsx_name f) (load_xlsx self f).

Definition csv_result (self : AnalysisWorker) (d : str) (f : csv_file)
  : option FileResult :=
  result_of self d (csv_name f) (load_csv self f).

Definition xlsx_subtotal (self : AnalysisWorker) (f : xlsx_file) : option num :=
  subtotal_of self (load_xlsx self f).

Definition csv_subtotal (self : AnalysisWorker) (f : csv_file) : option num :=
  subtotal_of self (load_csv self f).

Definition opt_list {A : Type} (o : option A) : list A :=
  match o with
  | Some a => [a]
  | None => []
  end.

(** The results of the directory [d] when nothing interrupts its two
    loops: the spreadsheet files first, then the delimited-text files, each
    kind in the order of its glob. *)
Definition results_of_directory (self : AnalysisWorker) (env : environment)
  (d : str) : list FileResult :=
  flat_map (fun f => opt_list (xlsx_result self d f)) (entries (glob_xlsx env d))
  ++ flat_map (fun f => opt_list (csv_result self d f)) (entries (glob_csv env d)).






(** No glob of a directory of the run fails. *)
Definition scans_succeed (self : AnalysisWorker) (env : environment) : Prop :=
  forall d, In d (directories self) ->
            scan_error (glob_xlsx env d) = None
            /\ scan_error (glob_csv env d) = None.

(** What a file adds to the accumulators: one file, and its sum. *)
Definition account (o : option num) (s : worker_state) : worker_state :=
  match o with
  | Some file_total =>
      {| total_amount_all := add (total_amount_all s) file_total;
         total_files_all := total_files_all s + 1;
         polls := polls s |}
  | None => s
  end.

(** The signal of a result, and the addition of its sum. *)
Definition tally (o : option FileResult) (x : option num) : list action :=
  map (fun r => Emit (file_result_ready r)) (opt_list o)
  ++ map Accumulate (opt_list x).

(** What the worker does at a spreadsheet file, once past the flag. *)
Definition xlsx_actions (self : AnalysisWorker) (d : str) (f : xlsx_file)
  : list action :=
  ReadExcel d (xlsx_name f)
  :: match load_xlsx self f with
     | Ok _ => tally (xlsx_result self d f) (xlsx_subtotal self f)
     | Raise e => [Print d (xlsx_name f) e]
     end.

(** The reads of a delimited-text file: one as UTF-8, and one as GBK after
    a decoding error of the first. *)
Definition csv_reads (d : str) (f : csv_file) : list action :=
  ReadCsv d (csv_name f) utf_8
  :: match read_csv f utf_8 with
     | Ok _ => []
     | Raise e =>
         if is_UnicodeDecodeError e then [ReadCsv d (csv_name f) gbk] else []
     end.

(** What the worker does at a delimited-text file, once past the flag. *)
Definition csv_actions (self : AnalysisWorker) (d : str) (f : csv_file)
  : list action :=
  csv_reads d f
  ++ match load_csv self f with
     | Ok _ => tally (csv_result self d f) (csv_subtotal self f)
     | Raise e => [Print d (csv_name f) e]
     end.

(** The state after one read of the flag. *)
Definition tick (s : worker_state) : worker_state :=
  {| total_amount_all := total_amount_all s;
     total_files_all := total_files_all s;
     polls := S (polls s) |}.

(** The next read of the flag will see it [False]. *)
Definition stopped (env : environment) (s : worker_state) : Prop :=
  is_running_at (stop_after env) (polls s) = false.

Definition is_poll (a : action) : bool :=
  match a with
  | Poll _ => true
  | _ => false
  end.

(** Each result in [t] comes with the addition of its sum, of which its
    amount is the [float]. *)
Definition paired (t : list action) : Prop :=
  map amount (file_results (signals t)) = map float_ (subtotals t).

(** The accumulators moved from [s] by exactly the results in [t]: one file
    and one sum, added in order, for each. *)
Definition tallied (s s' : worker_state) (t : list action) : Prop :=
  total_files_all s' =
    total_files_all s + Z.of_nat (List.length (file_results (signals t)))
  /\ total_amount_all s' = fold_left add (subtotals t) (total_amount_all s)
  /\ paired t.

(** [polled stop k t k']: the actions [t] start at the [k]-th read of the
    flag and end before the [k']-th; each read carries the value of the
    flag at its rank, a read of [True] is followed by actions that are not
    reads, a read of [False] by nothing but the next read. *)
Inductive polled (stop : option nat) : nat -> list action -> nat -> Prop :=
| polled_end (k : nat) : polled stop k [] k
| polled_running (k k' : nat) (acts t : list action) :
    is_running_at stop k = true ->
    existsb is_poll acts = false ->
    polled stop (S k) t k' ->
    polled stop k (Poll true :: acts ++ t) k'
| polled_stopped (k k' : nat) (t : list action) :
    is_running_at stop k = false ->
    polled stop (S k) t k' ->
    polled stop k (Poll false :: t) k'.

(** The signals of the loop over the directories [ds]: for directories of
    [ds] in order, the progress message of the directory and then the
    first results of the directory, in order. *)
Inductive body_of (self : AnalysisWorker) (env : environment)
  : list str -> list signal -> Prop :=
| body_end (ds : list str) : body_of self env ds []
| body_directory (d : str) (ds : list str) (n : nat) (rest : list signal) :
    body_of self env ds rest ->
    body_of self env (d :: ds)
      (progress_updated (progress_prefix ++ d)
       :: map file_result_ready (firstn n (results_of_directory self env d))
       ++ rest).

(** The last signal of a run. *)
Definition is_terminal (sg : signal) : bool :=
  match sg with
  | finished_analysis _ | error_occurred _ => true
  | _ => false
  end.

(** What a pass over the directory [d] does when nothing interrupts it. *)
Definition directory_actions (self : AnalysisWorker) (env : environment)
  (d : str) : list action :=
  Poll true
  :: Emit (progress_updated (progress_prefix ++ d))
  :: flat_map (fun f => Poll true :: xlsx_actions self d f)
       (entries (glob_xlsx env d))
  ++ flat_map (fun f => Poll true :: csv_actions self d f)
       (entries (glob_csv env d)).

(** The reads of the flag in such a pass: one for the directory, one for
    each of its files. *)
Definition directory_polls (env : environment) (d : str) : nat :=
  S (List.length (entries (glob_xlsx env d))
     + List.length (entries (glob_csv env d))).

Definition run_polls (env : environment) (ds : list str) : nat :=
  list_sum (map (directory_polls env) ds).


(** The summary of what the worker did in [t]: the number of the results,
    and the [float] of the running total of their sums. *)
Definition summary_of (t : list action) : RunSummary :=
  {| total_files := Z.of_nat (List.length (file_results (signals t)));
     total_amount := float_ (sum_from_zero (subtotals t)) |}.

(** The two loops of [run] over the files of the directory [d]. *)
Definition directory_pass (self : AnalysisWorker) (env : environment)
  (d : str) : M unit :=
  for_each env (process_xlsx self d)
    (entries (glob_xlsx env d)) (scan_error (glob_xlsx env d)) ;;
  for_each env (process_csv self d)
    (entries (glob_csv env d)) (scan_error (glob_csv env d)).

(** The signals of a pass over the directory [d] that nothing interrupts:
    the progress message, then the results. *)
Definition signals_of_directory (self : AnalysisWorker) (env : environment)
  (d : str) : list signal :=
  progress_updated (progress_prefix ++ d)
  :: map file_result_ready (results_of_directory self env d).


(** ** Sample data *)

Definition text_column (name : string) : column :=
  {| col_label := Name (of_ascii name); col_dtype := object |}.

Definition text (s : string) : cell := CStr (of_ascii s).

(** A sheet with a summary column 合计 and a summary row, whose amounts are
    text: 12, n/a, 30 and, in the summary row, 42. *)
Definition sample_sheet : DataFrame :=
  {| header := [text_column "city";
                {| col_label := Name heji; col_dtype := object |};
                text_column "amount"];
     rows := [[text "Oslo"; text "1"; text "12"];
              [text "Rome"; text "2"; text "n/a"];
              [CStr he_ji; text "3"; text "42"];
              [text "Kyiv"; text "4"; text "30"]] |}.

(** [sample_sheet] without its summary column and its summary row. *)
Definition sample_sheet_filtered : DataFrame :=
  {| header := [text_column "city"; text_column "amount"];
     rows := [[text "Oslo"; text "12"];
              [text "Rome"; text "n/a"];
              [text "Kyiv"; text "30"]] |}.

(** A table two columns of which carry the name [a]. *)
Definition twice_named : DataFrame :=
  {| header := [text_column "a"; text_column "a"];
     rows := [[text "x"; text "y"]] |}.

(** File names for the identifier. *)
Definition name_with_card : str := of_ascii "report_2024010112.xlsx".
Definition name_without_card : str := of_ascii "report_2024.xlsx".
Definition name_with_long_run : str := of_ascii "00002024010112.csv".
Definition card_2024010112 : str := of_ascii "2024010112".

(** A table without a column of amounts. *)
Definition sample_notes : DataFrame :=
  {| header := [text_column "city"; text_column "note"];
     rows := [[text "Oslo"; text "closed"]] |}.

Definition sample_xlsx : xlsx_file :=
  {| xlsx_name := name_with_card; read_excel := Ok sample_sheet |}.

(** A file the spreadsheet parser rejects. *)
Definition broken_xlsx : xlsx_file :=
  {| xlsx_name := of_ascii "broken.xlsx";
     read_excel := Raise (Exception (of_ascii "File is not a zip file")) |}.

(** A file that does not decode as UTF-8 and parses as GBK. *)
Definition gbk_csv : csv_file :=
  {| csv_name := of_ascii "old_2023123101.csv";
     read_csv := fun enc =>
       match enc with
       | utf_8 => Raise (UnicodeDecodeError (of_ascii "invalid start byte"))
       | gbk => Ok sample_sheet
       end |}.

(** A file that decodes under neither encoding. *)
Definition binary_csv : csv_file :=
  {| csv_name := of_ascii "binary.csv";
     read_csv := fun _ =>
       Raise (UnicodeDecodeError (of_ascii "invalid start byte")) |}.

Definition notes_csv : csv_file :=
  {| csv_name := of_ascii "notes.csv"; read_csv := fun _ => Ok sample_notes |}.

Definition jan : str := of_ascii "jan".
Definition feb : str := of_ascii "feb".
Definition mar : str := of_ascii "mar".

(** Three directories: [jan] holds two spreadsheets, one of them broken,
    and three delimited-text files; the other two hold one spreadsheet
    each. The flag goes down after [stop] reads, if [stop] is a number. *)
Definition sample_env (stop : option nat) : environment :=
  {| glob_xlsx := fun d =>
       {| entries := if PyStr.eqb d jan
                     then [sample_xlsx; broken_xlsx]
                     else [sample_xlsx];
          scan_error := None |};
     glob_csv := fun d =>
       {| entries := if PyStr.eqb d jan
                     then [gbk_csv; binary_csv; notes_csv]
                     else [];
          scan_error := None |};
     stop_after := stop |}.

Definition sample_worker : AnalysisWorker :=
  {| directories := [jan; feb; mar];
     amount_column := of_ascii "amount";
     custom_headers := None |}.

(** The same, the target column being the name 合计 that the override gives
    to the second column. *)
Definition total_worker : AnalysisWorker :=
  {| directories := [jan; feb; mar];
     amount_column := heji;
     custom_headers := Some [of_ascii "city"; heji; of_ascii "amount"] |}.

(** *** Tables of numbers *)

Definition number_column (name : string) (dt : dtype) : column :=
  {| col_label := Name (of_ascii name); col_dtype := dt |}.

(** The double [m * 2 ^ e]. *)
Definition double (m e : Z) : float := binary_normalize 53 1024 m e false.















(** *** An override that names a summary *)

(** A sheet no name and no cell of which is a summary marker. *)
Definition plain_sheet : DataFrame :=
  {| header := [text_column "city"; number_column "code" int64;
                number_column "amount" int64];
     rows := [[text "Oslo"; CNum (I64 1); CNum (I64 12)];
              [text "Rome"; CNum (I64 2); CNum (I64 30)]] |}.

Definition plain_xlsx : xlsx_file :=
  {| xlsx_name := of_ascii "plain.xlsx"; read_excel := Ok plain_sheet |}.

Definition plain_csv : csv_file :=
  {| csv_name := of_ascii "plain.csv"; read_csv := fun _ => Ok plain_sheet |}.

Definition plain_env : environment :=
  {| glob_xlsx := fun _ => {| entries := [plain_xlsx]; scan_error := None |};
     glob_csv := fun _ => {| entries := [plain_csv]; scan_error := None |};
     stop_after := None |}.

(** The name 合计 between spaces. *)
Definition heji_padded : str := 32 :: heji ++ [32].

(** The override names the second column 合 计 and the third 合计, and the
    third is the target. *)
Definition naming_worker : AnalysisWorker :=
  {| directories := [jan];
     amount_column := heji;
     custom_headers := Some [of_ascii "city"; he_ji; heji] |}.

(** The override names the third column [total], and it is the target. *)
Definition renaming_worker : AnalysisWorker :=
  {| directories := [jan];
     amount_column := of_ascii "total";
     custom_headers := Some [of_ascii "city"; of_ascii "code";
                             of_ascii "total"] |}.

(** * The window

    [MainWindow] with its list of dropped directories ([FileDropWidget]),
    its editor of header names ([HeaderEditorDialog]) and the slots that
    receive the signals of the worker. The window is a record of its
    attributes and of the state of its widgets; a method is a computation
    on that record that can raise and that lists what it does outside the
    window (reads of files, console lines, message boxes, the worker it
    starts, the file it exports). *)

(** [str(n)] of a length. *)
Definition str_of_nat (n : nat) : str :=
  of_ascii (NilZero.string_of_uint (Nat.to_uint n)).

(** [str(z)] of an [int]. *)
Definition str_of_int (z : Z) : str :=
  of_ascii (NilZero.string_of_int (Z.to_int z)).

(** [s in l], for a list of strings. *)
Definition str_in (s : str) (l : list str) : bool := existsb (PyStr.eqb s) l.

(** [l[i] = x] for [i] in range; nothing changes out of range, where the
    widgets ignore the call. *)
Fixpoint set_at {A : Type} (i : nat) (x : A) (l : list A) : list A :=
  match l, i with
  | [], _ => []
  | _ :: l', O => x :: l'
  | a :: l', S i' => a :: set_at i' x l'
  end.

(** [s.rfind('.')], the positions counted from [i]; [None] is [-1]. *)
Fixpoint rfind_dot (s : str) (i : nat) : option nat :=
  match s with
  | [] => None
  | c :: s' =>
      match rfind_dot s' (S i) with
      | Some j => Some j
      | None => if c =? 46 then Some i else None
      end
  end.

(** [PurePath.suffix] of a path whose last component is [name]: from the
    last dot on, unless that dot is the first or the last character. *)
Definition suffix (name : str) : str :=
  match rfind_dot name 0 with
  | Some i =>
      if (0 <? i)%nat && (i <? List.length name - 1)%nat
      then skipn i name
      else []
  | None => []
  end.

Definition pattern_xlsx : str := of_ascii "*.xlsx".
Definition pattern_csv : str := of_ascii "*.csv".
Definition dot_csv : str := of_ascii ".csv".

(** [f"{x:,.2f}"] of an amount, which Python does: a parameter of the
    window. *)
Class AmountFormat (A : Type) := {
  format_amount : A -> str
}.

(** Digits in groups of three, separated by commas; the digits come and
    go least significant first. *)
Fixpoint group3 (r : str) : str :=
  match r with
  | a :: b :: c :: (_ :: _) as rest => a :: b :: c :: 44 :: group3 rest
  | _ => r
  end.

(** The number of hundredths nearest to [m * 2 ^ e], ties to even. *)
Definition hundredths (m : positive) (e : Z) : Z :=
  if 0 <=? e then 100 * Z.pos m * 2 ^ e
  else
    let d := 2 ^ (- e) in
    let q := (100 * Z.pos m) / d in
    let r := (100 * Z.pos m) mod d in
    if 2 * r <? d then q
    else if d <? 2 * r then q + 1
    else if Z.even q then q else q + 1.

(** A sample of it for the examples: the sign, the integer part in groups
    of three digits, and two decimals. *)
Definition format_double (x : float) : str :=
  match x with
  | S754_nan => of_ascii "nan"
  | S754_infinity s => (if s then [minus_sign] else []) ++ of_ascii "inf"
  | S754_zero s => (if s then [minus_sign] else []) ++ of_ascii "0.00"
  | S754_finite s m e =>
      let h := hundredths m e in
      (if s then [minus_sign] else [])
      ++ rev (group3 (rev (digits_of_N (Z.to_N (h / 100)))))
      ++ [46; 48 + (h mod 100) / 10; 48 + (h mod 100) mod 10]
  end.

Definition sample_format : AmountFormat num :=
  {| format_amount := fun x => format_double (to_double x) |}.

(** ** What the window meets outside itself *)

(** A file under a dropped directory: the last component of its path, and
    what [pd.read_csv(f, nrows=1)] and [pd.read_excel(f, nrows=1)] give. *)
Record file := {
  file_name : str;
  read_csv_nrows_1 : result DataFrame;
  read_excel_nrows_1 : result DataFrame
}.

(** The file system as one method of the window sees it: [os.path.isdir],
    [Path(directory).glob(pattern)] and [df.to_excel(path, index=False)],
    whose [None] is a file written. *)
Record filesystem := {
  isdir : str -> bool;
  glob : str -> str -> listing file;
  to_excel : str -> DataFrame -> option exn
}.

(** [list(it)] of a glob. *)
Definition list_of {A : Type} (l : listing A) : result (list A) :=
  match scan_error l with
  | Some e => Raise e
  | None => Ok (entries l)
  end.

(** A dropped URL, by its [toLocalFile()]. *)
Record QUrl := {
  toLocalFile : str
}.

(** ** The widgets *)

(** A [QListWidget]: the texts of its items, and whether it is enabled. *)
Record QListWidget := {
  list_items : list str;
  list_enabled : bool
}.

(** A [QComboBox] that is not editable: the texts of its items and its
    current index, [None] for [-1]. *)
Record QComboBox := {
  combo_items : list str;
  currentIndex : option nat
}.

(** [combo.clear()] *)
Definition combo_clear : QComboBox :=
  {| combo_items := []; currentIndex := None |}.

(** [combo.addItem(text)]: the first item of an empty box becomes the
    current one. *)
Definition combo_addItem (text : str) (c : QComboBox) : QComboBox :=
  {| combo_items := combo_items c ++ [text];
     currentIndex := match combo_items c with
                     | [] => Some 0%nat
                     | _ :: _ => currentIndex c
                     end |}.

(** [combo.currentText()]: empty when there is no current item. *)
Definition currentText (c : QComboBox) : str :=
  match currentIndex c with
  | Some i => nth i (combo_items c) []
  | None => []
  end.

(** The user picks the item [i] of the box. *)
Definition combo_select (i : nat) (c : QComboBox) : QComboBox :=
  if (i <? List.length (combo_items c))%nat
  then {| combo_items := combo_items c; currentIndex := Some i |}
  else c.

(** The rows of a [QTableWidget]: a cell is the text of its item, [None]
    when it has no item. *)
Definition QTableWidget := list (list (option str)).

(** [table.insertRow(row)] of a table of [width] columns. *)
Definition insertRow (width row : nat) (t : QTableWidget) : QTableWidget :=
  if (row <=? List.length t)%nat
  then firstn row t ++ repeat None width :: skipn row t
  else t.

(** [table.setItem(row, col, QTableWidgetItem(text))] *)
Definition setItem (row col : nat) (text : str) (t : QTableWidget)
  : QTableWidget :=
  match nth_error t row with
  | Some r => set_at row (set_at col (Some text) r) t
  | None => t
  end.

(** ** The state of the window *)

(** The attributes of [MainWindow] that its methods read or write. A button
    is whether it is enabled, a label or the status bar is its text;
    [worker] is [None] until [analyze_data] sets the attribute. *)
Record MainWindow := {
  window_directories : list str;
  dataframes : list DataFrame;
  all_results : list FileResult;
  window_custom_headers : option (list str);
  drop_widget : QListWidget;
  drop_label : str;
  amount_combo : QComboBox;
  header_edit_btn : bool;
  analyze_btn : bool;
  export_btn : bool;
  result_table : QTableWidget;
  total_label : str;
  status_bar : str;
  worker : option AnalysisWorker
}.

Definition set_directories (x : list str) (w : MainWindow) : MainWindow :=
  {| window_directories := x; dataframes := dataframes w;
     all_results := all_results w;
     window_custom_headers := window_custom_headers w;
     drop_widget := drop_widget w; drop_label := drop_label w;
     amount_combo := amount_combo w; header_edit_btn := header_edit_btn w;
     analyze_btn := analyze_btn w; export_btn := export_btn w;
     result_table := result_table w; total_label := total_label w;
     status_bar := status_bar w; worker := worker w |}.

Definition set_dataframes (x : list DataFrame) (w : MainWindow) : MainWindow :=
  {| window_directories := window_directories w; dataframes := x;
     all_results := all_results w;
     window_custom_headers := window_custom_headers w;
     drop_widget := drop_widget w; drop_label := drop_label w;
     amount_combo := amount_combo w; header_edit_btn := header_edit_btn w;
     analyze_btn := analyze_btn w; export_btn := export_btn w;
     result_table := result_table w; total_label := total_label w;
     status_bar := status_bar w; worker := worker w |}.

Definition set_all_results (x : list FileResult) (w : MainWindow)
  : MainWindow :=
  {| window_directories := window_directories w; dataframes := dataframes w;
     all_results := x;
     window_custom_headers := window_custom_headers w;
     drop_widget := drop_widget w; drop_label := drop_label w;
     amount_combo := amount_combo w; header_edit_btn := header_edit_btn w;
     analyze_btn := analyze_btn w; export_btn := export_btn w;
     result_table := result_table w; total_label := total_label w;
     status_bar := status_bar w; worker := worker w |}.

Definition set_custom_headers (x : option (list str)) (w : MainWindow)
  : MainWindow :=
  {| window_directories := window_directories w; dataframes := dataframes w;
     all_results := all_results w;
     window_custom_headers := x;
     drop_widget := drop_widget w; drop_label := drop_label w;
     amount_combo := amount_combo w; header_edit_btn := header_edit_btn w;
     analyze_btn := analyze_btn w; export_btn := export_btn w;
     result_table := result_table w; total_label := total_label w;
     status_bar := status_bar w; worker := worker w |}.

Definition set_drop_widget (x : QListWidget) (w : MainWindow) : MainWindow :=
  {| window_directories := window_directories w; dataframes := dataframes w;
     all_results := all_results w;
     window_custom_headers := window_custom_headers w;
     drop_widget := x; drop_label := drop_label w;
     amount_combo := amount_combo w; header_edit_btn := header_edit_btn w;
     analyze_btn := analyze_btn w; export_btn := export_btn w;
     result_table := result_table w; total_label := total_label w;
     status_bar := status_bar w; worker := worker w |}.

Definition set_drop_label (x : str) (w : MainWindow) : MainWindow :=
  {| window_directories := window_directories w; dataframes := dataframes w;
     all_results := all_results w;
     window_custom_headers := window_custom_headers w;
     drop_widget := drop_widget w; drop_label := x;
     amount_combo := amount_combo w; header_edit_btn := header_edit_btn w;
     analyze_btn := analyze_btn w; export_btn := export_btn w;
     result_table := result_table w; total_label := total_label w;
     status_bar := status_bar w; worker := worker w |}.

Definition set_amount_combo (x : QComboBox) (w : MainWindow) : MainWindow :=
  {| window_directories := window_directories w; dataframes := dataframes w;
     all_results := all_results w;
     window_custom_headers := window_custom_headers w;
     drop_widget := drop_widget w; drop_label := drop_label w;
     amount_combo := x; header_edit_btn := header_edit_btn w;
     analyze_btn := analyze_btn w; export_btn := export_btn w;
     result_table := result_table w; total_label := total_label w;
     status_bar := status_bar w; worker := worker w |}.

Definition set_header_edit_btn (x : bool) (w : MainWindow) : MainWindow :=
  {| window_directories := window_directories w; dataframes := dataframes w;
     all_results := all_results w;
     window_custom_headers := window_custom_headers w;
     drop_widget := drop_widget w; drop_label := drop_label w;
     amount_combo := amount_combo w; header_edit_btn := x;
     analyze_btn := analyze_btn w; export_btn := export_btn w;
     result_table := result_table w; total_label := total_label w;
     status_bar := status_bar w; worker := worker w |}.

Definition set_analyze_btn (x : bool) (w : MainWindow) : MainWindow :=
  {| window_directories := window_directories w; dataframes := dataframes w;
     all_results := all_results w;
     window_custom_headers := window_custom_headers w;
     drop_widget := drop_widget w; drop_label := drop_label w;
     amount_combo := amount_combo w; header_edit_btn := header_edit_btn w;
     analyze_btn := x; export_btn := export_btn w;
     result_table := result_table w; total_label := total_label w;
     status_bar := status_bar w; worker := worker w |}.

Definition set_export_btn (x : bool) (w : MainWindow) : MainWindow :=
  {| window_directories := window_directories w; dataframes := dataframes w;
     all_results := all_results w;
     window_custom_headers := window_custom_headers w;
     drop_widget := drop_widget w; drop_label := drop_label w;
     amount_combo := amount_combo w; header_edit_btn := header_edit_btn w;
     analyze_btn := analyze_btn w; export_btn := x;
     result_table := result_table w; total_label := total_label w;
     status_bar := status_bar w; worker := worker w |}.

Definition set_result_table (x : QTableWidget) (w : MainWindow) : MainWindow :=
  {| window_directories := window_directories w; dataframes := dataframes w;
     all_results := all_results w;
     window_custom_headers := window_custom_headers w;
     drop_widget := drop_widget w; drop_label := drop_label w;
     amount_combo := amount_combo w; header_edit_btn := header_edit_btn w;
     analyze_btn := analyze_btn w; export_btn := export_btn w;
     result_table := x; total_label := total_label w;
     status_bar := status_bar w; worker := worker w |}.

Definition set_total_label (x : str) (w : MainWindow) : MainWindow :=
  {| window_directories := window_directories w; dataframes := dataframes w;
     all_results := all_results w;
     window_custom_headers := window_custom_headers w;
     drop_widget := drop_widget w; drop_label := drop_label w;
     amount_combo := amount_combo w; header_edit_btn := header_edit_btn w;
     analyze_btn := analyze_btn w; export_btn := export_btn w;
     result_table := result_table w; total_label := x;
     status_bar := status_bar w; worker := worker w |}.

Definition set_status_bar (x : str) (w : MainWindow) : MainWindow :=
  {| window_directories := window_directories w; dataframes := dataframes w;
     all_results := all_results w;
     window_custom_headers := window_custom_headers w;
     drop_widget := drop_widget w; drop_label := drop_label w;
     amount_combo := amount_combo w; header_edit_btn := header_edit_btn w;
     analyze_btn := analyze_btn w; export_btn := export_btn w;
     result_table := result_table w; total_label := total_label w;
     status_bar := x; worker := worker w |}.

Definition set_worker (x : option AnalysisWorker) (w : MainWindow)
  : MainWindow :=
  {| window_directories := window_directories w; dataframes := dataframes w;
     all_results := all_results w;
     window_custom_headers := window_custom_headers w;
     drop_widget := drop_widget w; drop_label := drop_label w;
     amount_combo := amount_combo w; header_edit_btn := header_edit_btn w;
     analyze_btn := analyze_btn w; export_btn := export_btn w;
     result_table := result_table w; total_label := total_label w;
     status_bar := status_bar w; worker := x |}.

(** The kinds of [QMessageBox] the window shows. *)
Inductive icon := warning | critical | information.

(** What a method of the window does that is seen outside the window. *)
Inductive gui_action :=
| ReadHeader (name : str) (as_csv : bool)
| PrintHeaderFailure (e : exn)
| MessageBox (kind : icon) (title text : str)
| HeaderDialog (headers : list str)
| SaveFileDialog
| ToExcel (file_path : str) (df : DataFrame)
| Start (thread : AnalysisWorker).

(** A method of the window: from the window before, the value returned or
    the exception that leaves the method, the window after, and what was
    done outside meanwhile. *)
Record wstep (A : Type) := WStep {
  w_outcome : result A;
  w_after : MainWindow;
  w_trace : list gui_action
}.

Arguments WStep {A} w_outcome w_after w_trace.
Arguments w_outcome {A} w.
Arguments w_after {A} w.
Arguments w_trace {A} w.

Definition W (A : Type) := MainWindow -> wstep A.

Definition wret {A : Type} (a : A) : W A :=
  fun w => WStep (Ok a) w [].

Definition wbind {A B : Type} (m : W A) (k : A -> W B) : W B :=
  fun w =>
    let r := m w in
    match w_outcome r with
    | Ok a => let r' := k a (w_after r) in
              WStep (w_outcome r') (w_after r') (w_trace r ++ w_trace r')
    | Raise e => WStep (Raise e) (w_after r) (w_trace r)
    end.

(** [try: m except Exception as e: handler(e)] *)
Definition wtry {A : Type} (m : W A) (handler : exn -> W A) : W A :=
  fun w =>
    let r := m w in
    match w_outcome r with
    | Ok a => r
    | Raise e => let r' := handler e (w_after r) in
                 WStep (w_outcome r') (w_after r') (w_trace r ++ w_trace r')
    end.

Definition wlift {A : Type} (r : result A) : W A :=
  fun w => WStep r w [].

Definition wtell (a : gui_action) : W unit :=
  fun w => WStep (Ok tt) w [a].

Definition wget : W MainWindow :=
  fun w => WStep (Ok w) w [].

(** An assignment to an attribute, or a call of a widget. *)
Definition modify (f : MainWindow -> MainWindow) : W unit :=
  fun w => WStep (Ok tt) (f w) [].

Notation "x <~ m ;; k" := (wbind m (fun x => k))
  (at level 61, m at next level, right associativity).
Notation "m >> k" := (wbind m (fun _ => k))
  (at level 61, right associativity).

(** ** The texts of the window *)

(** 个文件, and the closing parenthesis. *)
Definition files_suffix : str := [20010; 25991; 20214; 41].
(** 已添加, and a space. *)
Definition added_prefix : str := [24050; 28155; 21152; 32].
(** A space, and 个目录. *)
Definition added_suffix : str := [32; 20010; 30446; 24405].
(** A space, and 个目录，可继续拖拽添加. *)
Definition added_label_suffix : str :=
  [32; 20010; 30446; 24405; 65292; 21487; 32487; 32493; 25302; 25341; 28155;
   21152].
(** 拖拽目录到这里（支持Excel/CSV文件） *)
Definition drop_hint : str :=
  [25302; 25341; 30446; 24405; 21040; 36825; 37324; 65288; 25903; 25345; 69;
   120; 99; 101; 108; 47; 67; 83; 86; 25991; 20214; 65289].
(** 已清空目录列表 *)
Definition cleared_message : str :=
  [24050; 28165; 31354; 30446; 24405; 21015; 34920].
(** 准备就绪 *)
Definition ready_message : str := [20934; 22791; 23601; 32490].
(** 警告 *)
Definition warning_title : str := [35686; 21578].
(** 请先添加目录 *)
Definition add_directories_first : str :=
  [35831; 20808; 28155; 21152; 30446; 24405].
(** 请选择金额列 *)
Definition choose_amount_column : str :=
  [35831; 36873; 25321; 37329; 39069; 21015].
(** 没有数据可导出 *)
Definition nothing_to_export : str :=
  [27809; 26377; 25968; 25454; 21487; 23548; 20986].
(** 总计 - 目录数, a colon and a space. *)
Definition total_prefix : str :=
  [24635; 35745; 32; 45; 32; 30446; 24405; 25968; 58; 32].
(** A comma, a space, 文件数, a colon and a space. *)
Definition total_files_part : str := [44; 32; 25991; 20214; 25968; 58; 32].
(** A comma, a space, 总金额, a colon and a space. *)
Definition total_amount_part : str := [44; 32; 24635; 37329; 39069; 58; 32].
(** 分析完成，共处理, and a space. *)
Definition finished_prefix : str :=
  [20998; 26512; 23436; 25104; 65292; 20849; 22788; 29702; 32].
(** A space, and 个文件. *)
Definition finished_suffix : str := [32; 20010; 25991; 20214].
(** 错误 *)
Definition error_title : str := [38169; 35823].
(** 分析数据时出错, a colon and a space. *)
Definition analysis_error_prefix : str :=
  [20998; 26512; 25968; 25454; 26102; 20986; 38169; 58; 32].
(** 分析出错 *)
Definition analysis_error_status : str := [20998; 26512; 20986; 38169].
(** 成功 *)
Definition success_title : str := [25104; 21151].
(** 数据已导出到, and a space. *)
Definition exported_prefix : str :=
  [25968; 25454; 24050; 23548; 20986; 21040; 32].
(** 导出失败, a colon and a space. *)
Definition export_failure_prefix : str := [23548; 20986; 22833; 36133; 58; 32].
(** The four headers of the exported sheet: 目录, 文件名, 月结卡号, 金额. *)
Definition col_directory : str := [30446; 24405].
Definition col_filename : str := [25991; 20214; 21517].
Definition col_monthly_card : str := [26376; 32467; 21345; 21495].
Definition col_amount : str := [37329; 39069].

(** [f"{directory} ({file_count}个文件)"] *)
Definition item_text (d : str) (file_count : nat) : str :=
  d ++ [32; 40] ++ str_of_nat file_count ++ files_suffix.

(** ** The drop target *)

(** [FileDropWidget.dropEvent]: the list that [directories_dropped] emits,
    [None] when nothing is emitted, and whether the event is accepted. *)
Definition dropEvent (fs : filesystem) (urls : list QUrl)
  : option (list str) * bool :=
  let directories := filter (isdir fs) (map toLocalFile urls) in
  (match directories with
   | [] => None
   | _ :: _ => Some directories
   end, true).

(** ** The editor of the header names *)

Record HeaderEditorDialog := {
  dialog_headers : list str;
  dialog_table : QTableWidget
}.

(** [for i, header in enumerate(self.headers):
        self.table.setItem(i, 0, QTableWidgetItem(header))], from [i] on. *)
Fixpoint set_items (i : nat) (headers : list str) (t : QTableWidget)
  : QTableWidget :=
  match headers with
  | [] => t
  | header :: rest => set_items (S i) rest (setItem i 0 header t)
  end.

(** [HeaderEditorDialog.__init__] and [init_ui]: a table of one column and
    [len(headers)] rows, then the items. *)
Definition init_ui (headers : list str) : HeaderEditorDialog :=
  {| dialog_headers := headers;
     dialog_table :=
       set_items 0 headers (repeat [None] (List.length headers)) |}.

(** [table.item(row, col)] *)
Definition item (row col : nat) (t : QTableWidget) : option str :=
  match nth_error t row with
  | Some r => nth col r None
  | None => None
  end.

(** [HeaderEditorDialog.get_edited_headers] *)
Definition get_edited_headers (dialog : HeaderEditorDialog) : list str :=
  flat_map (fun i => opt_list (item i 0 (dialog_table dialog)))
    (seq 0 (List.length (dialog_table dialog))).

(** What the user does with the dialog: the cells typed into, in order,
    each with its row and its new text, and the button that closes it. *)
Record session := {
  edits : list (nat * str);
  accepted : bool
}.

(** [dialog.exec_()]: typing into a cell sets the text of its item. *)
Definition exec_ (user : session) (dialog : HeaderEditorDialog)
  : HeaderEditorDialog * bool :=
  (fold_left
     (fun d e => {| dialog_headers := dialog_headers d;
                    dialog_table :=
                      setItem (fst e) 0 (snd e) (dialog_table d) |})
     (edits user) dialog,
   accepted user).

(** ** The methods of the window *)

(** [MainWindow.__init__] *)
Definition MainWindow_init : MainWindow :=
  {| window_directories := [];
     dataframes := [];
     all_results := [];
     window_custom_headers := None;
     drop_widget := {| list_items := []; list_enabled := true |};
     drop_label := drop_hint;
     amount_combo := combo_clear;
     header_edit_btn := false;
     analyze_btn := false;
     export_btn := false;
     result_table := [];
     total_label := [];
     status_bar := ready_message;
     worker := None |}.

(** [self.directories] is never bound again: [append] and [clear] change
    the one list, which is also the [directories] of the worker that
    [analyze_data] made. *)
Definition mutate_directories (x : list str) (w : MainWindow) : MainWindow :=
  set_worker
    (option_map (fun t => {| directories := x;
                             amount_column := amount_column t;
                             custom_headers := custom_headers t |})
       (worker w))
    (set_directories x w).

Definition list_addItem (text : str) (l : QListWidget) : QListWidget :=
  {| list_items := list_items l ++ [text]; list_enabled := list_enabled l |}.

Definition list_clear (l : QListWidget) : QListWidget :=
  {| list_items := []; list_enabled := list_enabled l |}.

Definition list_setEnabled (b : bool) (l : QListWidget) : QListWidget :=
  {| list_items := list_items l; list_enabled := b |}.

(** [self.amount_combo.addItem(text)] *)
Definition amount_combo_addItem (text : str) : W unit :=
  modify (fun w => set_amount_combo (combo_addItem text (amount_combo w)) w).

(** The first line of the [TypeError] of [addItem] on an argument that is
    not a [str]. *)
Definition addItem_type_error : str :=
  of_ascii "arguments did not match any overloaded call".

(** [for header in df.columns: ...] of [scan_first_file_headers]. *)
Fixpoint add_headers (cols : list label) : W unit :=
  match cols with
  | [] => wret tt
  | header :: cols' =>
      (if is_total_label header
       then wret tt
       else match header with
            | Name s => amount_combo_addItem s
            | NotStr _ => wlift (Raise (Exception addItem_type_error))
            end) >>
      add_headers cols'
  end.

(** The body of the [try] of [scan_first_file_headers], up to its
    [return]. *)
Definition probe (f : file) : W unit :=
  df <~ (if PyStr.eqb (suffix (file_name f)) dot_csv
         then wtell (ReadHeader (file_name f) true) >>
              wlift (read_csv_nrows_1 f)
         else wtell (ReadHeader (file_name f) false) >>
              wlift (read_excel_nrows_1 f)) ;;
  modify (set_amount_combo combo_clear) >>
  add_headers (columns df) >>
  modify (set_header_edit_btn true).

(** Whether a [return] ended the method. *)
Inductive flow := next | returned.

(** The [try] of [scan_first_file_headers] at the file [f]: its body ends
    with [return], its [except] with [continue]. *)
Definition try_probe (f : file) : W flow :=
  wtry (probe f >> wret returned)
    (fun e => wtell (PrintHeaderFailure e) >> wret next).

(** One round of [for ext in ['*.xlsx', '*.csv']]. *)
Definition scan_pattern (fs : filesystem) (d ext : str) : W flow :=
  files <~ wlift (list_of (glob fs d ext)) ;;
  match files with
  | [] => wret next
  | f :: _ => try_probe f
  end.

Fixpoint scan_patterns (fs : filesystem) (d : str) (exts : list str)
  : W flow :=
  match exts with
  | [] => wret next
  | ext :: exts' =>
      r <~ scan_pattern fs d ext ;;
      match r with
      | returned => wret returned
      | next => scan_patterns fs d exts'
      end
  end.

Fixpoint scan_directories (fs : filesystem) (ds : list str) : W unit :=
  match ds with
  | [] => wret tt
  | d :: ds' =>
      r <~ scan_patterns fs d [pattern_xlsx; pattern_csv] ;;
      match r with
      | returned => wret tt
      | next => scan_directories fs ds'
      end
  end.

(** [MainWindow.scan_first_file_headers] *)
Definition scan_first_file_headers (fs : filesystem) : W unit :=
  w <~ wget ;;
  scan_directories fs (window_directories w).

(** [MainWindow.update_controls] *)
Definition update_controls (fs : filesystem) : W unit :=
  w <~ wget ;;
  let has_directories := (0 <? List.length (window_directories w))%nat in
  modify (set_analyze_btn has_directories) >>
  if has_directories
  then
    modify (set_drop_label
              (added_prefix
               ++ str_of_nat (List.length (window_directories w))
               ++ added_label_suffix)) >>
    scan_first_file_headers fs
  else wret tt.

(** The body of [if directory not in self.directories]: the directory is
    appended, its files of both kinds are counted, and the list gets its
    item. *)
Definition add_directory (fs : filesystem) (d : str) : W unit :=
  modify (fun w => mutate_directories (window_directories w ++ [d]) w) >>
  excel_files <~ wlift (list_of (glob fs d pattern_xlsx)) ;;
  csv_files <~ wlift (list_of (glob fs d pattern_csv)) ;;
  let file_count := (List.length excel_files + List.length csv_files)%nat in
  modify (fun w => set_drop_widget
                     (list_addItem (item_text d file_count) (drop_widget w))
                     w).

(** [for directory in directories: ...] of [add_directories]. *)
Fixpoint add_each (fs : filesystem) (ds : list str) : W unit :=
  match ds with
  | [] => wret tt
  | d :: ds' =>
      w <~ wget ;;
      (if str_in d (window_directories w)
       then wret tt
       else add_directory fs d) >>
      add_each fs ds'
  end.

(** [MainWindow.add_directories] *)
Definition add_directories (fs : filesystem) (ds : list str) : W unit :=
  add_each fs ds >>
  update_controls fs >>
  modify (set_status_bar
            (added_prefix ++ str_of_nat (List.length ds) ++ added_suffix)).

(** [MainWindow.clear_directories] *)
Definition clear_directories (fs : filesystem) : W unit :=
  modify (mutate_directories []) >>
  modify (fun w => set_drop_widget (list_clear (drop_widget w)) w) >>
  update_controls fs >>
  modify (set_drop_label drop_hint) >>
  modify (set_status_bar cleared_message).

(** [for header in edited_headers: self.amount_combo.addItem(header)] *)
Fixpoint add_items (texts : list str) : W unit :=
  match texts with
  | [] => wret tt
  | text :: rest => amount_combo_addItem text >> add_items rest
  end.

(** [combo.itemText(i)] *)
Definition itemText (i : nat) (c : QComboBox) : str := nth i (combo_items c) [].

(** [MainWindow.edit_headers], the user doing [user] with the dialog. *)
Definition edit_headers (user : session) : W unit :=
  w <~ wget ;;
  let current_headers :=
    map (fun i => itemText i (amount_combo w))
      (seq 0 (List.length (combo_items (amount_combo w)))) in
  wtell (HeaderDialog current_headers) >>
  let closed := exec_ user (init_ui current_headers) in
  if snd closed
  then
    let edited_headers := get_edited_headers (fst closed) in
    modify (set_custom_headers (Some edited_headers)) >>
    modify (set_amount_combo combo_clear) >>
    add_items edited_headers
  else wret tt.

(** The worker [analyze_data] makes of the window. *)
Definition worker_of (w : MainWindow) : AnalysisWorker :=
  {| directories := window_directories w;
     amount_column := currentText (amount_combo w);
     custom_headers := window_custom_headers w |}.

(** [MainWindow.analyze_data] *)
Definition analyze_data : W unit :=
  w <~ wget ;;
  match window_directories w with
  | [] => wtell (MessageBox warning warning_title add_directories_first)
  | _ :: _ =>
      if PyStr.eqb (currentText (amount_combo w)) []
      then wtell (MessageBox warning warning_title choose_amount_column)
      else
        modify (set_result_table []) >>
        modify (set_dataframes []) >>
        modify (set_all_results []) >>
        modify (set_analyze_btn false) >>
        modify (set_header_edit_btn false) >>
        modify (fun w => set_drop_widget
                           (list_setEnabled false (drop_widget w)) w) >>
        modify (set_export_btn false) >>
        modify (set_worker (Some (worker_of w))) >>
        wtell (Start (worker_of w))
  end.

(** ** The export *)

(** [pd.DataFrame(records)] of the result dictionaries: a column for each
    key, in the order of the keys; texts make an [object] column, the
    amounts a [float64] one. *)
Definition DataFrame_of_records (records : list FileResult) : DataFrame :=
  {| header := [ {| col_label := Name (of_ascii "directory");
                    col_dtype := object |};
                 {| col_label := Name (of_ascii "filename");
                    col_dtype := object |};
                 {| col_label := Name (of_ascii "monthly_card");
                    col_dtype := object |};
                 {| col_label := Name (of_ascii "amount");
                    col_dtype := float64 |} ];
     rows := map (fun r => [CStr (directory r); CStr (filename r);
                            CStr (monthly_card r); CNum (amount r)])
               records |}.

(** [df.rename(columns=mapping)]: a label that is a key of [mapping] takes
    its value, the others stay. *)
Definition rename (mapping : list (str * str)) (df : DataFrame) : DataFrame :=
  {| header :=
       map (fun c =>
              {| col_label :=
                   match col_label c with
                   | Name s =>
                       match find (fun kv => PyStr.eqb (fst kv) s) mapping with
                       | Some kv => Name (snd kv)
                       | None => Name s
                       end
                   | NotStr s => NotStr s
                   end;
                 col_dtype := col_dtype c |})
         (header df);
     rows := rows df |}.

(** [df[cols]] for a list of labels: the columns of these labels, in the
    order of [cols]; [KeyError] when a label is of no column. *)
Definition getitem_list (cols : list label) (df : DataFrame)
  : result DataFrame :=
  match find (fun c => negb (label_in c (columns df))) cols with
  | Some c => Raise (KeyError (str_label c))
  | None =>
      let js :=
        flat_map (fun c => positions (map (label_eqb c) (columns df)) 0)
          cols in
      Ok {| header :=
              map (fun j => nth j (header df)
                              {| col_label := Name []; col_dtype := object |})
                js;
            rows := map (fun r => map (fun j => nth j r CNaN) js) (rows df) |}
  end.

(** The table [export_data] writes. *)
Definition export_table (records : list FileResult) : result DataFrame :=
  let df := DataFrame_of_records records in
  let df := rename [(of_ascii "directory", col_directory);
                    (of_ascii "filename", col_filename);
                    (of_ascii "monthly_card", col_monthly_card);
                    (of_ascii "amount", col_amount)] df in
  getitem_list [Name col_directory; Name col_filename;
                Name col_monthly_card; Name col_amount] df.

(** [MainWindow.export_data], the user leaving the file dialog with the
    path [file_path], empty when the dialog is cancelled. *)
Definition export_data (fs : filesystem) (file_path : str) : W unit :=
  w <~ wget ;;
  match all_results w with
  | [] => wtell (MessageBox warning warning_title nothing_to_export)
  | _ :: _ =>
      wtell SaveFileDialog >>
      match file_path with
      | [] => wret tt
      | _ :: _ =>
          wtry
            (df <~ wlift (export_table (all_results w)) ;;
             wtell (ToExcel file_path df) >>
             wlift (match to_excel fs file_path df with
                    | Some e => Raise e
                    | None => Ok tt
                    end) >>
             wtell (MessageBox information success_title
                      (exported_prefix ++ file_path)))
            (fun e => wtell (MessageBox critical error_title
                               (export_failure_prefix ++ str_exn e)))
      end
  end.

(** [MainWindow.clear_data] *)
Definition clear_data : W unit :=
  modify (mutate_directories []) >>
  modify (set_dataframes []) >>
  modify (set_all_results []) >>
  modify (fun w => set_drop_widget (list_clear (drop_widget w)) w) >>
  modify (set_result_table []) >>
  modify (set_total_label []) >>
  modify (set_amount_combo combo_clear) >>
  modify (set_header_edit_btn false) >>
  modify (set_analyze_btn false) >>
  modify (set_export_btn false) >>
  modify (set_drop_label drop_hint).

(** ** The slots of the signals *)

Section Slots.

Context {fmt : AmountFormat num}.

(** [MainWindow.update_progress] *)
Definition update_progress (message : str) : W unit :=
  modify (set_status_bar message).

(** [MainWindow.update_result_table] *)
Definition update_result_table (r : FileResult) : W unit :=
  w <~ wget ;;
  let row := List.length (result_table w) in
  modify (fun w => set_result_table
                     (insertRow 4 row (result_table w)) w) >>
  modify (fun w => set_result_table
                     (setItem row 0 (directory r) (result_table w)) w) >>
  modify (fun w => set_result_table
                     (setItem row 1 (filename r) (result_table w)) w) >>
  modify (fun w => set_result_table
                     (setItem row 2 (monthly_card r) (result_table w)) w) >>
  modify (fun w => set_result_table
                     (setItem row 3 (format_amount (amount r))
                        (result_table w)) w) >>
  modify (fun w => set_all_results (all_results w ++ [r]) w).

(** The text of the label of the totals. *)
Definition total_text (n_directories : nat) (summary : RunSummary) : str :=
  total_prefix ++ str_of_nat n_directories
  ++ total_files_part ++ str_of_int (total_files summary)
  ++ total_amount_part ++ format_amount (total_amount summary).

(** The controls are enabled again, at the end of both final slots. *)
Definition restore_controls : W unit :=
  modify (set_analyze_btn true) >>
  modify (set_header_edit_btn true) >>
  modify (fun w => set_drop_widget
                     (list_setEnabled true (drop_widget w)) w) >>
  modify (set_export_btn true).

(** [MainWindow.analysis_finished] *)
Definition analysis_finished (summary : RunSummary) : W unit :=
  w <~ wget ;;
  modify (set_total_label
            (total_text (List.length (window_directories w)) summary)) >>
  modify (set_status_bar
            (finished_prefix ++ str_of_int (total_files summary)
             ++ finished_suffix)) >>
  restore_controls.

(** [MainWindow.analysis_error] *)
Definition analysis_error (error_msg : str) : W unit :=
  wtell (MessageBox critical error_title
           (analysis_error_prefix ++ error_msg)) >>
  modify (set_status_bar analysis_error_status) >>
  restore_controls.

(** A signal of the worker reaches the slot [analyze_data] connected it
    to. *)
Definition deliver (sg : signal) : W unit :=
  match sg with
  | progress_updated message => update_progress message
  | file_result_ready r => update_result_table r
  | finished_analysis summary => analysis_finished summary
  | error_occurred error_msg => analysis_error error_msg
  end.


(** ** The life of a window *)

(** What happens to a window: a drop on the list of directories, a click
    on a button, a choice in the box of the columns, a signal of the worker
    reaching its slot, a call of [clear_data]. *)
Inductive call :=
| Drop (fs : filesystem) (urls : list QUrl)
| ClearDirectories (fs : filesystem)
| EditHeaders (user : session)
| SelectColumn (i : nat)
| AnalyzeData
| Deliver (sg : signal)
| ExportData (fs : filesystem) (file_path : str)
| ClearData.

Definition invoke (c : call) : W unit :=
  match c with
  | Drop fs urls =>
      match fst (dropEvent fs urls) with
      | Some ds => add_directories fs ds
      | None => wret tt
      end
  | ClearDirectories fs => clear_directories fs
  | EditHeaders user => edit_headers user
  | SelectColumn i =>
      modify (fun w => set_amount_combo (combo_select i (amount_combo w)) w)
  | AnalyzeData => analyze_data
  | Deliver sg => deliver sg
  | ExportData fs file_path => export_data fs file_path
  | ClearData => clear_data
  end.

(** The calls [cs] one after the other; an exception that leaves a method
    ends the application. *)
Fixpoint invoke_all (cs : list call) : W unit :=
  match cs with
  | [] => wret tt
  | c :: cs' => invoke c >> invoke_all cs'
  end.

End Slots.

(** ** More vocabulary for the statements

    For the worker when a glob fails, and for the window. *)

(** The first glob of the directory [d] that fails, before the run has done
    with [d]: the one of the spreadsheets, else the one of the
    delimited-text files. *)
Definition first_scan_error (env : environment) (d : str) : option exn :=
  match scan_error (glob_xlsx env d) with
  | Some e => Some e
  | None => scan_error (glob_csv env d)
  end.

(** The results of the directory [d] up to the failure of a glob: a glob
    fails at its end, after the files it has yielded. *)
Definition results_before_failure (self : AnalysisWorker) (env : environment)
  (d : str) : list FileResult :=
  flat_map (fun f => opt_list (xlsx_result self d f)) (entries (glob_xlsx env d))
  ++ match scan_error (glob_xlsx env d) with
     | Some _ => []
     | None =>
         flat_map (fun f => opt_list (csv_result self d f))
           (entries (glob_csv env d))
     end.

(** Every row has a cell for every column. *)
Definition rectangular (df : DataFrame) : Prop :=
  Forall (fun r => List.length r = List.length (header df)) (rows df).

(** The number the item of the directory [d] shows: its files of both
    kinds. *)
Definition file_count (fs : filesystem) (d : str) : nat :=
  (List.length (entries (glob fs d pattern_xlsx))
   + List.length (entries (glob fs d pattern_csv)))%nat.

(** The items of the list are those of the directories, one each and in
    their order. *)
Definition listed (w : MainWindow) : Prop :=
  Forall2 (fun d text => exists n, text = item_text d n)
    (window_directories w) (list_items (drop_widget w)).

(** The files [scan_first_file_headers] may read: of each directory, the
    first spreadsheet and then the first delimited-text file. *)
Definition candidates (fs : filesystem) (ds : list str) : list file :=
  flat_map (fun d => firstn 1 (entries (glob fs d pattern_xlsx))
                     ++ firstn 1 (entries (glob fs d pattern_csv))) ds.

(** The read of the header of [f]: as delimited text when the suffix of
    its name is [.csv], as a spreadsheet otherwise. *)
Definition header_read (f : file) : result DataFrame :=
  if PyStr.eqb (suffix (file_name f)) dot_csv
  then read_csv_nrows_1 f
  else read_excel_nrows_1 f.

Definition read_of (f : file) : gui_action :=
  ReadHeader (file_name f) (PyStr.eqb (suffix (file_name f)) dot_csv).

(** The labels the box of the columns is offered: those that are not a
    summary marker. *)
Definition offered (cols : list label) : list label :=
  filter (fun c => negb (is_total_label c)) cols.

Definition is_str (c : label) : bool :=
  match c with
  | Name _ => true
  | NotStr _ => false
  end.

(** A box filled from empty with the texts [texts]. *)
Definition combo_of (texts : list str) : QComboBox :=
  {| combo_items := texts;
     currentIndex := match texts with
                     | [] => None
                     | _ :: _ => Some 0%nat
                     end |}.

(** What the probe of [f] ends with: [None] when it reaches its [return],
    else the exception its [except] prints. *)
Definition probe_failure (f : file) : option exn :=
  match header_read f with
  | Ok df =>
      if forallb is_str (offered (columns df))
      then None
      else Some (Exception addItem_type_error)
  | Raise e => Some e
  end.

(** What is done outside the window at a file whose probe fails. *)
Definition failed_probe (f : file) : list gui_action :=
  match probe_failure f with
  | Some e => [read_of f; PrintHeaderFailure e]
  | None => []
  end.

(** The loop of [scan_first_file_headers] over the files it may read. *)
Fixpoint scan_files (fs : list file) : W unit :=
  match fs with
  | [] => wret tt
  | f :: fs' =>
      r <~ try_probe f ;;
      match r with
      | returned => wret tt
      | next => scan_files fs'
      end
  end.

(** The window but for the box of the columns. *)
Definition but_amount_combo (w : MainWindow) : MainWindow :=
  set_amount_combo combo_clear w.

(** The window but for the box of the columns and the button of the
    editor of the headers. *)
Definition but_headers (w : MainWindow) : MainWindow :=
  set_header_edit_btn false (set_amount_combo combo_clear w).

(** The exported sheet of the results [rs]. *)
Definition sheet_of (rs : list FileResult) : DataFrame :=
  {| header := [ {| col_label := Name col_directory; col_dtype := object |};
                 {| col_label := Name col_filename; col_dtype := object |};
                 {| col_label := Name col_monthly_card; col_dtype := object |};
                 {| col_label := Name col_amount; col_dtype := float64 |} ];
     rows := map (fun r => [CStr (directory r); CStr (filename r);
                            CStr (monthly_card r); CNum (amount r)]) rs |}.

(** A table of one column whose rows all have an item. *)
Definition one_column (hs : list str) : QTableWidget :=
  map (fun h => [Some h]) hs.

(** The header names after the user's edits: each edit replaces the name
    of its row, when there is such a row. *)
Definition edited (headers : list str) (edits : list (nat * str)) : list str :=
  fold_left (fun hs e => set_at (fst e) (snd e) hs) edits headers.

Section SlotsVocabulary.

Context {fmt : AmountFormat num}.

(** The row of the table of the results for the result [r]. *)
Definition table_row (r : FileResult) : list (option str) :=
  [Some (directory r); Some (filename r); Some (monthly_card r);
   Some (format_amount (amount r))].

(** The table of the results shows the results received, in order. *)
Definition shown (w : MainWindow) : Prop :=
  result_table w = map table_row (all_results w).

(** The window once [analyze_data] has started the worker. *)
Definition started (w : MainWindow) : MainWindow :=
  set_worker (Some (worker_of w))
    (set_export_btn false
       (set_drop_widget (list_setEnabled false (drop_widget w))
          (set_header_edit_btn false
             (set_analyze_btn false
                (set_all_results []
                   (set_dataframes []
                      (set_result_table [] w))))))).

(** The three buttons and the list that [analyze_data] disables are
    disabled. *)
Definition disabled (w : MainWindow) : Prop :=
  analyze_btn w = false
  /\ header_edit_btn w = false
  /\ export_btn w = false
  /\ list_enabled (drop_widget w) = false.

(** The call [c] can reach the window [w] while a run goes on: it is a
    signal of the run other than its last one, or it comes from a control
    that is enabled, as a disabled button is not clicked and a disabled
    list takes no drop. The button that clears the directories and the box
    of the columns are never disabled, and [clear_data] is bound to no
    control. *)
Definition can_happen (c : call) (w : MainWindow) : bool :=
  match c with
  | Drop _ _ => list_enabled (drop_widget w)
  | EditHeaders _ => header_edit_btn w
  | AnalyzeData => analyze_btn w
  | ExportData _ _ => export_btn w
  | Deliver sg => negb (is_terminal sg)
  | ClearDirectories _ | SelectColumn _ | ClearData => true
  end.

(** The calls [cs] can reach the window one after the other, from [w]
    on. *)
Fixpoint can_all_happen (cs : list call) (w : MainWindow) : bool :=
  match cs with
  | [] => true
  | c :: cs' => can_happen c w && can_all_happen cs' (w_after (invoke c w))
  end.

End SlotsVocabulary.

(** The method [m] leaves the part [proj] of the window as it was, even
    when it raises. *)
Definition keeps {T A : Type} (proj : MainWindow -> T) (m : W A) : Prop :=
  forall w, proj (w_after (m w)) = proj w.

(** The method [m] does not raise. *)
Definition returns {A : Type} (m : W A) : Prop :=
  forall w, exists a, w_outcome (m w) = Ok a.

(** The part of the window that only [edit_headers] and the slots of the
    results write. *)
Definition results_part (w : MainWindow)
  : option (list str) * QTableWidget * list FileResult :=
  (window_custom_headers w, result_table w, all_results w).

(** The directories and the items of their list. *)
Definition directories_part (w : MainWindow) : list str * list str :=
  (window_directories w, list_items (drop_widget w)).

(** ** Sample data of the window *)

(** What a read of one row gives of the sample sheet. *)
Definition sample_sheet_head : DataFrame :=
  {| header := header sample_sheet;
     rows := firstn 1 (rows sample_sheet) |}.

(** A spreadsheet whose header is read. *)
Definition sheet_file : file :=
  {| file_name := name_with_card;
     read_csv_nrows_1 :=
       Raise (UnicodeDecodeError (of_ascii "invalid start byte"));
     read_excel_nrows_1 := Ok sample_sheet_head |}.

(** A file the spreadsheet parser rejects. *)
Definition broken_file : file :=
  {| file_name := of_ascii "broken.xlsx";
     read_csv_nrows_1 :=
       Raise (UnicodeDecodeError (of_ascii "invalid start byte"));
     read_excel_nrows_1 :=
       Raise (Exception (of_ascii "File is not a zip file")) |}.

(** A delimited-text file that does not decode as UTF-8. *)
Definition gbk_file : file :=
  {| file_name := of_ascii "old_2023123101.csv";
     read_csv_nrows_1 :=
       Raise (UnicodeDecodeError (of_ascii "invalid start byte"));
     read_excel_nrows_1 :=
       Raise (Exception (of_ascii "Excel file format cannot be determined")) |}.

(** Two directories: [jan] holds two spreadsheets, the first one broken,
    and one delimited-text file; [feb] holds one spreadsheet. Every sheet
    can be written. *)
Definition sample_fs : filesystem :=
  {| isdir := fun p => PyStr.eqb p jan || PyStr.eqb p feb;
     glob := fun d pattern =>
       {| entries :=
            if PyStr.eqb d jan
            then if PyStr.eqb pattern pattern_xlsx
                 then [broken_file; sheet_file]
                 else [gbk_file]
            else if PyStr.eqb d feb && PyStr.eqb pattern pattern_xlsx
                 then [sheet_file]
                 else [];
          scan_error := None |};
     to_excel := fun _ _ => None |}.

Definition url (p : str) : QUrl := {| toLocalFile := p |}.

(** The user renames the second header and accepts. *)
Definition sample_session : session :=
  {| edits := [(1%nat, of_ascii "total")]; accepted := true |}.

(** A window with three directories, the column [amount] chosen. *)
Definition sample_window : MainWindow :=
  set_amount_combo
    {| combo_items := [of_ascii "city"; of_ascii "amount"];
       currentIndex := Some 1%nat |}
    (set_directories [jan; feb; mar] MainWindow_init).

(** The sample directories, the glob of the delimited-text files of [feb]
    failing. *)
Definition failing_env : environment :=
  {| glob_xlsx := glob_xlsx (sample_env None);
     glob_csv := fun d =>
       if PyStr.eqb d feb
       then {| entries := [];
               scan_error := Some (Exception (of_ascii "Input/output error")) |}
       else glob_csv (sample_env None) d;
     stop_after := None |}.

(** A worker whose override repeats the name [a]. *)
Definition repeating_worker : AnalysisWorker :=
  {| directories := [jan];
     amount_column := of_ascii "amount";
     custom_headers :=
       Some [of_ascii "a"; of_ascii "a"; of_ascii "amount"] |}.

(** Two drops with a header edit in between, and an edit followed by the
    two ways of clearing. *)
Definition sample_drops : list call :=
  [Drop sample_fs [url jan; url mar; url jan];
   EditHeaders sample_session;
   Drop sample_fs [url feb; url jan]].

Definition sample_clearing : list call :=
  [ClearDirectories sample_fs; ClearData].

(** What reaches the window while the sample run goes on: its first three
    signals, a click on the button that clears the directories, a choice
    in the box of the columns. *)
Definition sample_interruptions : list call :=
  map Deliver
    (firstn 3 (signals (trace (run (worker_of sample_window)
                                 (sample_env None)))))
  ++ [ClearDirectories sample_fs; SelectColumn 0%nat].

(** * Proofs *)

(** ** Strings *)

Lemma eqb_eq (s t : str) : PyStr.eqb s t = true <-> s = t.
Proof.
  revert t; induction s as [|a s IH]; intros [|b t]; simpl;
    try (split; [discriminate | congruence]); try tauto.
  rewrite andb_true_iff, Z.eqb_eq, IH.
  split; [intros [-> ->]; reflexivity | intros E; inversion E; auto].
Qed.

Lemma label_eqb_eq (a b : label) : label_eqb a b = true <-> a = b.
Proof.
  destruct a as [s|s], b as [t|t]; simpl; rewrite ?eqb_eq;
    split; intros E; try discriminate; congruence.
Qed.

Lemma label_eqb_refl (a : label) : label_eqb a a = true.
Proof. apply label_eqb_eq; reflexivity. Qed.

Lemma label_in_In (c : label) (cols : list label) :
  label_in c cols = true <-> In c cols.
Proof.
  unfold label_in; rewrite existsb_exists; split.
  - intros [x [Hx E]]; apply label_eqb_eq in E; subst; exact Hx.
  - intros Hc; exists c; split; [exact Hc | apply label_eqb_refl].
Qed.

Lemma find_map {A B : Type} (f : B -> bool) (g : A -> B) (l : list A) :
  find f (map g l) = option_map g (find (fun x => f (g x)) l).
Proof.
  induction l as [|x l IH]; simpl; [reflexivity|].
  destruct (f (g x)); [reflexivity | exact IH].
Qed.

(** [\d{n}] matches at the start of [s] exactly when [s] starts with [n]
    digits, and then it matches those. *)
Lemma match_digits_spec (n : nat) (s : str) :
  match_digits n s =
  if (n <=? List.length s)%nat && forallb isdecimal (firstn n s)
  then Some (firstn n s)
  else None.
Proof.
  revert s; induction n as [|n IH]; intros s; [reflexivity|].
  destruct s as [|c s]; [reflexivity|].
  cbn [match_digits firstn forallb List.length]. rewrite IH.
  change (S n <=? S (List.length s))%nat with (n <=? List.length s)%nat.
  destruct (isdecimal c); simpl.
  - destruct ((n <=? List.length s)%nat && forallb isdecimal (firstn n s));
      reflexivity.
  - rewrite andb_false_r; reflexivity.
Qed.

Lemma match_digits_ten_digits_at (s : str) :
  match_digits 10 s =
  if ten_digits_at s 0 then Some (firstn 10 s) else None.
Proof. rewrite match_digits_spec; reflexivity. Qed.

(** The search returns the ten characters at the least position where ten
    digits start. *)
Lemma search_10_digits_spec (s : str) :
  search_10_digits s =
  option_map (fun i => firstn 10 (skipn i s))
    (find (ten_digits_at s) (seq 0 (List.length s))).
Proof.
  induction s as [|c s IH]; [reflexivity|].
  cbn [search_10_digits]. rewrite match_digits_ten_digits_at.
  cbn [List.length seq find].
  destruct (ten_digits_at (c :: s) 0) eqn:E0; [reflexivity|].
  rewrite <- seq_shift, find_map, IH.
  change (fun x => ten_digits_at (c :: s) (S x)) with (ten_digits_at s).
  destruct (find (ten_digits_at s) (seq 0 (List.length s))); reflexivity.
Qed.

Lemma search_10_digits_first (pre m post : str) :
  List.length m = 10%nat ->
  forallb isdecimal m = true ->
  (forall i, (i < List.length pre)%nat ->
             ten_digits_at (pre ++ m ++ post) i = false) ->
  search_10_digits (pre ++ m ++ post) = Some m.
Proof.
  intros Hlen Hdig; induction pre as [|c pre IH]; intros Hpre.
  - assert (Hf : firstn 10 (m ++ post) = m).
    { rewrite <- Hlen, firstn_app, Nat.sub_diag, firstn_all. simpl.
      apply app_nil_r. }
    destruct m as [|? m]; [discriminate|].
    cbn [app search_10_digits]. cbn [app] in Hf.
    rewrite match_digits_spec, Hf, Hdig.
    replace (10 <=? _)%nat with true; [reflexivity|].
    symmetry; apply Nat.leb_le. cbn [List.length] in *.
    rewrite length_app; lia.
  - cbn [app search_10_digits]. rewrite match_digits_ten_digits_at.
    pose proof (Hpre 0%nat ltac:(simpl; lia)) as H0. cbn [app] in H0.
    rewrite H0. apply IH; intros i Hi.
    rewrite <- (Hpre (S i)) by (simpl; lia). reflexivity.
Qed.

Lemma search_10_digits_none (s : str) :
  (forall i, ten_digits_at s i = false) -> search_10_digits s = None.
Proof.
  intros Hno; rewrite search_10_digits_spec.
  destruct (find _ _) as [i|] eqn:Ef; [|reflexivity].
  apply find_some in Ef; rewrite Hno in Ef; destruct Ef; discriminate.
Qed.

(** ** Masks *)

Lemma drop_where_map_filter {A : Type} (p : A -> bool) (xs : list A) :
  drop_where (map p xs) xs = filter (fun x => negb (p x)) xs.
Proof.
  induction xs as [|x xs IH]; [reflexivity|].
  simpl; destruct (p x); simpl; rewrite IH; reflexivity.
Qed.

Lemma drop_where_map2_filter {A B : Type} (f : A -> B) (p : B -> bool)
  (xs : list A) :
  drop_where (map p (map f xs)) xs = filter (fun x => negb (p (f x))) xs.
Proof. rewrite map_map; apply drop_where_map_filter. Qed.

Lemma drop_where_all_false {A : Type} (mask : list bool) (xs : list A) :
  Forall (fun b => b = false) mask -> drop_where mask xs = xs.
Proof.
  intros Hm; revert xs; induction Hm as [|b mask Hb _ IH]; intros xs.
  - destruct xs; reflexivity.
  - destruct xs as [|x xs]; [reflexivity|].
    simpl; rewrite Hb, IH; reflexivity.
Qed.

Lemma filter_all_true {A : Type} (p : A -> bool) (xs : list A) :
  (forall x, In x xs -> p x = true) -> filter p xs = xs.
Proof.
  induction xs as [|x xs IH]; intros Hp; [reflexivity|].
  simpl; rewrite (Hp x) by (left; reflexivity).
  rewrite IH; [reflexivity|]. intros y Hy; apply Hp; right; exact Hy.
Qed.

Lemma filter_filter {A : Type} (p q : A -> bool) (xs : list A) :
  filter q (filter p xs) = filter (fun x => p x && q x) xs.
Proof.
  induction xs as [|x xs IH]; [reflexivity|].
  simpl; destruct (p x); simpl; [destruct (q x)|]; rewrite IH; reflexivity.
Qed.

Lemma positions_app (bs1 bs2 : list bool) (j : nat) :
  positions (bs1 ++ bs2) j =
  positions bs1 j ++ positions bs2 (j + List.length bs1)%nat.
Proof.
  revert j; induction bs1 as [|b bs1 IH]; intros j; simpl.
  - rewrite Nat.add_0_r; reflexivity.
  - rewrite IH, <- plus_n_Sm. destruct b; reflexivity.
Qed.

Lemma positions_all_false (bs : list bool) (j : nat) :
  Forall (fun b => b = false) bs -> positions bs j = [].
Proof.
  intros Hb; revert j; induction Hb as [|b bs E _ IH]; intros j;
    [reflexivity|].
  simpl; rewrite E; apply IH.
Qed.

(** A label that occurs once is found at its position, and only there. *)
Lemma positions_unique (c : label) (before after : list label) :
  ~ In c before -> ~ In c after ->
  positions (map (label_eqb c) (before ++ c :: after)) 0 =
  [List.length before].
Proof.
  intros Hb Ha.
  assert (Hf : forall l, ~ In c l ->
                Forall (fun b => b = false) (map (label_eqb c) l)).
  { intros l Hl; apply Forall_forall; intros b Hin.
    apply in_map_iff in Hin; destruct Hin as [x [<- Hx]].
    destruct (label_eqb c x) eqn:E; [|reflexivity].
    apply label_eqb_eq in E; subst; contradiction. }
  rewrite map_app, positions_app, (positions_all_false _ _ (Hf _ Hb)).
  simpl; rewrite label_eqb_refl, length_map.
  rewrite (positions_all_false _ _ (Hf _ Ha)); reflexivity.
Qed.

(** ** The summary filter *)

Lemma label_in_filter (p : label -> bool) (c : label) (l : list label) :
  In c l -> label_in c (filter p l) = p c.
Proof.
  intros Hc; destruct (p c) eqn:E.
  - apply label_in_In, filter_In; split; assumption.
  - destruct (label_in c (filter p l)) eqn:El; [|reflexivity].
    apply label_in_In, filter_In in El; destruct El as [_ El]; congruence.
Qed.

(** The column pass of [_preprocess_df], with or without a column to drop. *)
Lemma column_pass (df : DataFrame) :
  match filter is_total_label (columns df) with
  | [] => df
  | _ :: _ => drop (filter is_total_label (columns df)) df
  end =
  {| header := filter (fun c => negb (is_total_label (col_label c))) (header df);
     rows := map (drop_where (map (fun c => is_total_label (col_label c))
                                (header df))) (rows df) |}.
Proof.
  destruct (filter is_total_label (columns df)) as [|c0 cs] eqn:Ef.
  - assert (Hno : forall c, In c (header df) ->
                   is_total_label (col_label c) = false).
    { intros c Hc; destruct (is_total_label (col_label c)) eqn:E; [|reflexivity].
      assert (Hin : In (col_label c) (filter is_total_label (columns df))).
      { apply filter_In; split; [apply in_map; exact Hc | exact E]. }
      rewrite Ef in Hin; destruct Hin. }
    rewrite filter_all_true by (intros c Hc; rewrite (Hno c Hc); reflexivity).
    rewrite (map_ext_in _ (fun r => r)), map_id; [destruct df; reflexivity|].
    intros r _; apply drop_where_all_false, Forall_forall.
    intros b Hb; apply in_map_iff in Hb; destruct Hb as [c [<- Hc]].
    apply Hno; exact Hc.
  - rewrite <- Ef; unfold drop.
    assert (Hmask : map (fun c => label_in c (filter is_total_label (columns df)))
                      (columns df)
                    = map (fun c => is_total_label (col_label c)) (header df)).
    { unfold columns; rewrite map_map; apply map_ext_in; intros c Hc.
      apply label_in_filter, in_map; exact Hc. }
    rewrite Hmask, drop_where_map_filter; reflexivity.
Qed.

Lemma existsb_map {A B : Type} (f : B -> bool) (g : A -> B) (l : list A) :
  existsb f (map g l) = existsb (fun x => f (g x)) l.
Proof.
  induction l as [|x l IH]; [reflexivity|]; simpl; rewrite IH; reflexivity.
Qed.

Lemma existsb_all_false {A : Type} (f : A -> bool) (l : list A) :
  (forall x, f x = false) -> existsb f l = false.
Proof.
  intros E; induction l as [|x l IH]; [reflexivity|].
  simpl; rewrite E, IH; reflexivity.
Qed.

Lemma col_hit_nil (hdr : list column) (j : nat) : col_hit hdr j [] = false.
Proof.
  unfold col_hit; replace (nth j [] CNaN) with CNaN by (destruct j; reflexivity).
  apply andb_false_r.
Qed.

Lemma total_row_index (hdr : list column) (r : list cell) :
  existsb (fun j => col_hit hdr j r) (seq 0 (List.length hdr)) =
  total_row hdr r.
Proof.
  revert r; induction hdr as [|c hdr IH]; intros r; [reflexivity|].
  cbn [List.length seq existsb]. rewrite <- seq_shift, existsb_map.
  destruct r as [|x r].
  - unfold total_row; cbn [combine existsb].
    rewrite col_hit_nil, existsb_all_false; [reflexivity|].
    intros j; apply col_hit_nil.
  - unfold total_row; cbn [combine existsb fst snd].
    fold (total_row hdr r); rewrite <- IH. reflexivity.
Qed.

(** The loop of [_preprocess_df] over the columns [hs], the ones before
    them being [hp]: the rows that have a marker in a textual column among
    [hs] go. *)
Lemma for_columns_spec (hdr hp hs : list column) (rs : list (list cell)) :
  hdr = hp ++ hs ->
  NoDup (map col_label hdr) ->
  for_columns (map col_label hs) {| header := hdr; rows := rs |} =
  Ok {| header := hdr;
        rows := filter (fun r => negb (existsb (fun j => col_hit hdr j r)
                                         (seq (List.length hp) (List.length hs))))
                  rs |}.
Proof.
  intros Hhdr Hnd; revert hp rs Hhdr.
  induction hs as [|c hs IH]; intros hp rs Hhdr.
  - simpl; rewrite filter_all_true; [reflexivity | reflexivity].
  - cbn [map for_columns]. unfold drop_total_rows, series_of.
    unfold columns; cbn [header rows].
    assert (Hpos : positions (map (label_eqb (col_label c)) (map col_label hdr)) 0
                   = [List.length hp]).
    { rewrite Hhdr, map_app; cbn [map].
      rewrite <- (length_map col_label hp).
      rewrite Hhdr, map_app in Hnd; cbn [map] in Hnd.
      pose proof (NoDup_remove_2 _ _ _ Hnd) as Hout.
      apply positions_unique; intros Hin; apply Hout, in_or_app; auto. }
    rewrite Hpos; cbn [dtype_of values].
    assert (Hnext : hdr = (hp ++ [c]) ++ hs)
      by (rewrite <- app_assoc; exact Hhdr).
    set (j := List.length hp).
    assert (Hrows : forall rs',
              rs' = filter (fun r => negb (col_hit hdr j r)) rs ->
              for_columns (map col_label hs) {| header := hdr; rows := rs' |} =
              Ok {| header := hdr;
                    rows := filter (fun r => negb (existsb (fun j => col_hit hdr j r)
                                                     (seq j (S (List.length hs)))))
                              rs |}).
    { intros rs' ->. rewrite (IH (hp ++ [c]) _ Hnext).
      rewrite filter_filter, length_app, Nat.add_1_r. fold j.
      do 2 f_equal. apply filter_ext; intros r.
      cbn [seq existsb]; rewrite negb_orb; reflexivity. }
    destruct (is_object (nth j (map col_dtype hdr) object)) eqn:Eobj.
    + apply Hrows. rewrite drop_where_map2_filter.
      apply filter_ext; intros r; unfold col_hit; rewrite Eobj; reflexivity.
    + apply Hrows. symmetry; apply filter_all_true.
      intros r _; unfold col_hit; rewrite Eobj; reflexivity.
Qed.

(** On a table whose remaining labels are pairwise distinct the filter
    returns, and returns what the specification says. *)
Lemma preprocess_df_spec (df : DataFrame) :
  NoDup (columns (filter_spec df)) ->
  _preprocess_df df = Ok (filter_spec df).
Proof.
  intros Hnd; unfold _preprocess_df; rewrite column_pass.
  unfold columns at 1; cbn [header].
  rewrite (for_columns_spec _ [] _ _ eq_refl Hnd).
  unfold filter_spec; do 2 f_equal.
  apply filter_ext; intros r; cbn [List.length].
  rewrite total_row_index; reflexivity.
Qed.

Lemma length_positions (bs : list bool) (j : nat) :
  List.length (positions bs j) = count_occ bool_dec bs true.
Proof.
  revert j; induction bs as [|b bs IH]; intros j; [reflexivity|].
  destruct b; simpl; rewrite IH; reflexivity.
Qed.

Lemma count_label_pos (c : label) (l : list label) :
  In c l -> (0 < count_occ bool_dec (map (label_eqb c) l) true)%nat.
Proof.
  intros Hc; apply count_occ_In, in_map_iff.
  exists c; split; [apply label_eqb_refl | exact Hc].
Qed.

(** Labels each found at one position only are pairwise distinct. *)
Lemma once_each_NoDup (l : list label) :
  (forall c, In c l ->
             List.length (positions (map (label_eqb c) l) 0) = 1%nat) ->
  NoDup l.
Proof.
  induction l as [|a l IH]; intros Hone; [constructor|].
  constructor.
  - intros Ha. pose proof (Hone a (or_introl eq_refl)) as H1.
    rewrite length_positions in H1; cbn [map] in H1.
    rewrite label_eqb_refl in H1; simpl in H1.
    pose proof (count_label_pos a l Ha); lia.
  - apply IH; intros c Hc.
    pose proof (Hone c (or_intror Hc)) as H1.
    rewrite length_positions in *; cbn [map] in H1.
    pose proof (count_label_pos c l Hc).
    destruct (label_eqb c a); simpl in H1; lia.
Qed.

Lemma drop_total_rows_header (df df' : DataFrame) (col : label) :
  drop_total_rows df col = Ok df' -> header df' = header df.
Proof.
  unfold drop_total_rows; destruct (series_of df col) as [s|e]; [|discriminate].
  destruct (is_object (dtype_of s)); intros E; inversion E; reflexivity.
Qed.

Lemma drop_total_rows_once (df df' : DataFrame) (col : label) :
  drop_total_rows df col = Ok df' ->
  List.length (positions (map (label_eqb col) (columns df)) 0) = 1%nat.
Proof.
  unfold drop_total_rows, series_of.
  destruct (positions _ 0) as [|j [|j' js]]; [discriminate | reflexivity | discriminate].
Qed.

Lemma for_columns_once (cols : list label) (df df' : DataFrame) :
  for_columns cols df = Ok df' ->
  forall c, In c cols ->
            List.length (positions (map (label_eqb c) (columns df)) 0) = 1%nat.
Proof.
  revert df; induction cols as [|c0 cols IH]; intros df E c Hc; [destruct Hc|].
  simpl in E; destruct (drop_total_rows df c0) as [df1|e] eqn:E1; [|discriminate].
  destruct Hc as [<-|Hc].
  - eapply drop_total_rows_once; exact E1.
  - pose proof (IH _ E c Hc) as H1. unfold columns in *.
    rewrite (drop_total_rows_header _ _ _ E1) in H1; exact H1.
Qed.

(** The loop raises nothing but the [AttributeError] of a repeated label,
    when it runs over labels of the table. *)
Lemma for_columns_raise (cols : list label) (df : DataFrame) (e : exn) :
  incl cols (columns df) ->
  for_columns cols df = Raise e ->
  e = AttributeError no_attribute_dtype.
Proof.
  revert df; induction cols as [|c cols IH]; intros df Hincl E; simpl in E;
    [discriminate|].
  destruct (drop_total_rows df c) as [df1|e1] eqn:E1.
  - apply (IH df1); [|exact E]. unfold columns.
    rewrite (drop_total_rows_header _ _ _ E1).
    intros x Hx; apply Hincl; right; exact Hx.
  - inversion E; subst e1; clear E.
    unfold drop_total_rows, series_of in E1.
    pose proof (count_label_pos c (columns df) (Hincl c (or_introl eq_refl))) as Hp.
    rewrite <- (length_positions _ 0) in Hp.
    destruct (positions _ 0) as [|j [|j' js]].
    + simpl in Hp; lia.
    + destruct (is_object _); discriminate.
    + inversion E1; reflexivity.
Qed.

(** The filter returns exactly when the labels that remain after the column
    pass are pairwise distinct; otherwise it raises [AttributeError]. *)
Lemma preprocess_df_cases (df : DataFrame) :
  (NoDup (columns (filter_spec df)) /\ _preprocess_df df = Ok (filter_spec df))
  \/ (~ NoDup (columns (filter_spec df))
      /\ _preprocess_df df = Raise (AttributeError no_attribute_dtype)).
Proof.
  destruct (_preprocess_df df) as [df'|e] eqn:E.
  - left. assert (Hnd : NoDup (columns (filter_spec df))).
    { unfold _preprocess_df in E; rewrite column_pass in E.
      apply once_each_NoDup; intros c Hc.
      exact (for_columns_once _ _ _ E c Hc). }
    split; [exact Hnd|]. rewrite <- E; apply preprocess_df_spec; exact Hnd.
  - right. split.
    + intros Hnd; rewrite (preprocess_df_spec _ Hnd) in E; discriminate.
    + f_equal. unfold _preprocess_df in E; rewrite column_pass in E.
      eapply for_columns_raise; [|exact E]. apply incl_refl.
Qed.

Lemma preprocess_df_ok (df df' : DataFrame) :
  _preprocess_df df = Ok df' ->
  df' = filter_spec df /\ NoDup (columns df').
Proof.
  intros E; destruct (preprocess_df_cases df) as [[Hnd E']|[_ E']];
    rewrite E in E'; [|discriminate].
  inversion E'; subst; split; [reflexivity | exact Hnd].
Qed.

Lemma filter_idempotent {A : Type} (p : A -> bool) (xs : list A) :
  filter p (filter p xs) = filter p xs.
Proof.
  apply filter_all_true; intros x Hx; apply filter_In in Hx; tauto.
Qed.

(** Filtering a filtered table changes nothing. *)
Lemma filter_spec_idempotent (df : DataFrame) :
  filter_spec (filter_spec df) = filter_spec df.
Proof.
  unfold filter_spec at 1; cbn [header rows].
  set (hdr := header (filter_spec df)).
  assert (Hhdr : filter (fun c => negb (is_total_label (col_label c))) hdr = hdr)
    by apply filter_idempotent.
  rewrite Hhdr.
  rewrite (map_ext_in _ (fun r => r)), map_id.
  - assert (Hrows : filter (fun r => negb (total_row hdr r))
                      (rows (filter_spec df)) = rows (filter_spec df)).
    { subst hdr; unfold filter_spec; cbn [header rows].
      apply filter_idempotent. }
    rewrite Hrows; subst hdr; destruct (filter_spec df); reflexivity.
  - intros r _; apply drop_where_all_false, Forall_forall.
    intros b Hb; apply in_map_iff in Hb; destruct Hb as [c [<- Hc]].
    apply filter_In in Hc; destruct Hc as [_ Hc].
    apply negb_true_iff; exact Hc.
Qed.

(** ** The identifier, the filter and the override *)

(** C5 (amended): for every file name the identifier is the ten characters
    at the leftmost position where ten consecutive decimal digits start,
    whether or not more digits follow them, and the empty string when no
    position has ten; so a file name in which the digits 2024010112 stand
    at the leftmost such position yields 2024010112, and a file name with
    no ten consecutive digits yields the empty string. *)
Theorem extract_monthly_card_leftmost_ten_digits (filename : str) :
  _extract_monthly_card filename =
    match find (ten_digits_at filename) (seq 0 (List.length filename)) with
    | Some i => firstn 10 (skipn i filename)
    | None => []
    end
  /\ (forall pre post,
        filename = pre ++ card_2024010112 ++ post ->
        (forall i, (i < List.length pre)%nat ->
                   ten_digits_at filename i = false) ->
        _extract_monthly_card filename = card_2024010112)
  /\ ((forall i, ten_digits_at filename i = false) ->
      _extract_monthly_card filename = []).
Proof.
  unfold _extract_monthly_card; repeat split.
  - rewrite search_10_digits_spec.
    destruct (find _ _); reflexivity.
  - intros pre post -> Hpre.
    rewrite (search_10_digits_first pre card_2024010112 post);
      [reflexivity | reflexivity | reflexivity | exact Hpre].
  - intros Hno; rewrite (search_10_digits_none _ Hno); reflexivity.
Qed.

(** X16: on a table the column names of which, those of the summary
    columns apart, are pairwise distinct, the filter returns the table
    without the columns whose trimmed name is 合计 or 合 计 and then
    without the rows that have a marker, as a substring of the cell made
    text, in a column of dtype object; a row with no marker in such a
    column stays whatever its other cells hold, and what stays keeps its
    order. *)
Theorem preprocess_df_drops_totals (df : DataFrame) :
  NoDup (columns (filter_spec df)) ->
  _preprocess_df df = Ok (filter_spec df)
  /\ header (filter_spec df) =
     filter (fun c => negb (is_total_label (col_label c))) (header df)
  /\ rows (filter_spec df) =
     filter (fun r => negb (total_row (header (filter_spec df)) r))
       (map (drop_where (map (fun c => is_total_label (col_label c))
                           (header df))) (rows df))
  /\ (forall r c x,
        In (c, x) (combine (header (filter_spec df)) r) ->
        is_object (col_dtype c) = true ->
        search_total (astype_str x) = true ->
        total_row (header (filter_spec df)) r = true)
  /\ (forall r,
        (forall c x, In (c, x) (combine (header (filter_spec df)) r) ->
                     is_object (col_dtype c) = true ->
                     search_total (astype_str x) = false) ->
        total_row (header (filter_spec df)) r = false).
Proof.
  intros Hnd; split; [apply preprocess_df_spec; exact Hnd|].
  split; [reflexivity|]. split; [reflexivity|]. split.
  - intros r c x Hin Hobj Hs; unfold total_row.
    apply existsb_exists; exists (c, x); split; [exact Hin|].
    unfold hit; cbn [fst snd]; rewrite Hobj, Hs; reflexivity.
  - intros r Hr; unfold total_row.
    destruct (existsb _ _) eqn:E; [|reflexivity].
    apply existsb_exists in E; destruct E as [[c x] [Hin Hhit]].
    unfold hit in Hhit; cbn [fst snd] in Hhit.
    apply andb_true_iff in Hhit; destruct Hhit as [Hobj Hs].
    rewrite (Hr c x Hin Hobj) in Hs; discriminate.
Qed.

(** C4: the filter is idempotent. On every table, filtering the filtered
    table gives the filtered table again, and a table on which the filter
    raises has no filtered table. *)
Theorem preprocess_df_idempotent (df : DataFrame) :
  match _preprocess_df df with
  | Ok df' => _preprocess_df df'
  | Raise e => Raise e
  end = _preprocess_df df
  /\ (forall df', _preprocess_df df = Ok df' -> _preprocess_df df' = Ok df').
Proof.
  assert (Hidem : forall df', _preprocess_df df = Ok df' ->
                              _preprocess_df df' = Ok df').
  { intros df' E; apply preprocess_df_ok in E; destruct E as [-> Hnd].
    rewrite <- (filter_spec_idempotent df) at 2.
    apply preprocess_df_spec; rewrite filter_spec_idempotent; exact Hnd. }
  split; [|exact Hidem].
  destruct (_preprocess_df df) as [df'|e] eqn:E; [|reflexivity].
  apply Hidem; reflexivity.
Qed.

Lemma map_fst_combine {A B : Type} (l1 : list A) (l2 : list B) :
  List.length l1 = List.length l2 -> map fst (combine l1 l2) = l1.
Proof.
  revert l2; induction l1 as [|a l1 IH]; intros [|b l2] E;
    try discriminate; [reflexivity|].
  simpl; rewrite IH; [reflexivity | inversion E; reflexivity].
Qed.

Lemma map_snd_combine {A B : Type} (l1 : list A) (l2 : list B) :
  List.length l1 = List.length l2 -> map snd (combine l1 l2) = l2.
Proof.
  revert l2; induction l1 as [|a l1 IH]; intros [|b l2] E;
    try discriminate; [reflexivity|].
  simpl; rewrite IH; [reflexivity | inversion E; reflexivity].
Qed.

Lemma set_columns_spec (names : list str) (df : DataFrame) :
  List.length names = List.length (columns df) ->
  columns (set_columns names df) = map Name names
  /\ map col_dtype (header (set_columns names df)) = map col_dtype (header df)
  /\ rows (set_columns names df) = rows df.
Proof.
  intros E; unfold columns in E; rewrite length_map in E.
  unfold columns, set_columns; cbn [header rows].
  rewrite !map_map; cbn [col_label col_dtype].
  repeat split.
  - rewrite <- (map_map fst Name), map_fst_combine; [reflexivity | exact E].
  - rewrite <- (map_map snd col_dtype), map_snd_combine;
      [reflexivity | exact E].
Qed.

(** C6: the header override replaces the parsed labels, position by
    position, exactly when it is provided and has as many names as the
    parsed table has columns: then the labels are the override's names in
    their order, and the dtypes and the rows are untouched; in every other
    case the table is left as parsed. *)
Theorem apply_custom_headers_same_length
  (custom_headers : option (list str)) (df : DataFrame) :
  (forall names,
      custom_headers = Some names ->
      List.length names = List.length (columns df) ->
      columns (apply_custom_headers custom_headers df) = map Name names
      /\ map col_dtype (header (apply_custom_headers custom_headers df))
         = map col_dtype (header df)
      /\ rows (apply_custom_headers custom_headers df) = rows df)
  /\ (forall names,
        custom_headers = Some names ->
        List.length names <> List.length (columns df) ->
        apply_custom_headers custom_headers df = df)
  /\ (custom_headers = None -> apply_custom_headers custom_headers df = df).
Proof.
  split; [|split].
  - intros names -> E; unfold apply_custom_headers.
    rewrite (proj2 (Nat.eqb_eq _ _) E). apply set_columns_spec; exact E.
  - intros names -> E; unfold apply_custom_headers.
    rewrite (proj2 (Nat.eqb_neq _ _) E); reflexivity.
  - intros ->; reflexivity.
Qed.

(** ** The sum of a column *)















(** ** One file *)

(** In a table with distinct labels a label of the table selects a column. *)
Lemma series_of_distinct (df : DataFrame) (c : label) :
  NoDup (columns df) -> In c (columns df) ->
  exists column, series_of df c = Ok column.
Proof.
  intros Hnd Hc; apply in_split in Hc; destruct Hc as [l1 [l2 E]].
  unfold series_of; rewrite E in *.
  pose proof (NoDup_remove_2 _ _ _ Hnd) as Hout.
  rewrite positions_unique; [eexists; reflexivity | |];
    intros Hin; apply Hout, in_or_app; auto.
Qed.

Lemma aggregate_spec (self : AnalysisWorker) (d name : str) (df : DataFrame)
  (s : worker_state) :
  NoDup (columns df) ->
  aggregate self d name df s =
  Step (Ok tt) (account (subtotal_of self (Ok df)) s)
    (tally (result_of self d name (Ok df)) (subtotal_of self (Ok df))).
Proof.
  intros Hnd; unfold aggregate, result_of, subtotal_of.
  destruct (label_in (Name (amount_column self)) (columns df)) eqn:Ein;
    [|reflexivity].
  apply label_in_In in Ein.
  destruct (series_of_distinct df _ Hnd Ein) as [column Ecol].
  unfold file_total, target_column, bind, lift, emit, tell, add_totals.
  rewrite Ecol; reflexivity.
Qed.

Lemma bind_ok {A B : Type} (m : M A) (k : A -> M B) (s s1 s2 : worker_state)
  (a : A) (o : result B) (t1 t2 t : list action) :
  m s = Step (Ok a) s1 t1 ->
  k a s1 = Step o s2 t2 ->
  t = t1 ++ t2 ->
  bind m k s = Step o s2 t.
Proof. intros E1 E2 ->; unfold bind; rewrite E1; cbn; rewrite E2; reflexivity. Qed.

Lemma bind_raise {A B : Type} (m : M A) (k : A -> M B) (s s1 : worker_state)
  (e : exn) (t1 : list action) :
  m s = Step (Raise e) s1 t1 ->
  bind m k s = Step (Raise e) s1 t1.
Proof. intros E1; unfold bind; rewrite E1; reflexivity. Qed.

Lemma bind_ok_at {A B : Type} (m : M A) (k : A -> M B) (s : worker_state)
  (a : A) :
  outcome (m s) = Ok a ->
  bind m k s =
  Step (outcome (k a (after (m s)))) (after (k a (after (m s))))
    (trace (m s) ++ trace (k a (after (m s)))).
Proof. intros E; unfold bind; rewrite E; reflexivity. Qed.

Lemma bind_raise_at {A B : Type} (m : M A) (k : A -> M B) (s : worker_state)
  (e : exn) :
  outcome (m s) = Raise e ->
  bind m k s = Step (Raise e) (after (m s)) (trace (m s)).
Proof. intros E; unfold bind; rewrite E; reflexivity. Qed.

Lemma try_ok {A : Type} (m : M A) (handler : exn -> M A)
  (s s1 : worker_state) (a : A) (t1 : list action) :
  m s = Step (Ok a) s1 t1 ->
  try_except m handler s = Step (Ok a) s1 t1.
Proof. intros E1; unfold try_except; rewrite E1; reflexivity. Qed.

Lemma try_raise {A : Type} (m : M A) (handler : exn -> M A)
  (s s1 s2 : worker_state) (e : exn) (o : result A) (t1 t2 t : list action) :
  m s = Step (Raise e) s1 t1 ->
  handler e s1 = Step o s2 t2 ->
  t = t1 ++ t2 ->
  try_except m handler s = Step o s2 t.
Proof.
  intros E1 E2 ->; unfold try_except; rewrite E1; cbn; rewrite E2; reflexivity.
Qed.

(** The filter and the aggregation, the same after both parsers. *)
Lemma filter_then_aggregate_ok (self : AnalysisWorker) (d name : str)
  (parsed df : DataFrame) (s : worker_state) :
  _preprocess_df (apply_custom_headers (custom_headers self) parsed) = Ok df ->
  bind (lift (_preprocess_df
                (apply_custom_headers (custom_headers self) parsed)))
    (fun df => aggregate self d name df) s =
  Step (Ok tt) (account (subtotal_of self (Ok df)) s)
    (tally (result_of self d name (Ok df)) (subtotal_of self (Ok df))).
Proof.
  intros E. pose proof (preprocess_df_ok _ _ E) as [_ Hnd].
  eapply bind_ok; [unfold lift; rewrite E; reflexivity | | reflexivity].
  apply aggregate_spec; exact Hnd.
Qed.

Lemma filter_then_aggregate_raise (self : AnalysisWorker) (d name : str)
  (parsed : DataFrame) (e : exn) (s : worker_state) :
  _preprocess_df (apply_custom_headers (custom_headers self) parsed) = Raise e ->
  bind (lift (_preprocess_df
                (apply_custom_headers (custom_headers self) parsed)))
    (fun df => aggregate self d name df) s =
  Step (Raise e) s [].
Proof.
  intros E; apply bind_raise; unfold lift; rewrite E; reflexivity.
Qed.

Lemma process_xlsx_spec (self : AnalysisWorker) (d : str) (f : xlsx_file)
  (s : worker_state) :
  process_xlsx self d f s =
  Step (Ok tt) (account (xlsx_subtotal self f) s) (xlsx_actions self d f).
Proof.
  unfold process_xlsx, xlsx_actions, xlsx_result, xlsx_subtotal, load_xlsx.
  destruct (read_excel f) as [parsed|e] eqn:Er.
  - destruct (_preprocess_df _) as [df|e] eqn:Ep.
    + apply try_ok. eapply bind_ok; [reflexivity | | reflexivity].
      eapply bind_ok; [reflexivity | | reflexivity].
      apply filter_then_aggregate_ok; exact Ep.
    + eapply try_raise;
        [eapply bind_ok;
           [reflexivity
           |eapply bind_ok;
              [reflexivity
              |apply filter_then_aggregate_raise; exact Ep
              |reflexivity]
           |reflexivity]
        |reflexivity
        |reflexivity].
  - eapply try_raise;
      [eapply bind_ok; [reflexivity | apply bind_raise; reflexivity | reflexivity]
      |reflexivity
      |reflexivity].
Qed.

Lemma read_csv_with_fallback_spec (d : str) (f : csv_file) (s : worker_state) :
  read_csv_with_fallback d f s = Step (parse_csv f) s (csv_reads d f).
Proof.
  unfold read_csv_with_fallback, parse_csv, csv_reads.
  unfold try_except, bind, tell, lift, raise; cbn.
  destruct (read_csv f utf_8) as [df|e]; [reflexivity|]; cbn.
  destruct (is_UnicodeDecodeError e); reflexivity.
Qed.

Lemma process_csv_spec (self : AnalysisWorker) (d : str) (f : csv_file)
  (s : worker_state) :
  process_csv self d f s =
  Step (Ok tt) (account (csv_subtotal self f) s) (csv_actions self d f).
Proof.
  unfold process_csv, csv_actions, csv_result, csv_subtotal, load_csv.
  pose proof (read_csv_with_fallback_spec d f s) as Hread.
  destruct (parse_csv f) as [parsed|e].
  - destruct (_preprocess_df _) as [df|e] eqn:Ep.
    + apply try_ok. eapply bind_ok; [exact Hread | | reflexivity].
      apply filter_then_aggregate_ok; exact Ep.
    + eapply try_raise;
        [eapply bind_ok;
           [exact Hread
           |apply filter_then_aggregate_raise; exact Ep
           |reflexivity]
        |reflexivity
        |rewrite app_nil_r; reflexivity].
  - eapply try_raise; [apply bind_raise; exact Hread | reflexivity | reflexivity].
Qed.

(** ** Traces *)

Lemma signals_app (t1 t2 : list action) :
  signals (t1 ++ t2) = signals t1 ++ signals t2.
Proof.
  induction t1 as [|a t1 IH]; [reflexivity|].
  destruct a; simpl; rewrite IH; reflexivity.
Qed.

Lemma file_results_app (l1 l2 : list signal) :
  file_results (l1 ++ l2) = file_results l1 ++ file_results l2.
Proof.
  induction l1 as [|sg l1 IH]; [reflexivity|].
  destruct sg; simpl; rewrite IH; reflexivity.
Qed.

Lemma file_results_ready (rs : list FileResult) :
  file_results (map file_result_ready rs) = rs.
Proof.
  induction rs as [|r rs IH]; [reflexivity|]; simpl; rewrite IH; reflexivity.
Qed.

Lemma subtotals_app (t1 t2 : list action) :
  subtotals (t1 ++ t2) = subtotals t1 ++ subtotals t2.
Proof.
  induction t1 as [|a t1 IH]; [reflexivity|].
  destruct a; simpl; rewrite IH; reflexivity.
Qed.

Lemma paired_app (t1 t2 : list action) :
  paired t1 -> paired t2 -> paired (t1 ++ t2).
Proof.
  unfold paired; intros H1 H2.
  rewrite signals_app, file_results_app, subtotals_app, !map_app, H1, H2.
  reflexivity.
Qed.

Lemma tallied_refl (s : worker_state) : tallied s s [].
Proof. split; [simpl; lia | split; reflexivity]. Qed.

Lemma tallied_trans (s s1 s2 : worker_state) (t1 t2 : list action) :
  tallied s s1 t1 -> tallied s1 s2 t2 -> tallied s s2 (t1 ++ t2).
Proof.
  intros [Hf1 [Ha1 Hp1]] [Hf2 [Ha2 Hp2]]; split; [|split].
  - rewrite signals_app, file_results_app, length_app, Hf2, Hf1; lia.
  - rewrite subtotals_app, fold_left_app, Ha2, Ha1; reflexivity.
  - apply paired_app; assumption.
Qed.

Lemma tallied_tick (s : worker_state) (running : bool) :
  tallied s (tick s) [Poll running].
Proof. split; [simpl; lia | split; reflexivity]. Qed.

(** The progress message of a directory, after the read of the flag. *)
Lemma tallied_progress (s : worker_state) (msg : str) :
  tallied s (tick s) [Poll true; Emit (progress_updated msg)].
Proof. split; [simpl; lia | split; reflexivity]. Qed.

Lemma tallied_account (s : worker_state) (o : option FileResult)
  (x : option num) (acts : list action) :
  signals acts = map file_result_ready (opt_list o) ->
  subtotals acts = opt_list x ->
  option_map amount o = option_map float_ x ->
  tallied s (account x s) acts.
Proof.
  intros Es Ex Eo; unfold tallied, paired.
  rewrite Es, Ex, file_results_ready.
  destruct o as [r|], x as [y|]; try discriminate Eo; cbn.
  - injection Eo as ->. repeat split; lia.
  - repeat split; lia.
Qed.

Lemma polls_account (o : option num) (s : worker_state) :
  polls (account o s) = polls s.
Proof. destruct o; reflexivity. Qed.

Lemma is_running_at_stays_false (stop : option nat) (k k' : nat) :
  (k <= k')%nat ->
  is_running_at stop k = false -> is_running_at stop k' = false.
Proof.
  destruct stop as [n|]; simpl; [|discriminate].
  rewrite !Nat.ltb_ge; lia.
Qed.

Lemma stopped_tick (env : environment) (s : worker_state) :
  stopped env s -> stopped env (tick s).
Proof.
  unfold stopped; apply is_running_at_stays_false; simpl; lia.
Qed.

Lemma polled_app (stop : option nat) (k k1 k2 : nat) (t1 t2 : list action) :
  polled stop k t1 k1 -> polled stop k1 t2 k2 -> polled stop k (t1 ++ t2) k2.
Proof.
  intros H1 H2; induction H1 as [k|k k' acts t Hk Hacts _ IH|k k' t Hk _ IH].
  - exact H2.
  - cbn [app]; rewrite <- app_assoc.
    apply polled_running; [exact Hk | exact Hacts | apply IH; exact H2].
  - cbn [app]; apply polled_stopped; [exact Hk | apply IH; exact H2].
Qed.




Lemma is_running_spec (env : environment) (s : worker_state) :
  is_running env s =
  Step (Ok (is_running_at (stop_after env) (polls s))) (tick s)
    [Poll (is_running_at (stop_after env) (polls s))].
Proof. reflexivity. Qed.

(** ** The loop over the files of a glob *)

Section Loop.

Context {A : Type} (env : environment) (body : A -> M unit).
Context (res : A -> option FileResult) (sub : A -> option num).
Context (acts : A -> list action).

Hypothesis body_spec :
  forall f s, body f s = Step (Ok tt) (account (sub f) s) (acts f).
Hypothesis acts_no_poll : forall f, existsb is_poll (acts f) = false.
Hypothesis acts_signals :
  forall f, signals (acts f) = map file_result_ready (opt_list (res f)).
Hypothesis acts_subtotals : forall f, subtotals (acts f) = opt_list (sub f).
Hypothesis res_sub :
  forall f, option_map amount (res f) = option_map float_ (sub f).

Lemma for_each_running (f : A) (fs : list A) (tail : option exn)
  (s : worker_state) :
  is_running_at (stop_after env) (polls s) = true ->
  for_each env body (f :: fs) tail s =
  Step (outcome (for_each env body fs tail (account (sub f) (tick s))))
    (after (for_each env body fs tail (account (sub f) (tick s))))
    (Poll true
     :: acts f ++ trace (for_each env body fs tail (account (sub f) (tick s)))).
Proof.
  intros Hrun; cbn [for_each].
  eapply bind_ok; [rewrite is_running_spec, Hrun; reflexivity | | reflexivity].
  cbn iota beta.
  eapply bind_ok; [apply body_spec | | reflexivity].
  destruct (for_each env body fs tail (account (sub f) (tick s))); reflexivity.
Qed.

Lemma for_each_stopped (fs : list A) (tail : option exn) (s : worker_state) :
  stopped env s ->
  for_each env body fs tail s =
  match fs with
  | [] => match tail with
          | Some e => Step (Raise e) s []
          | None => Step (Ok tt) s []
          end
  | _ :: _ => Step (Ok tt) (tick s) [Poll false]
  end.
Proof.
  intros Hstop; destruct fs as [|f fs]; [destruct tail; reflexivity|].
  cbn [for_each].
  eapply bind_ok; [rewrite is_running_spec, Hstop; reflexivity | | reflexivity].
  reflexivity.
Qed.

(** Whatever the flag does, the loop handles the first [m] files of the
    glob, for some [m], and stops short of the end only on the flag. *)
Lemma for_each_inv (fs : list A) (tail : option exn) (s : worker_state) :
  exists m,
    (m <= List.length fs)%nat
    /\ signals (trace (for_each env body fs tail s)) =
       map file_result_ready
         (flat_map (fun f => opt_list (res f)) (firstn m fs))
    /\ tallied s (after (for_each env body fs tail s))
         (trace (for_each env body fs tail s))
    /\ polled (stop_after env) (polls s)
         (trace (for_each env body fs tail s))
         (polls (after (for_each env body fs tail s)))
    /\ ((m < List.length fs)%nat ->
        stopped env (after (for_each env body fs tail s))
        /\ outcome (for_each env body fs tail s) = Ok tt)
    /\ (m = List.length fs ->
        outcome (for_each env body fs tail s) =
        match tail with
        | Some e => Raise e
        | None => Ok tt
        end).
Proof.
  revert s; induction fs as [|f fs IH]; intros s.
  - exists 0%nat; cbn [for_each].
    destruct tail as [e|]; cbn [raise ret outcome after trace];
      (split; [simpl; lia|]; split; [reflexivity|];
       split; [apply tallied_refl|]; split; [apply polled_end|];
       split; [simpl; intros; lia | reflexivity]).
  - destruct (is_running_at (stop_after env) (polls s)) eqn:Hrun.
    + rewrite (for_each_running f fs tail s Hrun); cbn [outcome after trace].
      destruct (IH (account (sub f) (tick s))) as [m [Hm [Hs [Ht [Hp [Hlt He]]]]]].
      exists (S m); split; [|split; [|split; [|split; [|split]]]].
      * simpl; lia.
      * cbn [signals]; rewrite signals_app, acts_signals, Hs.
        cbn [firstn flat_map]; rewrite map_app; reflexivity.
      * apply (tallied_trans s (tick s) _ [Poll true]);
          [apply tallied_tick|].
        apply (tallied_trans _ (account (sub f) (tick s)));
          [apply (tallied_account _ (res f));
           [apply acts_signals | apply acts_subtotals | apply res_sub]
          | exact Ht].
      * apply polled_running; [exact Hrun | apply acts_no_poll|].
        rewrite polls_account in Hp; exact Hp.
      * intros Hlt'; apply Hlt; simpl in Hlt'; lia.
      * intros E; apply He; simpl in E; lia.
    + rewrite (for_each_stopped (f :: fs) tail s Hrun); cbn [outcome after trace].
      exists 0%nat; split; [|split; [|split; [|split; [|split]]]].
      * simpl; lia.
      * reflexivity.
      * apply tallied_tick.
      * apply polled_stopped; [exact Hrun | constructor].
      * intros _; split; [apply stopped_tick; exact Hrun | reflexivity].
      * intros E; simpl in E; lia.
Qed.

(** While the flag stays [True] the loop handles every file. *)
Lemma for_each_exact (fs : list A) (s : worker_state) :
  (forall k, (polls s <= k < polls s + List.length fs)%nat ->
             is_running_at (stop_after env) k = true) ->
  exists s',
    for_each env body fs None s =
    Step (Ok tt) s' (flat_map (fun f => Poll true :: acts f) fs)
    /\ polls s' = (polls s + List.length fs)%nat
    /\ tallied s s' (flat_map (fun f => Poll true :: acts f) fs).
Proof.
  revert s; induction fs as [|f fs IH]; intros s Hrun.
  - exists s; repeat split; simpl; try lia; reflexivity.
  - rewrite for_each_running by (apply Hrun; simpl; lia).
    destruct (IH (account (sub f) (tick s))) as [s' [E [Hp Ht]]].
    { intros k Hk; apply Hrun; rewrite polls_account in Hk; simpl in *; lia. }
    exists s'; rewrite E; cbn [outcome after trace flat_map].
    split; [reflexivity|]. split.
    + rewrite Hp, polls_account; simpl; lia.
    + apply (tallied_trans s (tick s) _ [Poll true] (acts f ++ _));
        [apply tallied_tick|].
      apply (tallied_trans _ (account (sub f) (tick s)));
        [apply (tallied_account _ (res f));
           [apply acts_signals | apply acts_subtotals | apply res_sub]
          | exact Ht].
Qed.

End Loop.



(** ** The loop over the directories *)

Lemma signals_tally (o : option FileResult) (x : option num) :
  signals (tally o x) = map file_result_ready (opt_list o).
Proof. destruct o, x; reflexivity. Qed.

Lemma subtotals_tally (o : option FileResult) (x : option num) :
  subtotals (tally o x) = opt_list x.
Proof. destruct o, x; reflexivity. Qed.

Lemma no_poll_tally (o : option FileResult) (x : option num) :
  existsb is_poll (tally o x) = false.
Proof. destruct o, x; reflexivity. Qed.

(** The amount of a result is the [float] of the sum of its file. *)
Lemma result_of_subtotal (self : AnalysisWorker) (d name : str)
  (loaded : result DataFrame) :
  option_map amount (result_of self d name loaded)
  = option_map float_ (subtotal_of self loaded).
Proof.
  destruct loaded as [df|e]; [|reflexivity]; cbn [result_of subtotal_of].
  destruct (label_in _ _); reflexivity.
Qed.

Lemma xlsx_actions_signals (self : AnalysisWorker) (d : str) (f : xlsx_file) :
  signals (xlsx_actions self d f) =
  map file_result_ready (opt_list (xlsx_result self d f)).
Proof.
  unfold xlsx_actions, xlsx_result; cbn [signals].
  destruct (load_xlsx self f); [apply signals_tally | reflexivity].
Qed.

Lemma xlsx_actions_subtotals (self : AnalysisWorker) (d : str) (f : xlsx_file) :
  subtotals (xlsx_actions self d f) = opt_list (xlsx_subtotal self f).
Proof.
  unfold xlsx_actions, xlsx_subtotal; cbn [subtotals].
  destruct (load_xlsx self f); [apply subtotals_tally | reflexivity].
Qed.

Lemma xlsx_actions_no_poll (self : AnalysisWorker) (d : str) (f : xlsx_file) :
  existsb is_poll (xlsx_actions self d f) = false.
Proof.
  unfold xlsx_actions; cbn [existsb is_poll orb].
  destruct (load_xlsx self f); [apply no_poll_tally | reflexivity].
Qed.

Lemma csv_reads_quiet (d : str) (f : csv_file) :
  signals (csv_reads d f) = []
  /\ subtotals (csv_reads d f) = []
  /\ existsb is_poll (csv_reads d f) = false.
Proof.
  unfold csv_reads; cbn [signals subtotals existsb is_poll orb].
  destruct (read_csv f utf_8) as [|e]; [repeat split|].
  destruct (is_UnicodeDecodeError e); repeat split.
Qed.

Lemma csv_actions_signals (self : AnalysisWorker) (d : str) (f : csv_file) :
  signals (csv_actions self d f) =
  map file_result_ready (opt_list (csv_result self d f)).
Proof.
  unfold csv_actions, csv_result; rewrite signals_app.
  rewrite (proj1 (csv_reads_quiet d f)); cbn [app].
  destruct (load_csv self f); [apply signals_tally | reflexivity].
Qed.

Lemma csv_actions_subtotals (self : AnalysisWorker) (d : str) (f : csv_file) :
  subtotals (csv_actions self d f) = opt_list (csv_subtotal self f).
Proof.
  unfold csv_actions, csv_subtotal; rewrite subtotals_app.
  rewrite (proj1 (proj2 (csv_reads_quiet d f))); cbn [app].
  destruct (load_csv self f); [apply subtotals_tally | reflexivity].
Qed.

Lemma csv_actions_no_poll (self : AnalysisWorker) (d : str) (f : csv_file) :
  existsb is_poll (csv_actions self d f) = false.
Proof.
  unfold csv_actions; rewrite existsb_app.
  rewrite (proj2 (proj2 (csv_reads_quiet d f))); cbn [orb].
  destruct (load_csv self f); [apply no_poll_tally | reflexivity].
Qed.

Lemma firstn_flat_map {A B : Type} (f : A -> list B) (m : nat) (l : list A) :
  flat_map f (firstn m l) =
  firstn (List.length (flat_map f (firstn m l))) (flat_map f l).
Proof.
  revert m; induction l as [|x l IH]; intros m.
  - rewrite firstn_nil; reflexivity.
  - destruct m as [|m]; [reflexivity|].
    cbn [firstn flat_map]. rewrite length_app, firstn_app.
    rewrite (@firstn_all2 _ _ (f x)) by lia.
    replace (List.length (f x) + _ - List.length (f x))%nat
      with (List.length (flat_map f (firstn m l))) by lia.
    rewrite <- IH; reflexivity.
Qed.

(** The two loops of a directory give the first results of the directory. *)
Lemma directory_pass_inv (self : AnalysisWorker) (env : environment) (d : str)
  (s : worker_state) :
  (exists n,
      signals (trace (directory_pass self env d s)) =
      map file_result_ready (firstn n (results_of_directory self env d)))
  /\ tallied s (after (directory_pass self env d s))
       (trace (directory_pass self env d s))
  /\ polled (stop_after env) (polls s)
       (trace (directory_pass self env d s))
       (polls (after (directory_pass self env d s)))
  /\ (scan_error (glob_xlsx env d) = None ->
      scan_error (glob_csv env d) = None ->
      outcome (directory_pass self env d s) = Ok tt).
Proof.
  unfold directory_pass.
  set (fx := for_each env (process_xlsx self d) (entries (glob_xlsx env d))
               (scan_error (glob_xlsx env d))).
  set (fc := for_each env (process_csv self d) (entries (glob_csv env d))
               (scan_error (glob_csv env d))).
  destruct (for_each_inv env (process_xlsx self d) (xlsx_result self d)
              (xlsx_subtotal self) (xlsx_actions self d)
              (process_xlsx_spec self d)
              (xlsx_actions_no_poll self d) (xlsx_actions_signals self d)
              (xlsx_actions_subtotals self d)
              (fun f => result_of_subtotal self d _ _)
              (entries (glob_xlsx env d)) (scan_error (glob_xlsx env d)) s)
    as [mx [Hmx [Hsx [Htx [Hpx [Hltx Heqx]]]]]].
  fold fx in Hsx, Htx, Hpx, Hltx, Heqx.
  destruct (for_each_inv env (process_csv self d) (csv_result self d)
              (csv_subtotal self) (csv_actions self d)
              (process_csv_spec self d)
              (csv_actions_no_poll self d) (csv_actions_signals self d)
              (csv_actions_subtotals self d)
              (fun f => result_of_subtotal self d _ _)
              (entries (glob_csv env d)) (scan_error (glob_csv env d))
              (after (fx s)))
    as [mc [Hmc [Hsc [Htc [Hpc [Hltc Heqc]]]]]].
  fold fc in Hsc, Htc, Hpc, Hltc, Heqc.
  set (X := flat_map (fun f => opt_list (xlsx_result self d f))).
  set (C := flat_map (fun f => opt_list (csv_result self d f))).
  fold X in Hsx; fold C in Hsc.
  destruct (outcome (fx s)) as [[]|e] eqn:Eox.
  - rewrite (bind_ok_at fx _ s tt Eox); cbn [outcome after trace].
    split; [|split; [|split]].
    + rewrite signals_app, Hsx. unfold results_of_directory; fold X C.
      destruct (Nat.eq_dec mx (List.length (entries (glob_xlsx env d))))
        as [Efull|Hpart].
      * exists (List.length (X (entries (glob_xlsx env d)))
                + List.length (C (firstn mc (entries (glob_csv env d)))))%nat.
        rewrite Efull, firstn_all, Hsc, <- map_app. f_equal.
        rewrite firstn_app,
          (@firstn_all2 _ _ (X (entries (glob_xlsx env d)))) by lia.
        replace (_ + _ - _)%nat
          with (List.length (C (firstn mc (entries (glob_csv env d)))))
          by lia.
        unfold C; rewrite <- firstn_flat_map; reflexivity.
      * exists (List.length (X (firstn mx (entries (glob_xlsx env d))))).
        assert (Hstop : stopped env (after (fx s)))
          by (apply Hltx; lia).
        assert (Enil : signals (trace (fc (after (fx s)))) = []).
        { unfold fc; rewrite (for_each_stopped env _ _ _ (after (fx s)) Hstop).
          destruct (entries (glob_csv env d));
            [destruct (scan_error (glob_csv env d))|]; reflexivity. }
        rewrite Enil, app_nil_r. f_equal.
        rewrite firstn_app.
        assert (Hle : (List.length (X (firstn mx (entries (glob_xlsx env d))))
                       <= List.length (X (entries (glob_xlsx env d))))%nat).
        { unfold X; rewrite (firstn_flat_map _ mx), length_firstn; lia. }
        replace (_ - _)%nat with 0%nat by lia.
        rewrite firstn_O, app_nil_r. unfold X; apply firstn_flat_map.
    + eapply tallied_trans; [exact Htx | exact Htc].
    + eapply polled_app; [exact Hpx | exact Hpc].
    + intros Ex Ec. rewrite Ec in Heqc.
      destruct (Nat.eq_dec mc (List.length (entries (glob_csv env d))))
        as [Efull|Hpart]; [apply Heqc; exact Efull | apply Hltc; lia].
  - rewrite (bind_raise_at fx _ s e Eox); cbn [outcome after trace].
    split; [|split; [|split]].
    + exists (List.length (X (firstn mx (entries (glob_xlsx env d))))).
      rewrite Hsx; f_equal. unfold results_of_directory; fold X C.
      rewrite firstn_app.
      assert (Hle : (List.length (X (firstn mx (entries (glob_xlsx env d))))
                     <= List.length (X (entries (glob_xlsx env d))))%nat).
      { unfold X; rewrite (firstn_flat_map _ mx), length_firstn; lia. }
      replace (_ - _)%nat with 0%nat by lia.
      rewrite firstn_O, app_nil_r. unfold X; apply firstn_flat_map.
    + exact Htx.
    + exact Hpx.
    + intros Ex _. rewrite Ex in Heqx.
      destruct (Nat.eq_dec mx (List.length (entries (glob_xlsx env d))))
        as [Efull|Hpart].
      * discriminate (Heqx Efull).
      * destruct (Hltx ltac:(lia)) as [_ Eok]; discriminate Eok.
Qed.

Lemma bind_assoc {A B C : Type} (m : M A) (k : A -> M B) (k' : B -> M C)
  (s : worker_state) :
  bind m (fun a => bind (k a) k') s = bind (bind m k) k' s.
Proof.
  unfold bind; destruct (m s) as [[a|e] s1 t1]; cbn; [|reflexivity].
  destruct (k a s1) as [[b|e] s2 t2]; cbn; [|reflexivity].
  rewrite app_assoc; reflexivity.
Qed.

Lemma step_eta {A : Type} (r : step A) :
  r = Step (outcome r) (after r) (trace r).
Proof. destruct r; reflexivity. Qed.

Lemma for_directories_running (self : AnalysisWorker) (env : environment)
  (d : str) (ds : list str) (s : worker_state) :
  is_running_at (stop_after env) (polls s) = true ->
  for_directories self env (d :: ds) s =
  match outcome (directory_pass self env d (tick s)) with
  | Ok _ =>
      Step (outcome (for_directories self env ds
                       (after (directory_pass self env d (tick s)))))
        (after (for_directories self env ds
                  (after (directory_pass self env d (tick s)))))
        (Poll true
         :: Emit (progress_updated (progress_prefix ++ d))
         :: trace (directory_pass self env d (tick s))
         ++ trace (for_directories self env ds
                     (after (directory_pass self env d (tick s)))))
  | Raise e =>
      Step (Raise e) (after (directory_pass self env d (tick s)))
        (Poll true
         :: Emit (progress_updated (progress_prefix ++ d))
         :: trace (directory_pass self env d (tick s)))
  end.
Proof.
  intros Hrun; cbn [for_directories].
  destruct (outcome (directory_pass self env d (tick s))) as [[]|e] eqn:Eo;
    (eapply bind_ok;
       [rewrite is_running_spec, Hrun; reflexivity | | reflexivity]);
    cbn iota beta;
    (eapply bind_ok; [reflexivity | | reflexivity]);
    rewrite (bind_assoc _ _ _ (tick s)); fold (directory_pass self env d).
  - rewrite (bind_ok_at _ _ _ tt Eo); reflexivity.
  - rewrite (bind_raise_at _ _ _ e Eo); reflexivity.
Qed.

Lemma for_directories_stopped (self : AnalysisWorker) (env : environment)
  (ds : list str) (s : worker_state) :
  stopped env s ->
  for_directories self env ds s =
  match ds with
  | [] => Step (Ok tt) s []
  | _ :: _ => Step (Ok tt) (tick s) [Poll false]
  end.
Proof.
  intros Hstop; destruct ds as [|d ds]; [reflexivity|].
  cbn [for_directories].
  eapply bind_ok; [rewrite is_running_spec, Hstop; reflexivity | | reflexivity].
  reflexivity.
Qed.

(** Whatever the flag and the globs do, the loop over the directories
    emits progress messages and results in the order of the directories
    and of their files, and keeps the accumulators in step with the
    results. *)
Lemma for_directories_inv (self : AnalysisWorker) (env : environment)
  (ds : list str) (s : worker_state) :
  body_of self env ds (signals (trace (for_directories self env ds s)))
  /\ tallied s (after (for_directories self env ds s))
       (trace (for_directories self env ds s))
  /\ polled (stop_after env) (polls s)
       (trace (for_directories self env ds s))
       (polls (after (for_directories self env ds s)))
  /\ ((forall d, In d ds ->
                 scan_error (glob_xlsx env d) = None
                 /\ scan_error (glob_csv env d) = None) ->
      outcome (for_directories self env ds s) = Ok tt).
Proof.
  revert s; induction ds as [|d ds IH]; intros s.
  - cbn [for_directories ret outcome after trace signals].
    split; [apply body_end|]. split; [apply tallied_refl|].
    split; [apply polled_end | reflexivity].
  - destruct (is_running_at (stop_after env) (polls s)) eqn:Hrun.
    + rewrite (for_directories_running self env d ds s Hrun).
      destruct (directory_pass_inv self env d (tick s))
        as [[n Hs] [Ht [Hp Ho]]].
      destruct (outcome (directory_pass self env d (tick s))) as [[]|e] eqn:Eo;
        cbn [outcome after trace].
      * destruct (IH (after (directory_pass self env d (tick s))))
          as [Hb' [Ht' [Hp' Ho']]].
        split; [|split; [|split]].
        -- cbn [signals]; rewrite signals_app, Hs.
           apply body_directory; exact Hb'.
        -- apply (tallied_trans s (tick s) _
                    [Poll true; Emit (progress_updated (progress_prefix ++ d))]);
             [apply tallied_progress|].
           eapply tallied_trans; [exact Ht | exact Ht'].
        -- apply (polled_running _ _ _
                    [Emit (progress_updated (progress_prefix ++ d))]);
             [exact Hrun | reflexivity|].
           eapply polled_app; [exact Hp | exact Hp'].
        -- intros Hscan; apply Ho'; intros d' Hd'; apply Hscan; right; exact Hd'.
      * split; [|split; [|split]].
        -- cbn [signals]; rewrite Hs, <- (app_nil_r (map _ _)).
           apply body_directory, body_end.
        -- apply (tallied_trans s (tick s) _
                    [Poll true; Emit (progress_updated (progress_prefix ++ d))]);
             [apply tallied_progress | exact Ht].
        -- apply (polled_running _ _ _
                    [Emit (progress_updated (progress_prefix ++ d))]);
             [exact Hrun | reflexivity|].
           rewrite <- (app_nil_r (trace _)).
           eapply polled_app; [exact Hp | apply polled_end].
        -- intros Hscan; destruct (Hscan d (or_introl eq_refl)) as [Ex Ec].
           discriminate (Ho Ex Ec).
    + rewrite (for_directories_stopped self env (d :: ds) s Hrun).
      cbn [outcome after trace signals].
      split; [apply body_end|]. split; [apply tallied_tick|].
      split; [apply polled_stopped; [exact Hrun | apply polled_end]|].
      reflexivity.
Qed.

(** While the flag stays [True] and the globs do not fail, the two loops
    handle every file of the directory. *)
Lemma directory_pass_exact (self : AnalysisWorker) (env : environment)
  (d : str) (s : worker_state) :
  (forall k, (polls s <= k < polls s + (List.length (entries (glob_xlsx env d))
                                        + List.length (entries (glob_csv env d))))%nat ->
             is_running_at (stop_after env) k = true) ->
  scan_error (glob_xlsx env d) = None ->
  scan_error (glob_csv env d) = None ->
  exists s',
    directory_pass self env d s =
    Step (Ok tt) s'
      (flat_map (fun f => Poll true :: xlsx_actions self d f)
         (entries (glob_xlsx env d))
       ++ flat_map (fun f => Poll true :: csv_actions self d f)
            (entries (glob_csv env d)))
    /\ polls s' = (polls s + (List.length (entries (glob_xlsx env d))
                              + List.length (entries (glob_csv env d))))%nat
    /\ tallied s s'
         (flat_map (fun f => Poll true :: xlsx_actions self d f)
            (entries (glob_xlsx env d))
          ++ flat_map (fun f => Poll true :: csv_actions self d f)
               (entries (glob_csv env d))).
Proof.
  intros Hrun Ex Ec; unfold directory_pass; rewrite Ex, Ec.
  destruct (for_each_exact env (process_xlsx self d) (xlsx_result self d)
              (xlsx_subtotal self) (xlsx_actions self d)
              (process_xlsx_spec self d)
              (xlsx_actions_signals self d) (xlsx_actions_subtotals self d)
              (fun f => result_of_subtotal self d _ _)
              (entries (glob_xlsx env d)) s)
    as [s1 [E1 [Hp1 Ht1]]].
  { intros k Hk; apply Hrun; lia. }
  destruct (for_each_exact env (process_csv self d) (csv_result self d)
              (csv_subtotal self) (csv_actions self d)
              (process_csv_spec self d)
              (csv_actions_signals self d) (csv_actions_subtotals self d)
              (fun f => result_of_subtotal self d _ _)
              (entries (glob_csv env d)) s1)
    as [s2 [E2 [Hp2 Ht2]]].
  { intros k Hk; apply Hrun; lia. }
  exists s2; split; [|split].
  - eapply bind_ok; [exact E1 | exact E2 | reflexivity].
  - lia.
  - eapply tallied_trans; [exact Ht1 | exact Ht2].
Qed.

Lemma run_polls_cons (env : environment) (d : str) (ds : list str) :
  run_polls env (d :: ds) =
  (S (List.length (entries (glob_xlsx env d))
      + List.length (entries (glob_csv env d)))
   + run_polls env ds)%nat.
Proof. reflexivity. Qed.

(** While the flag stays [True] and the globs do not fail, the loop goes
    through the directories [ds1] whole, and then on to [ds2]. *)
Lemma for_directories_exact (self : AnalysisWorker) (env : environment)
  (ds1 : list str) (s : worker_state) :
  (forall k, (polls s <= k < polls s + run_polls env ds1)%nat ->
             is_running_at (stop_after env) k = true) ->
  (forall d, In d ds1 ->
             scan_error (glob_xlsx env d) = None
             /\ scan_error (glob_csv env d) = None) ->
  exists s1,
    polls s1 = (polls s + run_polls env ds1)%nat
    /\ tallied s s1 (flat_map (directory_actions self env) ds1)
    /\ forall ds2,
         for_directories self env (ds1 ++ ds2) s =
         Step (outcome (for_directories self env ds2 s1))
           (after (for_directories self env ds2 s1))
           (flat_map (directory_actions self env) ds1
            ++ trace (for_directories self env ds2 s1)).
Proof.
  revert s; induction ds1 as [|d ds1 IH]; intros s Hrun Hscan.
  - exists s; split; [unfold run_polls; simpl; lia|].
    split; [apply tallied_refl|].
    intros ds2; cbn [app flat_map]; apply step_eta.
  - rewrite run_polls_cons in Hrun.
    destruct (Hscan d (or_introl eq_refl)) as [Ex Ec].
    destruct (directory_pass_exact self env d (tick s)) as [s' [E [Hp Ht]]];
      [intros k Hk; apply Hrun; simpl in Hk; lia | exact Ex | exact Ec |].
    destruct (IH s') as [s1 [Hp1 [Ht1 E1]]].
    { intros k Hk; apply Hrun. rewrite Hp in Hk; simpl in Hk; lia. }
    { intros d' Hd'; apply Hscan; right; exact Hd'. }
    exists s1; split; [|split].
    + rewrite run_polls_cons, Hp1, Hp; simpl; lia.
    + cbn [flat_map]; unfold directory_actions at 1.
      apply (tallied_trans s (tick s) _
               [Poll true; Emit (progress_updated (progress_prefix ++ d))]);
        [apply tallied_progress|].
      eapply tallied_trans; [exact Ht | exact Ht1].
    + intros ds2; cbn [app].
      rewrite for_directories_running by (apply Hrun; lia).
      rewrite E; cbn [outcome after trace]. rewrite (E1 ds2).
      cbn [outcome after trace flat_map]; unfold directory_actions at 2.
      cbn [app]; rewrite <- !app_assoc; reflexivity.
Qed.


(** ** The run *)

(** The run is the loop over the directories, and then one last signal:
    the summary when the loop returns, the error when it raises. *)
Lemma run_spec (self : AnalysisWorker) (env : environment) :
  run self env =
  Step (Ok tt)
    (after (for_directories self env (directories self) initial_state))
    (trace (for_directories self env (directories self) initial_state)
     ++ [Emit
           match outcome (for_directories self env (directories self)
                            initial_state) with
           | Ok _ =>
               finished_analysis
                 {| total_files :=
                      total_files_all
                        (after (for_directories self env (directories self)
                                  initial_state));
                    total_amount :=
                      float_
                        (total_amount_all
                           (after (for_directories self env (directories self)
                                     initial_state))) |}
           | Raise e => error_occurred (str_exn e)
           end]).
Proof.
  unfold run.
  destruct (outcome (for_directories self env (directories self) initial_state))
    as [[]|e] eqn:Eo.
  - apply try_ok. rewrite (bind_ok_at _ _ _ tt Eo); reflexivity.
  - eapply try_raise;
      [rewrite (bind_raise_at _ _ _ e Eo); reflexivity
      | reflexivity
      | reflexivity].
Qed.

Lemma body_of_no_terminal (self : AnalysisWorker) (env : environment)
  (ds : list str) (body : list signal) :
  body_of self env ds body -> filter is_terminal body = [].
Proof.
  induction 1 as [ds|d ds n rest _ IH]; [reflexivity|].
  cbn [filter is_terminal]; rewrite filter_app, IH, app_nil_r.
  induction (firstn n (results_of_directory self env d)) as [|r rs IHr];
    [reflexivity | exact IHr].
Qed.

Lemma body_of_file_results (self : AnalysisWorker) (env : environment)
  (ds : list str) (body : list signal) :
  body_of self env ds body ->
  (forall d, results_of_directory self env d = []) ->
  file_results body = [].
Proof.
  intros Hb Hnone; induction Hb as [ds|d ds n rest _ IH]; [reflexivity|].
  rewrite Hnone, firstn_nil; exact IH.
Qed.

(** The accumulators that started from zero make the summary of what was
    done. *)
Lemma summary_of_tallied (s : worker_state) (t : list action) :
  tallied initial_state s t ->
  {| total_files := total_files_all s;
     total_amount := float_ (total_amount_all s) |} = summary_of t.
Proof.
  intros [Hf [Ha _]]; unfold summary_of, sum_from_zero.
  rewrite Hf, Ha; reflexivity.
Qed.

Lemma summary_of_app_signal (t : list action) (sg : signal) :
  is_terminal sg = true -> summary_of (t ++ [Emit sg]) = summary_of t.
Proof.
  intros Hsg; unfold summary_of.
  rewrite signals_app, file_results_app, subtotals_app.
  destruct sg; try discriminate Hsg; cbn; rewrite !app_nil_r; reflexivity.
Qed.

(** The summary of a run that completes counts the results the run emitted
    and is the [float] of the running total of their sums. *)
Lemma run_summary_tallies (self : AnalysisWorker) (env : environment)
  (summary : RunSummary) :
  In (finished_analysis summary) (signals (trace (run self env))) ->
  summary = summary_of (trace (run self env)).
Proof.
  rewrite run_spec; cbn [trace].
  destruct (for_directories_inv self env (directories self) initial_state)
    as [Hb [Ht _]].
  rewrite signals_app; cbn [signals].
  intros Hin; apply in_app_or in Hin; destruct Hin as [Hin|Hin].
  - pose proof (body_of_no_terminal _ _ _ _ Hb) as Hno.
    assert (Hin' : In (finished_analysis summary)
                     (filter is_terminal
                        (signals (trace (for_directories self env
                                           (directories self) initial_state)))))
      by (apply filter_In; split; [exact Hin | reflexivity]).
    rewrite Hno in Hin'; destruct Hin'.
  - destruct (outcome _); destruct Hin as [E|[]]; [|discriminate E].
    injection E as <-.
    rewrite summary_of_app_signal by reflexivity.
    apply summary_of_tallied; exact Ht.
Qed.

Lemma signals_file_actions {A : Type} (res : A -> option FileResult)
  (acts : A -> list action) (fs : list A) :
  (forall f, signals (acts f) = map file_result_ready (opt_list (res f))) ->
  signals (flat_map (fun f => Poll true :: acts f) fs) =
  map file_result_ready (flat_map (fun f => opt_list (res f)) fs).
Proof.
  intros Hs; induction fs as [|f fs IH]; [reflexivity|].
  cbn [flat_map app signals]; rewrite signals_app, Hs, IH, map_app.
  reflexivity.
Qed.

Lemma signals_directory_actions (self : AnalysisWorker) (env : environment)
  (d : str) :
  signals (directory_actions self env d) = signals_of_directory self env d.
Proof.
  unfold directory_actions, signals_of_directory, results_of_directory.
  cbn [signals]; rewrite signals_app, map_app.
  rewrite (signals_file_actions (xlsx_result self d))
    by apply xlsx_actions_signals.
  rewrite (signals_file_actions (csv_result self d))
    by apply csv_actions_signals.
  reflexivity.
Qed.

Lemma signals_run_actions (self : AnalysisWorker) (env : environment)
  (ds : list str) :
  signals (flat_map (directory_actions self env) ds) =
  flat_map (signals_of_directory self env) ds.
Proof.
  induction ds as [|d ds IH]; [reflexivity|].
  cbn [flat_map]; rewrite signals_app, signals_directory_actions, IH.
  reflexivity.
Qed.





(** When no glob fails the last signal of the run is the summary. *)
Lemma run_signals_shape (self : AnalysisWorker) (env : environment) :
  scans_succeed self env ->
  exists body summary,
    signals (trace (run self env)) = body ++ [finished_analysis summary]
    /\ body_of self env (directories self) body.
Proof.
  intros Hscan; rewrite run_spec; cbn [trace].
  destruct (for_directories_inv self env (directories self) initial_state)
    as [Hb [_ [_ Ho]]].
  rewrite (Ho Hscan), signals_app; cbn [signals].
  eexists; eexists; split; [reflexivity | exact Hb].
Qed.


(** ** The run: counting, ordering, stopping, failing files *)

(** C9: in every run the signals are progress messages and results, a
    directory's message before its results and the directories and their
    files in order, followed by one terminal signal, the summary or the
    error: it is the last signal and no other signal of the run is
    terminal. *)
Theorem run_signals_ordered (self : AnalysisWorker) (env : environment) :
  exists body last,
    signals (trace (run self env)) = body ++ [last]
    /\ body_of self env (directories self) body
    /\ is_terminal last = true
    /\ filter is_terminal (signals (trace (run self env))) = [last].
Proof.
  rewrite run_spec; cbn [trace]; rewrite signals_app; cbn [signals].
  destruct (for_directories_inv self env (directories self) initial_state)
    as [Hb _].
  eexists; eexists; split; [reflexivity|]. split; [exact Hb|].
  assert (Hterm : forall sg,
            sg = match outcome (for_directories self env (directories self)
                                  initial_state) with
                 | Ok _ =>
                     finished_analysis
                       {| total_files :=
                            total_files_all
                              (after (for_directories self env
                                        (directories self) initial_state));
                          total_amount :=
                            float_
                              (total_amount_all
                                 (after (for_directories self env
                                           (directories self)
                                           initial_state))) |}
                 | Raise e => error_occurred (str_exn e)
                 end ->
            is_terminal sg = true)
    by (intros sg ->; destruct (outcome _); reflexivity).
  split; [apply Hterm; reflexivity|].
  rewrite filter_app, (body_of_no_terminal _ _ _ _ Hb); cbn [filter app].
  rewrite (Hterm _ eq_refl); reflexivity.
Qed.










(** C8: a file whose load raises (a parse that fails, a repeated label
    under the filter) is caught where the file is handled: the worker prints
    the failure, emits nothing, leaves both accumulators as they were and
    returns normally, so that the loop goes on with the next file; the
    failure notification of a run whose globs do not fail is never sent. A
    delimited-text file is read as UTF-8, and read one more time, as GBK,
    exactly when the first read raises a decoding error; an error of that
    second read, or another error of the first, is the failure of the
    file. *)
Theorem failing_file_is_skipped (self : AnalysisWorker) (env : environment) :
  (forall d f e s,
      load_xlsx self f = Raise e ->
      process_xlsx self d f s =
      Step (Ok tt) s [ReadExcel d (xlsx_name f); Print d (xlsx_name f) e])
  /\ (forall d f e s,
        load_csv self f = Raise e ->
        process_csv self d f s =
        Step (Ok tt) s (csv_reads d f ++ [Print d (csv_name f) e]))
  /\ (forall d f,
        match read_csv f utf_8 with
        | Ok df => csv_reads d f = [ReadCsv d (csv_name f) utf_8]
                   /\ parse_csv f = Ok df
        | Raise e =>
            if is_UnicodeDecodeError e
            then csv_reads d f = [ReadCsv d (csv_name f) utf_8;
                                  ReadCsv d (csv_name f) gbk]
                 /\ parse_csv f = read_csv f gbk
            else csv_reads d f = [ReadCsv d (csv_name f) utf_8]
                 /\ parse_csv f = Raise e
        end)
  /\ (forall d f fs tail e s,
        is_running_at (stop_after env) (polls s) = true ->
        load_xlsx self f = Raise e ->
        for_each env (process_xlsx self d) (f :: fs) tail s =
        Step (outcome (for_each env (process_xlsx self d) fs tail (tick s)))
          (after (for_each env (process_xlsx self d) fs tail (tick s)))
          (Poll true :: ReadExcel d (xlsx_name f) :: Print d (xlsx_name f) e
           :: trace (for_each env (process_xlsx self d) fs tail (tick s))))
  /\ (forall d f fs tail e s,
        is_running_at (stop_after env) (polls s) = true ->
        load_csv self f = Raise e ->
        for_each env (process_csv self d) (f :: fs) tail s =
        Step (outcome (for_each env (process_csv self d) fs tail (tick s)))
          (after (for_each env (process_csv self d) fs tail (tick s)))
          (Poll true :: csv_reads d f ++ Print d (csv_name f) e
           :: trace (for_each env (process_csv self d) fs tail (tick s))))
  /\ (scans_succeed self env ->
      forall msg, ~ In (error_occurred msg) (signals (trace (run self env)))).
Proof.
  assert (Hx : forall d f e s,
             load_xlsx self f = Raise e ->
             process_xlsx self d f s =
             Step (Ok tt) s [ReadExcel d (xlsx_name f); Print d (xlsx_name f) e]).
  { intros d f e s E; rewrite process_xlsx_spec.
    unfold xlsx_actions, xlsx_subtotal, subtotal_of; rewrite E; reflexivity. }
  assert (Hc : forall d f e s,
             load_csv self f = Raise e ->
             process_csv self d f s =
             Step (Ok tt) s (csv_reads d f ++ [Print d (csv_name f) e])).
  { intros d f e s E; rewrite process_csv_spec.
    unfold csv_actions, csv_subtotal, subtotal_of; rewrite E; reflexivity. }
  split; [exact Hx|]. split; [exact Hc|]. split; [|split; [|split]].
  - intros d f; unfold csv_reads, parse_csv.
    destruct (read_csv f utf_8) as [df|e]; [split; reflexivity|].
    destruct (is_UnicodeDecodeError e); split; reflexivity.
  - intros d f fs tail e s Hrun E.
    rewrite (for_each_running env _ (xlsx_subtotal self) (xlsx_actions self d)
               (process_xlsx_spec self d) f fs tail s Hrun).
    unfold xlsx_actions, xlsx_subtotal, subtotal_of; rewrite E; reflexivity.
  - intros d f fs tail e s Hrun E.
    rewrite (for_each_running env _ (csv_subtotal self) (csv_actions self d)
               (process_csv_spec self d) f fs tail s Hrun).
    unfold csv_actions, csv_subtotal, subtotal_of; rewrite E; cbn [account].
    rewrite <- app_assoc; reflexivity.
  - intros Hscan msg Hin.
    destruct (run_signals_shape self env Hscan) as [body [summary [E Hb]]].
    rewrite E in Hin; apply in_app_or in Hin; destruct Hin as [Hin|[Hin|[]]];
      [|discriminate Hin].
    pose proof (body_of_no_terminal _ _ _ _ Hb) as Hno.
    assert (Hin' : In (error_occurred msg) (filter is_terminal body))
      by (apply filter_In; split; [exact Hin | reflexivity]).
    rewrite Hno in Hin'; destruct Hin'.
Qed.

Lemma filter_spec_no_total (df : DataFrame) (c : label) :
  is_total_label c = true -> label_in c (columns (filter_spec df)) = false.
Proof.
  intros Ht; destruct (label_in c (columns (filter_spec df))) eqn:E;
    [|reflexivity].
  apply label_in_In in E; unfold columns, filter_spec in E; cbn [header] in E.
  apply in_map_iff in E; destruct E as [col [<- Hcol]].
  apply filter_In in Hcol; destruct Hcol as [_ Hcol].
  rewrite Ht in Hcol; discriminate.
Qed.

Lemma map_filter {A B : Type} (f : A -> B) (p : B -> bool) (l : list A) :
  map f (filter (fun x => p (f x)) l) = filter p (map f l).
Proof.
  induction l as [|x l IH]; [reflexivity|].
  simpl; destruct (p (f x)); simpl; rewrite IH; reflexivity.
Qed.

Lemma flat_map_nil {A B : Type} (f : A -> list B) (l : list A) :
  (forall x, f x = []) -> flat_map f l = [].
Proof.
  intros E; induction l as [|x l IH]; [reflexivity|].
  cbn [flat_map]; rewrite E, IH; reflexivity.
Qed.

(** C10: the override is applied before the filter. Where it applies, the
    labels of the loaded table are the names of the override without those
    whose trimmed text is 合计 or 合 计, whatever the labels of the parsed
    file were; and when the target column is such a name no file has a
    result: nothing is emitted for it and nothing is counted, in any run. *)
Theorem override_total_name_is_dropped (self : AnalysisWorker) :
  (forall names parsed df,
      custom_headers self = Some names ->
      List.length names = List.length (columns parsed) ->
      _preprocess_df (apply_custom_headers (custom_headers self) parsed)
      = Ok df ->
      columns df = filter (fun c => negb (is_total_label c)) (map Name names)
      /\ forall name, In name names ->
                      is_total_label (Name name) = true ->
                      ~ In (Name name) (columns df))
  /\ (is_total_label (Name (amount_column self)) = true ->
      (forall d f, xlsx_result self d f = None)
      /\ (forall d f, csv_result self d f = None)
      /\ forall env,
           file_results (signals (trace (run self env))) = []
           /\ forall summary,
                In (finished_analysis summary)
                  (signals (trace (run self env))) ->
                total_files summary = 0).
Proof.
  split.
  - intros names parsed df Ehdr Elen Eload.
    apply preprocess_df_ok in Eload; destruct Eload as [-> _].
    assert (Ecols : columns (filter_spec
                               (apply_custom_headers (custom_headers self) parsed))
                    = filter (fun c => negb (is_total_label c)) (map Name names)).
    { unfold columns at 1, filter_spec; cbn [header].
      rewrite (map_filter col_label (fun c => negb (is_total_label c))).
      fold (columns (apply_custom_headers (custom_headers self) parsed)).
      rewrite Ehdr; unfold apply_custom_headers.
      rewrite (proj2 (Nat.eqb_eq _ _) Elen).
      rewrite (proj1 (set_columns_spec names parsed Elen)); reflexivity. }
    split; [exact Ecols|].
    intros name _ Htotal Hin; rewrite Ecols in Hin.
    apply filter_In in Hin; destruct Hin as [_ Hin].
    rewrite Htotal in Hin; discriminate.
  - intros Htotal.
    assert (Hnone : forall d name loaded,
              (forall df, loaded = Ok df -> exists raw, df = filter_spec raw) ->
              result_of self d name loaded = None).
    { intros d name [df|e] Hfrom; [|reflexivity].
      destruct (Hfrom df eq_refl) as [raw ->]; unfold result_of.
      rewrite (filter_spec_no_total raw _ Htotal); reflexivity. }
    assert (Hx : forall d f, xlsx_result self d f = None).
    { intros d f; apply Hnone; intros df E; unfold load_xlsx in E.
      destruct (read_excel f) as [parsed|]; [|discriminate].
      apply preprocess_df_ok in E; destruct E as [-> _]; eexists; reflexivity. }
    assert (Hc : forall d f, csv_result self d f = None).
    { intros d f; apply Hnone; intros df E; unfold load_csv in E.
      destruct (parse_csv f) as [parsed|]; [|discriminate].
      apply preprocess_df_ok in E; destruct E as [-> _]; eexists; reflexivity. }
    split; [exact Hx|]. split; [exact Hc|]. intros env.
    assert (Hres : file_results (signals (trace (run self env))) = []).
    { rewrite run_spec; cbn [trace].
      destruct (for_directories_inv self env (directories self) initial_state)
        as [Hb _].
      rewrite signals_app, file_results_app.
      rewrite (body_of_file_results _ _ _ _ Hb).
      - destruct (outcome _); reflexivity.
      - intros d; unfold results_of_directory.
        rewrite !flat_map_nil; [reflexivity | |].
        + intros f; rewrite Hc; reflexivity.
        + intros f; rewrite Hx; reflexivity. }
    split; [exact Hres|].
    intros summary Hin; apply run_summary_tallies in Hin.
    rewrite Hin; cbn [summary_of total_files]; rewrite Hres; reflexivity.
Qed.




(** ** More on the worker *)

(** X1: the identifier [_extract_monthly_card] returns is either empty or
    exactly ten decimal digits that stand next to each other in the file
    name; a name of fewer than ten characters has the empty identifier. *)
Theorem monthly_card_is_empty_or_ten_digits (filename : str) :
  (_extract_monthly_card filename = []
   \/ (List.length (_extract_monthly_card filename) = 10%nat
       /\ forallb isdecimal (_extract_monthly_card filename) = true
       /\ exists pre post,
            filename = pre ++ _extract_monthly_card filename ++ post))
  /\ ((List.length filename < 10)%nat -> _extract_monthly_card filename = []).
Proof.
  split.
  - unfold _extract_monthly_card; rewrite search_10_digits_spec.
    destruct (find (ten_digits_at filename) (seq 0 (List.length filename)))
      as [i|] eqn:Ef; [right | left; reflexivity].
    apply find_some in Ef; destruct Ef as [_ Ht].
    unfold ten_digits_at in Ht; apply andb_true_iff in Ht.
    destruct Ht as [Hlen Hdig]; apply Nat.leb_le in Hlen.
    cbn [option_map]. split; [|split].
    + rewrite length_firstn; lia.
    + exact Hdig.
    + exists (firstn i filename), (skipn 10 (skipn i filename)).
      rewrite (firstn_skipn 10 (skipn i filename)).
      symmetry; apply firstn_skipn.
  - intros Hshort; unfold _extract_monthly_card.
    rewrite search_10_digits_none; [reflexivity|].
    intros i; unfold ten_digits_at.
    replace (10 <=? List.length (skipn i filename))%nat with false;
      [reflexivity|].
    symmetry; apply Nat.leb_gt. rewrite length_skipn; lia.
Qed.

Section LoopFailure.

Context {A : Type} (env : environment) (body : A -> M unit).
Context (sub : A -> option num) (acts : A -> list action).

Hypothesis body_spec :
  forall f s, body f s = Step (Ok tt) (account (sub f) s) (acts f).
Hypothesis never_stopped : stop_after env = None.

(** With the flag up, a glob that fails lets the loop handle every file it
    yields, and then ends the loop with its exception. *)
Lemma for_each_raises (fs : list A) (e : exn) (s : worker_state) :
  exists s',
    for_each env body fs (Some e) s =
    Step (Raise e) s' (flat_map (fun f => Poll true :: acts f) fs).
Proof.
  revert s; induction fs as [|f fs IH]; intros s.
  - exists s; reflexivity.
  - rewrite (for_each_running env body sub acts body_spec)
      by (rewrite never_stopped; reflexivity).
    destruct (IH (account (sub f) (tick s))) as [s' E].
    exists s'; rewrite E; reflexivity.
Qed.

End LoopFailure.

(** A pass over a directory one glob of which fails. *)
Lemma directory_pass_raises (self : AnalysisWorker) (env : environment)
  (d : str) (e : exn) (s : worker_state) :
  stop_after env = None ->
  first_scan_error env d = Some e ->
  outcome (directory_pass self env d s) = Raise e
  /\ signals (trace (directory_pass self env d s)) =
     map file_result_ready (results_before_failure self env d).
Proof.
  intros Hstop Hfail; unfold first_scan_error in Hfail.
  unfold directory_pass, results_before_failure.
  destruct (scan_error (glob_xlsx env d)) as [e'|] eqn:Ex.
  - inversion Hfail; subst e'; clear Hfail.
    destruct (for_each_raises env (process_xlsx self d) (xlsx_subtotal self)
                (xlsx_actions self d) (process_xlsx_spec self d) Hstop
                (entries (glob_xlsx env d)) e s) as [s1 E1].
    rewrite (bind_raise _ _ _ _ _ _ E1); cbn [outcome trace].
    split; [reflexivity|]. rewrite app_nil_r.
    apply signals_file_actions, xlsx_actions_signals.
  - destruct (for_each_exact env (process_xlsx self d) (xlsx_result self d)
                (xlsx_subtotal self) (xlsx_actions self d)
                (process_xlsx_spec self d)
                (xlsx_actions_signals self d) (xlsx_actions_subtotals self d)
                (fun f => result_of_subtotal self d _ _)
                (entries (glob_xlsx env d)) s)
      as [s1 [E1 _]].
    { intros k _; rewrite Hstop; reflexivity. }
    rewrite Hfail.
    destruct (for_each_raises env (process_csv self d) (csv_subtotal self)
                (csv_actions self d) (process_csv_spec self d) Hstop
                (entries (glob_csv env d)) e s1) as [s2 E2].
    rewrite (bind_ok _ _ _ _ _ _ _ _ _ _ E1 E2 eq_refl); cbn [outcome trace].
    split; [reflexivity|]. rewrite signals_app, map_app.
    rewrite (signals_file_actions (xlsx_result self d))
      by apply xlsx_actions_signals.
    rewrite (signals_file_actions (csv_result self d))
      by apply csv_actions_signals.
    reflexivity.
Qed.

(** X2: a glob that fails ends the run. When the flag stays up and the
    first glob to fail is one of the directory [d], the signals of the run
    are those of the directories before [d], the progress message of [d],
    the results of the files that [d] yielded before the failure, and then
    [error_occurred] with the text of the exception: no summary is emitted,
    nothing emitted before is taken back, and no directory after [d] is
    visited. *)
Theorem failing_glob_ends_run_with_error (self : AnalysisWorker)
  (env : environment) (ds1 : list str) (d : str) (ds2 : list str) (e : exn) :
  stop_after env = None ->
  directories self = ds1 ++ d :: ds2 ->
  (forall d', In d' ds1 ->
              scan_error (glob_xlsx env d') = None
              /\ scan_error (glob_csv env d') = None) ->
  first_scan_error env d = Some e ->
  signals (trace (run self env)) =
  flat_map (signals_of_directory self env) ds1
  ++ progress_updated (progress_prefix ++ d)
     :: map file_result_ready (results_before_failure self env d)
  ++ [error_occurred (str_exn e)].
Proof.
  intros Hstop Eds Hscan Hfail; rewrite run_spec; cbn [trace].
  destruct (for_directories_exact self env ds1 initial_state)
    as [s1 [Hp1 [_ E1]]].
  { intros k _; rewrite Hstop; reflexivity. }
  { exact Hscan. }
  rewrite Eds, (E1 (d :: ds2)).
  rewrite (for_directories_running self env d ds2 s1)
    by (rewrite Hstop; reflexivity).
  destruct (directory_pass_raises self env d e (tick s1) Hstop Hfail)
    as [Eo Es].
  rewrite Eo; cbn [outcome after trace].
  rewrite !signals_app, signals_run_actions; cbn [signals app].
  rewrite Es, <- app_assoc; reflexivity.
Qed.

(** ** More on the filter *)

Lemma length_drop_where {A B : Type} (p : A -> bool) (hdr : list A)
  (r : list B) :
  List.length r = List.length hdr ->
  List.length (drop_where (map p hdr) r) =
  List.length (filter (fun c => negb (p c)) hdr).
Proof.
  revert r; induction hdr as [|c hdr IH]; intros [|x r] E;
    try discriminate; [reflexivity|].
  cbn [map drop_where filter]; inversion E as [E'].
  destruct (p c); cbn [negb List.length]; rewrite (IH r E'); reflexivity.
Qed.

Lemma length_header_override (custom_headers : option (list str))
  (df : DataFrame) :
  List.length (header (apply_custom_headers custom_headers df)) =
  List.length (header df)
  /\ rows (apply_custom_headers custom_headers df) = rows df.
Proof.
  unfold apply_custom_headers; destruct custom_headers as [names|];
    [|split; reflexivity].
  destruct (List.length names =? List.length (columns df))%nat eqn:E;
    [|split; reflexivity].
  apply Nat.eqb_eq in E; unfold columns in E; rewrite length_map in E.
  unfold set_columns; cbn [header rows]; split; [|reflexivity].
  rewrite length_map, length_combine; lia.
Qed.

(** X3: the override and the filter keep a table rectangular. When every
    row of the parsed table has one cell for each column, so has every row
    of the table the worker loads, which has no more rows and no more
    columns than the parsed one. *)
Theorem loaded_table_stays_rectangular (custom_headers : option (list str))
  (df df' : DataFrame) :
  rectangular df ->
  _preprocess_df (apply_custom_headers custom_headers df) = Ok df' ->
  rectangular df'
  /\ (List.length (header df') <= List.length (header df))%nat
  /\ (List.length (rows df') <= List.length (rows df))%nat.
Proof.
  intros Hrect E; apply preprocess_df_ok in E; destruct E as [-> _].
  destruct (length_header_override custom_headers df) as [Eh Er].
  set (loaded := apply_custom_headers custom_headers df) in *.
  unfold rectangular, filter_spec; cbn [header rows]. split; [|split].
  - apply Forall_forall; intros r Hr.
    apply filter_In in Hr; destruct Hr as [Hr _].
    apply in_map_iff in Hr; destruct Hr as [r0 [<- Hr0]].
    apply (length_drop_where (fun c => is_total_label (col_label c))).
    rewrite Eh. rewrite Er in Hr0.
    exact (proj1 (Forall_forall _ _) Hrect r0 Hr0).
  - rewrite <- Eh; apply filter_length_le.
  - rewrite <- Er.
    etransitivity; [apply filter_length_le | rewrite length_map; reflexivity].
Qed.

(** X4: what the filter returns holds no total. No column of the returned
    table has a name that, trimmed, is 合计 or 合 计, and no row of it has a
    summary marker in the text of a cell of a textual column. *)
Theorem preprocessed_table_has_no_total (df df' : DataFrame) :
  _preprocess_df df = Ok df' ->
  (forall c, In c (columns df') -> is_total_label c = false)
  /\ (forall r c x,
        In r (rows df') ->
        In (c, x) (combine (header df') r) ->
        is_object (col_dtype c) = true ->
        search_total (astype_str x) = false).
Proof.
  intros E; apply preprocess_df_ok in E; destruct E as [-> _]. split.
  - intros c Hc; unfold columns, filter_spec in Hc; cbn [header] in Hc.
    apply in_map_iff in Hc; destruct Hc as [col [<- Hcol]].
    apply filter_In in Hcol; destruct Hcol as [_ Hcol].
    apply negb_true_iff; exact Hcol.
  - intros r c x Hr Hcx Hobj.
    unfold filter_spec in Hr; cbn [rows] in Hr.
    apply filter_In in Hr; destruct Hr as [_ Hr].
    apply negb_true_iff in Hr; unfold total_row in Hr.
    destruct (search_total (astype_str x)) eqn:Es; [|reflexivity].
    assert (Hex : existsb (fun cx => hit (fst cx) (snd cx))
                    (combine (header (filter_spec df)) r) = true).
    { apply existsb_exists; exists (c, x); split; [exact Hcx|].
      unfold hit; cbn [fst snd]; rewrite Hobj, Es; reflexivity. }
    unfold filter_spec in Hex; cbn [header] in Hex.
    rewrite Hr in Hex; discriminate.
Qed.

Lemma NoDup_map_Name (names : list str) :
  NoDup (map Name names) -> NoDup names.
Proof. apply NoDup_map_inv. Qed.

(** An override that applies and repeats a name that is not a summary
    marker makes the filter raise. *)
Lemma repeated_override_name_raises (names : list str) (df : DataFrame) :
  List.length names = List.length (columns df) ->
  ~ NoDup (filter (fun n => negb (is_total_label (Name n))) names) ->
  _preprocess_df (apply_custom_headers (Some names) df) =
  Raise (AttributeError no_attribute_dtype).
Proof.
  intros Elen Hdup.
  destruct (preprocess_df_cases (apply_custom_headers (Some names) df))
    as [[Hnd _]|[_ E]]; [|exact E].
  exfalso; apply Hdup, NoDup_map_Name.
  rewrite (map_filter Name (fun c => negb (is_total_label c))).
  unfold apply_custom_headers in Hnd.
  rewrite (proj2 (Nat.eqb_eq _ _) Elen) in Hnd.
  destruct (set_columns_spec names df Elen) as [Ecols _].
  unfold columns, filter_spec in Hnd; cbn [header] in Hnd.
  rewrite (map_filter col_label (fun c => negb (is_total_label c))) in Hnd.
  fold (columns (set_columns names df)) in Hnd.
  rewrite Ecols in Hnd; exact Hnd.
Qed.

(** X5: an override that repeats a name costs every file it applies to.
    When the override has as many names as the parsed table has columns
    and two of its names that are not summary markers are equal, the filter
    raises [AttributeError]; the worker prints it and goes on, and the file
    has no result, be it a spreadsheet or a delimited-text file. *)
Theorem repeated_override_name_skips_every_file (self : AnalysisWorker)
  (names : list str) (d : str) (s : worker_state) :
  custom_headers self = Some names ->
  ~ NoDup (filter (fun n => negb (is_total_label (Name n))) names) ->
  (forall f df,
      read_excel f = Ok df ->
      List.length names = List.length (columns df) ->
      process_xlsx self d f s =
      Step (Ok tt) s
        [ReadExcel d (xlsx_name f);
         Print d (xlsx_name f) (AttributeError no_attribute_dtype)]
      /\ xlsx_result self d f = None)
  /\ (forall f df,
        parse_csv f = Ok df ->
        List.length names = List.length (columns df) ->
        process_csv self d f s =
        Step (Ok tt) s
          (csv_reads d f
           ++ [Print d (csv_name f) (AttributeError no_attribute_dtype)])
        /\ csv_result self d f = None).
Proof.
  intros Ech Hdup; split; intros f df Er Elen.
  - assert (El : load_xlsx self f = Raise (AttributeError no_attribute_dtype)).
    { unfold load_xlsx; rewrite Er, Ech.
      apply repeated_override_name_raises; assumption. }
    rewrite process_xlsx_spec.
    unfold xlsx_actions, xlsx_result, xlsx_subtotal.
    rewrite El; split; reflexivity.
  - assert (El : load_csv self f = Raise (AttributeError no_attribute_dtype)).
    { unfold load_csv; rewrite Er, Ech.
      apply repeated_override_name_raises; assumption. }
    rewrite process_csv_spec.
    unfold csv_actions, csv_result, csv_subtotal.
    rewrite El; split; reflexivity.
Qed.

(** * The window: proofs *)

(** ** Steps of a method *)

Lemma wstep_eta {A : Type} (r : wstep A) :
  r = WStep (w_outcome r) (w_after r) (w_trace r).
Proof. destruct r; reflexivity. Qed.

Lemma wbind_ok {A B : Type} (m : W A) (k : A -> W B) (w w1 : MainWindow)
  (a : A) (t1 : list gui_action) :
  m w = WStep (Ok a) w1 t1 ->
  wbind m k w =
  WStep (w_outcome (k a w1)) (w_after (k a w1)) (t1 ++ w_trace (k a w1)).
Proof. intros E; unfold wbind; rewrite E; reflexivity. Qed.

Lemma wbind_raise {A B : Type} (m : W A) (k : A -> W B) (w w1 : MainWindow)
  (e : exn) (t1 : list gui_action) :
  m w = WStep (Raise e) w1 t1 ->
  wbind m k w = WStep (Raise e) w1 t1.
Proof. intros E; unfold wbind; rewrite E; reflexivity. Qed.

(** A step that does nothing outside the window, before the rest. *)
Lemma wbind_quiet {A B : Type} (m : W A) (k : A -> W B) (w w1 : MainWindow)
  (a : A) :
  m w = WStep (Ok a) w1 [] -> wbind m k w = k a w1.
Proof.
  intros E; rewrite (wbind_ok _ _ _ _ _ _ E); symmetry; apply wstep_eta.
Qed.

(** ** What a method leaves as it was *)

Lemma keeps_wret {T A : Type} (proj : MainWindow -> T) (a : A) :
  keeps proj (wret a).
Proof. intros w; reflexivity. Qed.

Lemma keeps_wlift {T A : Type} (proj : MainWindow -> T) (r : result A) :
  keeps proj (wlift r).
Proof. intros w; reflexivity. Qed.

Lemma keeps_wtell {T : Type} (proj : MainWindow -> T) (a : gui_action) :
  keeps proj (wtell a).
Proof. intros w; reflexivity. Qed.

Lemma keeps_wget {T : Type} (proj : MainWindow -> T) : keeps proj wget.
Proof. intros w; reflexivity. Qed.

Lemma keeps_modify {T : Type} (proj : MainWindow -> T)
  (f : MainWindow -> MainWindow) :
  (forall w, proj (f w) = proj w) -> keeps proj (modify f).
Proof. intros Hf w; apply Hf. Qed.

Lemma keeps_wbind {T A B : Type} (proj : MainWindow -> T) (m : W A)
  (k : A -> W B) :
  keeps proj m -> (forall a, keeps proj (k a)) -> keeps proj (wbind m k).
Proof.
  intros Hm Hk w; unfold wbind.
  destruct (w_outcome (m w)) as [a|e]; cbn [w_after]; [|apply Hm].
  rewrite Hk; apply Hm.
Qed.

Lemma keeps_wtry {T A : Type} (proj : MainWindow -> T) (m : W A)
  (handler : exn -> W A) :
  keeps proj m -> (forall e, keeps proj (handler e)) ->
  keeps proj (wtry m handler).
Proof.
  intros Hm Hh w; unfold wtry.
  destruct (w_outcome (m w)) as [a|e]; cbn [w_after]; [apply Hm|].
  rewrite Hh; apply Hm.
Qed.

(** The steps of a method are taken one by one; a step that assigns is
    checked on the record. *)
Ltac frame :=
  repeat first
    [ assumption
    | apply keeps_wret
    | apply keeps_wlift
    | apply keeps_wtell
    | apply keeps_wget
    | apply keeps_modify; intros; reflexivity
    | apply keeps_wbind; [|intros]
    | apply keeps_wtry; [|intros]
    | match goal with
      | |- keeps _ (if ?b then _ else _) => destruct b
      | |- keeps _ (match ?x with _ => _ end) => destruct x
      end ].

Lemma returns_wret {A : Type} (a : A) : returns (wret a).
Proof. intros w; exists a; reflexivity. Qed.

Lemma returns_wtell (a : gui_action) : returns (wtell a).
Proof. intros w; exists tt; reflexivity. Qed.

Lemma returns_wget : returns wget.
Proof. intros w; exists w; reflexivity. Qed.

Lemma returns_modify (f : MainWindow -> MainWindow) : returns (modify f).
Proof. intros w; exists tt; reflexivity. Qed.

Lemma returns_wbind {A B : Type} (m : W A) (k : A -> W B) :
  returns m -> (forall a, returns (k a)) -> returns (wbind m k).
Proof.
  intros Hm Hk w; unfold wbind; destruct (Hm w) as [a Ea]; rewrite Ea.
  destruct (Hk a (w_after (m w))) as [b Eb]; exists b; exact Eb.
Qed.

Lemma returns_wtry {A : Type} (m : W A) (handler : exn -> W A) :
  (forall e, returns (handler e)) -> returns (wtry m handler).
Proof.
  intros Hh w; unfold wtry; destruct (w_outcome (m w)) as [a|e] eqn:E.
  - exists a; exact E.
  - destruct (Hh e (w_after (m w))) as [b Eb]; exists b; exact Eb.
Qed.

Ltac total :=
  repeat first
    [ assumption
    | apply returns_wret
    | apply returns_wtell
    | apply returns_wget
    | apply returns_modify
    | apply returns_wbind; [|intros]
    | apply returns_wtry; intros
    | match goal with
      | |- returns (if ?b then _ else _) => destruct b
      | |- returns (match ?x with _ => _ end) => destruct x
      end ].

(** When the first step returns, the rest goes on from where it ends. *)
Lemma after_wbind {A B : Type} (m : W A) (k : A -> W B) (w : MainWindow)
  (a : A) :
  w_outcome (m w) = Ok a ->
  w_after (wbind m k w) = w_after (k a (w_after (m w)))
  /\ w_outcome (wbind m k w) = w_outcome (k a (w_after (m w))).
Proof. intros E; unfold wbind; rewrite E; split; reflexivity. Qed.

Lemma outcome_wbind_ok {A B : Type} (m : W A) (k : A -> W B) (w : MainWindow)
  (b : B) :
  w_outcome (wbind m k w) = Ok b ->
  exists a, w_outcome (m w) = Ok a
            /\ w_outcome (k a (w_after (m w))) = Ok b.
Proof.
  unfold wbind; destruct (w_outcome (m w)) as [a|e]; cbn [w_outcome];
    [|discriminate].
  intros E; exists a; split; [reflexivity | exact E].
Qed.

(** ** What the methods leave as it was *)

Lemma str_in_In (s : str) (l : list str) : str_in s l = true <-> In s l.
Proof.
  unfold str_in; rewrite existsb_exists; split.
  - intros [x [Hx E]]; apply eqb_eq in E; subst; exact Hx.
  - intros Hs; exists s; split; [exact Hs | apply eqb_eq; reflexivity].
Qed.

Lemma keeps_factor {T U A : Type} (big : MainWindow -> U)
  (proj : MainWindow -> T) (g : U -> T) (m : W A) :
  (forall w, proj w = g (big w)) -> keeps big m -> keeps proj m.
Proof. intros Hg Hm w; rewrite !Hg, Hm; reflexivity. Qed.

(** What comes after a step that leaves a part of the window as it was has
    that part as the step left it. *)
Lemma keeps_rest {T A B : Type} (proj : MainWindow -> T) (m : W A)
  (k : A -> W B) (w : MainWindow) :
  (forall a, keeps proj (k a)) ->
  proj (w_after (wbind m k w)) = proj (w_after (m w)).
Proof.
  intros Hk; unfold wbind.
  destruct (w_outcome (m w)) as [a|e]; cbn [w_after]; [apply Hk | reflexivity].
Qed.

(** The scan of the headers writes the box of the columns and the button
    of the editor, and nothing else. *)
Lemma keeps_add_headers (cols : list label) :
  keeps but_headers (add_headers cols).
Proof.
  induction cols as [|header cols IH]; cbn [add_headers];
    unfold amount_combo_addItem; frame.
Qed.

Lemma keeps_scan_directories (fs : filesystem) (ds : list str) :
  keeps but_headers (scan_directories fs ds).
Proof.
  induction ds as [|d ds IH];
    cbn [scan_directories scan_patterns];
    unfold scan_pattern, try_probe, probe; frame;
    apply keeps_add_headers.
Qed.

Lemma keeps_update_controls (fs : filesystem) :
  keeps (fun w => (results_part w, directories_part w)) (update_controls fs).
Proof.
  unfold update_controls, scan_first_file_headers; frame.
  apply (keeps_factor but_headers _
           (fun u => (results_part u, directories_part u)));
    [reflexivity | apply keeps_scan_directories].
Qed.

(** [update_controls] enables the button of the analysis exactly when
    there is a directory. *)
Lemma analyze_btn_update_controls (fs : filesystem) (w : MainWindow) :
  analyze_btn (w_after (update_controls fs w)) =
  (0 <? List.length (window_directories w))%nat.
Proof.
  unfold update_controls. rewrite (wbind_quiet wget _ w w w eq_refl).
  rewrite (wbind_quiet (modify _) _ w _ tt eq_refl).
  destruct (0 <? List.length (window_directories w))%nat; [|reflexivity].
  rewrite (wbind_quiet (modify _) _ _ _ tt eq_refl).
  unfold scan_first_file_headers.
  rewrite (wbind_quiet wget _ _ _ _ eq_refl).
  apply (keeps_factor but_headers analyze_btn analyze_btn);
    [reflexivity | apply keeps_scan_directories].
Qed.

Lemma keeps_add_each (fs : filesystem) (ds : list str) :
  keeps results_part (add_each fs ds).
Proof.
  induction ds as [|d ds IH]; cbn [add_each]; unfold add_directory; frame.
Qed.

(** A directory that is not yet in the list. *)
Lemma add_directory_ok (fs : filesystem) (d : str) (w : MainWindow) :
  window_directories (w_after (add_directory fs d w)) =
  window_directories w ++ [d]
  /\ (w_outcome (add_directory fs d w) = Ok tt ->
      list_items (drop_widget (w_after (add_directory fs d w))) =
      list_items (drop_widget w) ++ [item_text d (file_count fs d)]).
Proof.
  unfold add_directory, wbind, modify, wlift, list_of, file_count.
  destruct (scan_error (glob fs d pattern_xlsx));
    [split; [reflexivity | discriminate]|].
  destruct (scan_error (glob fs d pattern_csv));
    [split; [reflexivity | discriminate]|].
  split; [reflexivity | intros _; reflexivity].
Qed.

Lemma add_each_spec (fs : filesystem) (ds : list str) (w : MainWindow) :
  exists added,
    window_directories (w_after (add_each fs ds w)) =
    window_directories w ++ added
    /\ NoDup added
    /\ (forall d, In d added -> In d ds /\ ~ In d (window_directories w))
    /\ (w_outcome (add_each fs ds w) = Ok tt ->
        (forall d, In d ds -> In d (window_directories w ++ added))
        /\ list_items (drop_widget (w_after (add_each fs ds w))) =
           list_items (drop_widget w)
           ++ map (fun d => item_text d (file_count fs d)) added).
Proof.
  revert w; induction ds as [|d ds IH]; intros w.
  - exists []; cbn; rewrite !app_nil_r.
    split; [reflexivity|]. split; [constructor|].
    split; [intros d []|]. intros _; split; [intros d []|reflexivity].
  - cbn [add_each]. rewrite (wbind_quiet wget _ w w w eq_refl).
    destruct (str_in d (window_directories w)) eqn:Ein.
    + rewrite (wbind_quiet (wret tt) _ w w tt eq_refl).
      destruct (IH w) as [added [Hd [Hnd [Hin Hok]]]].
      exists added; split; [exact Hd|]. split; [exact Hnd|]. split.
      * intros x Hx; destruct (Hin x Hx); split; [right|]; assumption.
      * intros Eo; destruct (Hok Eo) as [Hall Hitems]; split; [|exact Hitems].
        intros x [<-|Hx]; [|apply Hall; exact Hx].
        apply in_or_app; left; apply str_in_In; exact Ein.
    + assert (Hnew : ~ In d (window_directories w)).
      { intros Hd; apply str_in_In in Hd; congruence. }
      destruct (add_directory_ok fs d w) as [Hd1 Hi1].
      destruct (w_outcome (add_directory fs d w)) as [[]|e] eqn:Eo1.
      * destruct (after_wbind (add_directory fs d) (fun _ => add_each fs ds)
                    w tt Eo1) as [-> ->].
        destruct (IH (w_after (add_directory fs d w)))
          as [added [Hd [Hnd [Hin Hok]]]].
        rewrite Hd1 in *.
        exists (d :: added); split; [|split; [|split]].
        -- rewrite Hd, <- app_assoc; reflexivity.
        -- constructor; [|exact Hnd].
           intros Hd'; destruct (Hin d Hd') as [_ Hout].
           apply Hout, in_or_app; right; left; reflexivity.
        -- intros x [<-|Hx]; [split; [left; reflexivity | exact Hnew]|].
           destruct (Hin x Hx) as [Hx1 Hx2]; split; [right; exact Hx1|].
           intros Hx3; apply Hx2, in_or_app; left; exact Hx3.
        -- intros Eo; destruct (Hok Eo) as [Hall Hitems]; split.
           ++ intros x [<-|Hx].
              ** apply in_or_app; right; left; reflexivity.
              ** specialize (Hall x Hx); rewrite <- app_assoc in Hall.
                 exact Hall.
           ++ rewrite Hitems, (Hi1 eq_refl), <- app_assoc; reflexivity.
      * pose proof (wstep_eta (add_directory fs d w)) as Eeta.
        rewrite Eo1 in Eeta.
        rewrite (wbind_raise _ _ _ _ _ _ Eeta); cbn [w_outcome w_after].
        exists [d]; split; [exact Hd1|]. split; [repeat constructor; intros []|].
        split; [|discriminate].
        intros x [<-|[]]; split; [left; reflexivity | exact Hnew].
Qed.

Lemma keeps_add_directories_tail (fs : filesystem) (text : str) :
  keeps directories_part (update_controls fs >> modify (set_status_bar text)).
Proof.
  apply keeps_wbind; [|intros; apply keeps_modify; reflexivity].
  apply (keeps_factor (fun w => (results_part w, directories_part w)) _ snd);
    [reflexivity | apply keeps_update_controls].
Qed.

(** The last assignment of a method that returns. *)
Lemma after_last_modify {A : Type} (m : W A) (f : MainWindow -> MainWindow)
  (w : MainWindow) :
  w_outcome (wbind m (fun _ => modify f) w) = Ok tt ->
  w_after (wbind m (fun _ => modify f) w) = f (w_after (m w)).
Proof.
  unfold wbind; destruct (w_outcome (m w)); [reflexivity | discriminate].
Qed.

(** ** The editor of the header names *)

Lemma map_nth_seq_0 {A : Type} (l : list A) (d : A) :
  map (fun i => nth i l d) (seq 0 (List.length l)) = l.
Proof.
  induction l as [|a l IH]; [reflexivity|].
  cbn [List.length seq map nth]. rewrite <- seq_shift, map_map.
  cbn [nth]; rewrite IH; reflexivity.
Qed.

Lemma length_set_at {A : Type} (i : nat) (x : A) (l : list A) :
  List.length (set_at i x l) = List.length l.
Proof.
  revert i; induction l as [|a l IH]; intros [|i]; cbn; try reflexivity.
  rewrite IH; reflexivity.
Qed.

Lemma setItem_one_column (i : nat) (text : str) (hs : list str) :
  setItem i 0 text (one_column hs) = one_column (set_at i text hs).
Proof.
  unfold setItem, one_column.
  revert i; induction hs as [|h hs IH]; intros [|i]; try reflexivity.
  specialize (IH i); cbn [map nth_error set_at] in *.
  destruct (nth_error (map (fun h => [Some h]) hs) i); rewrite <- IH;
    reflexivity.
Qed.

Lemma set_at_middle {A : Type} (l1 l2 : list A) (a x : A) :
  set_at (List.length l1) x (l1 ++ a :: l2) = l1 ++ x :: l2.
Proof.
  induction l1 as [|b l1 IH]; [reflexivity|].
  cbn [List.length app set_at]; rewrite IH; reflexivity.
Qed.

Lemma nth_error_middle {A : Type} (l1 l2 : list A) (a : A) :
  nth_error (l1 ++ a :: l2) (List.length l1) = Some a.
Proof.
  induction l1 as [|b l1 IH]; [reflexivity | exact IH].
Qed.

Lemma set_items_one_column (pre hs : list str) :
  set_items (List.length pre) hs
    (one_column pre ++ repeat [None] (List.length hs)) =
  one_column (pre ++ hs).
Proof.
  revert pre; induction hs as [|h hs IH]; intros pre.
  - cbn; rewrite !app_nil_r; reflexivity.
  - cbn [set_items List.length repeat].
    replace (setItem (List.length pre) 0 h
               (one_column pre ++ [None] :: repeat [None] (List.length hs)))
      with (one_column (pre ++ [h]) ++ repeat [None] (List.length hs)).
    + replace (S (List.length pre)) with (List.length (pre ++ [h]))
        by (rewrite length_app; simpl; lia).
      rewrite IH, <- app_assoc; reflexivity.
    + unfold setItem.
      replace (List.length pre) with (List.length (one_column pre))
        by apply length_map.
      rewrite nth_error_middle, set_at_middle.
      unfold one_column; rewrite map_app, <- app_assoc; reflexivity.
Qed.

Lemma init_ui_one_column (headers : list str) :
  init_ui headers =
  {| dialog_headers := headers; dialog_table := one_column headers |}.
Proof.
  unfold init_ui; f_equal; apply (set_items_one_column [] headers).
Qed.

Lemma items_one_column (hs : list str) :
  flat_map (fun i => opt_list (item i 0 (one_column hs)))
    (seq 0 (List.length (one_column hs))) = hs.
Proof.
  induction hs as [|h hs IH]; [reflexivity|].
  cbn [one_column map List.length seq flat_map].
  rewrite <- seq_shift, flat_map_concat_map, map_map.
  rewrite <- flat_map_concat_map.
  cbn [item nth_error nth opt_list app]. f_equal. exact IH.
Qed.

Lemma exec_one_column (user : list (nat * str)) (hs0 hs : list str) :
  dialog_table
    (fold_left
       (fun d e => {| dialog_headers := dialog_headers d;
                      dialog_table :=
                        setItem (fst e) 0 (snd e) (dialog_table d) |})
       user {| dialog_headers := hs0; dialog_table := one_column hs |}) =
  one_column (edited hs user).
Proof.
  revert hs; induction user as [|e user IH]; intros hs; [reflexivity|].
  cbn [fold_left dialog_headers dialog_table edited].
  rewrite setItem_one_column; apply IH.
Qed.

(** The dialog gives back the names it was given, each under the last text
    typed into its row. *)
Lemma get_edited_headers_spec (headers : list str) (user : session) :
  get_edited_headers (fst (exec_ user (init_ui headers))) =
  edited headers (edits user).
Proof.
  unfold get_edited_headers, exec_; cbn [fst].
  rewrite init_ui_one_column, exec_one_column. apply items_one_column.
Qed.

Lemma length_edited (headers : list str) (es : list (nat * str)) :
  List.length (edited headers es) = List.length headers.
Proof.
  revert headers; induction es as [|e es IH]; intros headers; [reflexivity|].
  cbn [edited fold_left]; fold (edited (set_at (fst e) (snd e) headers) es).
  rewrite IH; apply length_set_at.
Qed.

(** ** The box of the columns *)

Lemma set_amount_combo_same (w : MainWindow) :
  set_amount_combo (amount_combo w) w = w.
Proof. destruct w; reflexivity. Qed.

Lemma combo_addItem_of (pre : list str) (text : str) :
  combo_addItem text (combo_of pre) = combo_of (pre ++ [text]).
Proof. destruct pre; reflexivity. Qed.

(** Items added to a box that was filled from empty. *)
Lemma add_items_spec (texts pre : list str) (w : MainWindow) :
  amount_combo w = combo_of pre ->
  add_items texts w =
  WStep (Ok tt) (set_amount_combo (combo_of (pre ++ texts)) w) [].
Proof.
  revert pre w; induction texts as [|text texts IH]; intros pre w E.
  - rewrite app_nil_r, <- E, set_amount_combo_same; reflexivity.
  - cbn [add_items]; unfold amount_combo_addItem.
    rewrite (wbind_quiet (modify _) _ w _ tt eq_refl).
    rewrite (IH (pre ++ [text]));
      [rewrite <- app_assoc; reflexivity|].
    cbn [amount_combo set_amount_combo]; rewrite E; apply combo_addItem_of.
Qed.

(** [edit_headers]: when the user accepts, the edited names are the
    override and fill the box; when the user cancels, nothing changes. *)
Lemma edit_headers_spec (user : session) (w : MainWindow) :
  edit_headers user w =
  WStep (Ok tt)
    (if accepted user
     then set_amount_combo
            (combo_of (edited (combo_items (amount_combo w)) (edits user)))
            (set_custom_headers
               (Some (edited (combo_items (amount_combo w)) (edits user))) w)
     else w)
    [HeaderDialog (combo_items (amount_combo w))].
Proof.
  unfold edit_headers. rewrite (wbind_quiet wget _ w w w eq_refl).
  unfold itemText; rewrite map_nth_seq_0.
  rewrite (wbind_ok (wtell _) _ w w tt _ eq_refl).
  cbn [snd exec_]. destruct (accepted user); [|reflexivity].
  rewrite get_edited_headers_spec.
  rewrite (wbind_quiet (modify _) _ w _ tt eq_refl).
  rewrite (wbind_quiet (modify _) _ _ _ tt eq_refl).
  rewrite (add_items_spec _ [] (set_amount_combo combo_clear _) eq_refl).
  reflexivity.
Qed.

(** The headers that are offered and are texts go into the box; the first
    one that is not a text raises. *)
Lemma add_headers_spec (cols : list label) (pre : list str) (w : MainWindow) :
  amount_combo w = combo_of pre ->
  (forallb is_str (offered cols) = true ->
   add_headers cols w =
   WStep (Ok tt)
     (set_amount_combo (combo_of (pre ++ map str_label (offered cols))) w) [])
  /\ (forallb is_str (offered cols) = false ->
      w_outcome (add_headers cols w) = Raise (Exception addItem_type_error)
      /\ w_trace (add_headers cols w) = []).
Proof.
  revert pre w; induction cols as [|c cols IH]; intros pre w E.
  - split; [|discriminate]. intros _; cbn [offered filter map add_headers].
    rewrite app_nil_r, <- E, set_amount_combo_same; reflexivity.
  - cbn [add_headers]; unfold offered; cbn [filter].
    destruct (is_total_label c) eqn:Et; cbn [negb].
    + rewrite (wbind_quiet (wret tt) _ w w tt eq_refl). apply IH; exact E.
    + destruct c as [s|s]; cbn [forallb is_str andb map str_label].
      * unfold amount_combo_addItem.
        rewrite (wbind_quiet (modify _) _ w _ tt eq_refl).
        destruct (IH (pre ++ [s])
                    (set_amount_combo (combo_addItem s (amount_combo w)) w))
          as [Hok Hfail].
        { cbn [amount_combo set_amount_combo]; rewrite E.
          apply combo_addItem_of. }
        split; [|exact Hfail].
        intros Hall; rewrite (Hok Hall), <- app_assoc; reflexivity.
      * split; [discriminate|]. intros _; split; reflexivity.
Qed.

(** ** The scan of the headers *)

Lemma keeps_add_headers_combo (cols : list label) :
  keeps but_amount_combo (add_headers cols).
Proof.
  induction cols as [|header cols IH]; cbn [add_headers];
    unfold amount_combo_addItem; frame.
Qed.

Lemma set_amount_combo_but (c : QComboBox) (w w' : MainWindow) :
  but_amount_combo w' = but_amount_combo w ->
  set_amount_combo c w' = set_amount_combo c w.
Proof.
  intros E.
  change (set_amount_combo c (but_amount_combo w') =
          set_amount_combo c (but_amount_combo w)).
  rewrite E; reflexivity.
Qed.

(** The [try] around the probe: a probe that returns ends the method, one
    that raises is printed and the loop goes on. *)
Lemma try_probe_of (f : file) (w : MainWindow) :
  try_probe f w =
  match w_outcome (probe f w) with
  | Ok _ =>
      WStep (Ok returned) (w_after (probe f w)) (w_trace (probe f w))
  | Raise e =>
      WStep (Ok next) (w_after (probe f w))
        (w_trace (probe f w) ++ [PrintHeaderFailure e])
  end.
Proof.
  unfold try_probe, wtry, wbind.
  destruct (probe f w) as [[[]|e] w' t]; cbn; rewrite ?app_nil_r; reflexivity.
Qed.

Lemma read_header_spec (f : file) (w : MainWindow) :
  (if PyStr.eqb (suffix (file_name f)) dot_csv
   then wtell (ReadHeader (file_name f) true) >> wlift (read_csv_nrows_1 f)
   else wtell (ReadHeader (file_name f) false) >> wlift (read_excel_nrows_1 f))
    w =
  WStep (header_read f) w [read_of f].
Proof.
  unfold header_read, read_of.
  destruct (PyStr.eqb (suffix (file_name f)) dot_csv);
    unfold wbind, wtell, wlift; cbn;
    [destruct (read_csv_nrows_1 f) | destruct (read_excel_nrows_1 f)];
    reflexivity.
Qed.

(** The probe of one file: it fills the box and enables the editor, or it
    raises with at most the box changed. *)
Lemma probe_spec (f : file) (w : MainWindow) :
  match header_read f with
  | Ok df =>
      if forallb is_str (offered (columns df))
      then probe f w =
           WStep (Ok tt)
             (set_header_edit_btn true
                (set_amount_combo
                   (combo_of (map str_label (offered (columns df)))) w))
             [read_of f]
      else w_outcome (probe f w) = Raise (Exception addItem_type_error)
           /\ but_amount_combo (w_after (probe f w)) = but_amount_combo w
           /\ w_trace (probe f w) = [read_of f]
  | Raise e => probe f w = WStep (Raise e) w [read_of f]
  end.
Proof.
  pose proof (read_header_spec f w) as Eread. unfold probe.
  destruct (header_read f) as [df|e];
    [|apply (wbind_raise _ _ _ _ _ _ Eread)].
  rewrite (wbind_ok _ _ _ _ _ _ Eread).
  rewrite (wbind_quiet (modify _) _ w _ tt eq_refl).
  destruct (add_headers_spec (columns df) []
              (set_amount_combo combo_clear w) eq_refl) as [Hok Hfail].
  destruct (forallb is_str (offered (columns df))).
  - specialize (Hok eq_refl); cbn [app] in Hok.
    rewrite (wbind_quiet (add_headers _) _ _ _ tt Hok). reflexivity.
  - destruct (Hfail eq_refl) as [Ho Ht].
    pose proof (keeps_add_headers_combo (columns df)
                  (set_amount_combo combo_clear w)) as Hk.
    pose proof (wstep_eta (add_headers (columns df)
                             (set_amount_combo combo_clear w))) as Eeta.
    rewrite Ho, Ht in Eeta.
    rewrite (wbind_raise _ _ _ _ _ _ Eeta).
    cbn [w_outcome w_after w_trace app].
    split; [reflexivity|]. split; [exact Hk | reflexivity].
Qed.

(** What the probe of [f] does to the loop of the scan. *)
Lemma try_probe_spec (f : file) (w : MainWindow) :
  match probe_failure f with
  | None =>
      exists df,
        header_read f = Ok df
        /\ try_probe f w =
           WStep (Ok returned)
             (set_header_edit_btn true
                (set_amount_combo
                   (combo_of (map str_label (offered (columns df)))) w))
             [read_of f]
  | Some e =>
      w_outcome (try_probe f w) = Ok next
      /\ but_amount_combo (w_after (try_probe f w)) = but_amount_combo w
      /\ w_trace (try_probe f w) = [read_of f; PrintHeaderFailure e]
  end.
Proof.
  pose proof (probe_spec f w) as Hp; rewrite try_probe_of.
  unfold probe_failure; destruct (header_read f) as [df|e].
  - destruct (forallb is_str (offered (columns df))).
    + exists df; rewrite Hp; split; reflexivity.
    + destruct Hp as [-> [Hk ->]]; cbn [w_outcome w_after w_trace app].
      split; [reflexivity|]. split; [exact Hk | reflexivity].
  - rewrite Hp; cbn [w_outcome w_after w_trace app].
    split; [reflexivity|]. split; reflexivity.
Qed.

(** The scan goes past the files whose probe fails. *)
Lemma scan_files_failed (f : file) (fs : list file) (e : exn)
  (w : MainWindow) :
  probe_failure f = Some e ->
  but_amount_combo (w_after (try_probe f w)) = but_amount_combo w
  /\ scan_files (f :: fs) w =
     WStep (w_outcome (scan_files fs (w_after (try_probe f w))))
       (w_after (scan_files fs (w_after (try_probe f w))))
       (failed_probe f ++ w_trace (scan_files fs (w_after (try_probe f w)))).
Proof.
  intros Ef; pose proof (try_probe_spec f w) as Hp; rewrite Ef in Hp.
  destruct Hp as [Ho [Hk Ht]]. split; [exact Hk|].
  pose proof (wstep_eta (try_probe f w)) as Eeta; rewrite Ho, Ht in Eeta.
  cbn [scan_files]; rewrite (wbind_ok _ _ _ _ _ _ Eeta).
  unfold failed_probe; rewrite Ef; reflexivity.
Qed.

(** The scan ends at the first file whose probe returns: the box of the
    columns holds the headers of that file that are not summary markers,
    the editor is enabled, nothing else has changed, and no later file is
    read. *)
Lemma scan_files_found (before : list file) (f : file) (rest : list file)
  (df : DataFrame) (w : MainWindow) :
  (forall g, In g before -> probe_failure g <> None) ->
  header_read f = Ok df ->
  forallb is_str (offered (columns df)) = true ->
  scan_files (before ++ f :: rest) w =
  WStep (Ok tt)
    (set_header_edit_btn true
       (set_amount_combo (combo_of (map str_label (offered (columns df)))) w))
    (flat_map failed_probe before ++ [read_of f]).
Proof.
  intros Hbefore Er Hstr; revert w.
  induction before as [|g before IH]; intros w.
  - pose proof (try_probe_spec f w) as Hp.
    unfold probe_failure in Hp; rewrite Er, Hstr in Hp.
    destruct Hp as [df' [E Ep]]; inversion E; subst df'.
    cbn [app scan_files flat_map]. rewrite (wbind_ok _ _ _ _ _ _ Ep).
    reflexivity.
  - destruct (probe_failure g) as [e|] eqn:Eg;
      [|destruct (Hbefore g (or_introl eq_refl) Eg)].
    destruct (scan_files_failed g (before ++ f :: rest) e w Eg) as [Hk E].
    cbn [app]; rewrite E, IH by (intros g' Hg'; apply Hbefore; right; exact Hg').
    cbn [w_outcome w_after w_trace flat_map]. rewrite <- app_assoc.
    rewrite (set_amount_combo_but _ _ _ Hk). reflexivity.
Qed.

(** When no probe returns the scan reads every file, and leaves the window
    as it was but for the box of the columns. *)
Lemma scan_files_none (fs : list file) (w : MainWindow) :
  (forall g, In g fs -> probe_failure g <> None) ->
  w_outcome (scan_files fs w) = Ok tt
  /\ but_amount_combo (w_after (scan_files fs w)) = but_amount_combo w
  /\ w_trace (scan_files fs w) = flat_map failed_probe fs.
Proof.
  revert w; induction fs as [|g fs IH]; intros w Hall.
  - split; [reflexivity|]. split; reflexivity.
  - destruct (probe_failure g) as [e|] eqn:Eg;
      [|destruct (Hall g (or_introl eq_refl) Eg)].
    destruct (scan_files_failed g fs e w Eg) as [Hk E].
    destruct (IH (w_after (try_probe g w))) as [Ho [Hk' Ht]];
      [intros g' Hg'; apply Hall; right; exact Hg'|].
    rewrite E; cbn [w_outcome w_after w_trace flat_map].
    split; [exact Ho|]. split; [rewrite Hk'; exact Hk | rewrite Ht; reflexivity].
Qed.

Lemma scan_pattern_spec (fs : filesystem) (d ext : str) (w : MainWindow) :
  scan_error (glob fs d ext) = None ->
  scan_pattern fs d ext w =
  match entries (glob fs d ext) with
  | [] => WStep (Ok next) w []
  | f :: _ => try_probe f w
  end.
Proof.
  intros E; unfold scan_pattern, list_of; rewrite E.
  rewrite (wbind_quiet (wlift _) _ w w _ eq_refl).
  destruct (entries (glob fs d ext)); reflexivity.
Qed.

(** When no glob fails, the two loops of the scan go through the first
    spreadsheet and the first delimited-text file of each directory, in
    the order of the directories. *)
Lemma scan_directories_files (fs : filesystem) (ds : list str)
  (w : MainWindow) :
  (forall d, In d ds ->
             scan_error (glob fs d pattern_xlsx) = None
             /\ scan_error (glob fs d pattern_csv) = None) ->
  scan_directories fs ds w = scan_files (candidates fs ds) w.
Proof.
  revert w; induction ds as [|d ds IH]; intros w Hscan; [reflexivity|].
  destruct (Hscan d (or_introl eq_refl)) as [Ex Ec].
  assert (IH' : forall w', scan_directories fs ds w' =
                           scan_files (candidates fs ds) w')
    by (intros w'; apply IH; intros d' Hd'; apply Hscan; right; exact Hd').
  cbn [scan_directories scan_patterns candidates flat_map].
  fold (candidates fs ds).
  rewrite <- app_assoc.
  unfold wbind; cbv zeta.
  rewrite !(scan_pattern_spec fs d pattern_xlsx) by exact Ex.
  destruct (entries (glob fs d pattern_xlsx)) as [|fx xs];
    cbn [firstn app scan_files w_outcome w_after w_trace wret].
  - rewrite !(scan_pattern_spec fs d pattern_csv) by exact Ec.
    destruct (entries (glob fs d pattern_csv)) as [|fc cs];
      cbn [firstn app scan_files w_outcome w_after w_trace wret].
    + rewrite IH'; symmetry; apply wstep_eta.
    + unfold wbind; cbv zeta.
      destruct (try_probe fc w) as [[[]|e] w1 t1];
        cbn [w_outcome w_after w_trace wret app];
        rewrite ?app_nil_r, ?IH'; reflexivity.
  - unfold wbind; cbv zeta.
    destruct (try_probe fx w) as [[[]|e] w1 t1];
      cbn [w_outcome w_after w_trace wret app];
      rewrite ?app_nil_r; try reflexivity.
    rewrite !(scan_pattern_spec fs d pattern_csv) by exact Ec.
    destruct (entries (glob fs d pattern_csv)) as [|fc cs];
      cbn [firstn app scan_files w_outcome w_after w_trace wret].
    + rewrite IH', app_nil_r; reflexivity.
    + unfold wbind; cbv zeta.
      destruct (try_probe fc w1) as [[[]|e] w2 t2];
        cbn [w_outcome w_after w_trace wret app];
        rewrite ?app_nil_r, ?IH', <- ?app_assoc; reflexivity.
Qed.

(** ** The calls and the parts of the window they leave as they were *)

Lemma keeps_add_directories (fs : filesystem) (ds : list str) :
  keeps results_part (add_directories fs ds).
Proof.
  unfold add_directories.
  apply keeps_wbind; [apply keeps_add_each | intros _].
  apply keeps_wbind; [|intros; apply keeps_modify; reflexivity].
  apply (keeps_factor (fun w => (results_part w, directories_part w)) _ fst);
    [reflexivity | apply keeps_update_controls].
Qed.

Lemma keeps_clear_directories (fs : filesystem) :
  keeps results_part (clear_directories fs).
Proof.
  unfold clear_directories.
  apply keeps_wbind; [apply keeps_modify; reflexivity | intros _].
  apply keeps_wbind; [apply keeps_modify; reflexivity | intros _].
  apply keeps_wbind; [|intros; frame].
  apply (keeps_factor (fun w => (results_part w, directories_part w)) _ fst);
    [reflexivity | apply keeps_update_controls].
Qed.

(** [clear_directories] empties the directories and the list together. *)
Lemma clear_directories_lists (fs : filesystem) (w : MainWindow) :
  directories_part (w_after (clear_directories fs w)) = ([], []).
Proof.
  unfold clear_directories.
  rewrite (wbind_quiet (modify _) _ w _ tt eq_refl).
  rewrite (wbind_quiet (modify _) _ _ _ tt eq_refl).
  match goal with
  | |- directories_part (w_after (wbind ?m ?k ?w1)) = _ =>
      assert (Hk : keeps directories_part (wbind m k))
  end.
  { apply keeps_wbind; [|intros; frame].
    apply (keeps_factor (fun w => (results_part w, directories_part w)) _ snd);
      [reflexivity | apply keeps_update_controls]. }
  rewrite Hk; reflexivity.
Qed.

Lemma keeps_analyze_data :
  keeps (fun w => (window_custom_headers w, directories_part w)) analyze_data.
Proof. unfold analyze_data; frame. Qed.

Lemma keeps_export_data (fs : filesystem) (file_path : str) :
  keeps (fun w => w) (export_data fs file_path).
Proof. unfold export_data; frame. Qed.

Lemma keeps_edit_headers (user : session) :
  keeps (fun w => (result_table w, all_results w, directories_part w))
    (edit_headers user).
Proof.
  intros w; rewrite edit_headers_spec; cbn [w_after].
  destruct (accepted user); reflexivity.
Qed.

Lemma keeps_clear_data : keeps window_custom_headers clear_data.
Proof. unfold clear_data; frame. Qed.

Lemma setItem_last (t : QTableWidget) (r : list (option str)) (col : nat)
  (text : str) :
  setItem (List.length t) col text (t ++ [r]) =
  t ++ [set_at col (Some text) r].
Proof.
  unfold setItem; rewrite nth_error_middle; apply set_at_middle.
Qed.

Lemma insertRow_last (width : nat) (t : QTableWidget) :
  insertRow width (List.length t) t = t ++ [repeat None width].
Proof.
  unfold insertRow; rewrite Nat.leb_refl, firstn_all, skipn_all; reflexivity.
Qed.

Section SlotFacts.

Context {fmt : AmountFormat num}.

(** A result adds its row to the table and itself to the results. *)
Lemma update_result_table_spec (r : FileResult) (w : MainWindow) :
  update_result_table r w =
  WStep (Ok tt)
    (set_all_results (all_results w ++ [r])
       (set_result_table (result_table w ++ [table_row r]) w))
    [].
Proof.
  unfold update_result_table.
  rewrite (wbind_quiet wget _ w w w eq_refl).
  rewrite (wbind_quiet (modify _) _ w _ tt eq_refl).
  rewrite (wbind_quiet (modify _) _ _ _ tt eq_refl).
  rewrite (wbind_quiet (modify _) _ _ _ tt eq_refl).
  rewrite (wbind_quiet (modify _) _ _ _ tt eq_refl).
  rewrite (wbind_quiet (modify _) _ _ _ tt eq_refl).
  unfold modify; cbn [result_table set_result_table all_results set_all_results].
  rewrite insertRow_last, !setItem_last. reflexivity.
Qed.

Lemma keeps_deliver (sg : signal) :
  keeps (fun w => (window_custom_headers w, directories_part w)) (deliver sg).
Proof.
  destruct sg; cbn [deliver];
    unfold update_progress, update_result_table, analysis_finished,
      analysis_error, restore_controls; frame.
Qed.

End SlotFacts.

(** * The window: what its methods do *)

Section WindowFacts.

Context {fmt : AmountFormat num}.

(** [add_directories], when it returns: the directories and the items of
    the list grow together by the new directories, each once. *)
Lemma add_directories_lists (fs : filesystem) (ds : list str)
  (w : MainWindow) :
  w_outcome (add_directories fs ds w) = Ok tt ->
  exists added,
    window_directories (w_after (add_directories fs ds w)) =
    window_directories w ++ added
    /\ NoDup added
    /\ (forall d, In d added <-> In d ds /\ ~ In d (window_directories w))
    /\ list_items (drop_widget (w_after (add_directories fs ds w))) =
       list_items (drop_widget w)
       ++ map (fun d => item_text d (file_count fs d)) added.
Proof.
  intros Eo; unfold add_directories in *.
  destruct (outcome_wbind_ok _ _ _ _ Eo) as [[] [Eo1 Eo2]].
  destruct (add_each_spec fs ds w) as [added [Hd [Hnd [Hin Hok]]]].
  destruct (Hok Eo1) as [Hall Hitems].
  match goal with
  | |- context [w_after (wbind ?m ?k w)] =>
      assert (Hpart : directories_part (w_after (wbind m k w)) =
                      directories_part (w_after (m w)))
        by (apply keeps_rest; intros; apply keeps_add_directories_tail)
  end.
  unfold directories_part in Hpart.
  pose proof (f_equal fst Hpart) as Hdirs.
  pose proof (f_equal snd Hpart) as Hlist.
  cbn [fst snd] in Hdirs, Hlist; clear Hpart.
  exists added; split; [rewrite Hdirs; exact Hd|]. split; [exact Hnd|].
  split; [|rewrite Hlist, Hitems; reflexivity].
  intros d; split; [apply Hin|].
  intros [Hds Hout]; specialize (Hall d Hds); apply in_app_or in Hall; tauto.
Qed.

(** The status bar and the analysis button after [add_directories]. *)
Lemma add_directories_controls (fs : filesystem) (ds : list str)
  (w : MainWindow) :
  w_outcome (add_directories fs ds w) = Ok tt ->
  status_bar (w_after (add_directories fs ds w)) =
  added_prefix ++ str_of_nat (List.length ds) ++ added_suffix
  /\ analyze_btn (w_after (add_directories fs ds w)) =
     (0 <? List.length
             (window_directories (w_after (add_directories fs ds w))))%nat.
Proof.
  intros Eo.
  assert (Hdirs : window_directories (w_after (add_directories fs ds w)) =
                  window_directories (w_after (add_each fs ds w))).
  { unfold add_directories.
    match goal with
    | |- context [w_after (wbind ?m ?k w)] =>
        assert (Hpart : directories_part (w_after (wbind m k w)) =
                        directories_part (w_after (m w)))
          by (apply keeps_rest; intros; apply keeps_add_directories_tail)
    end.
    exact (f_equal fst Hpart). }
  rewrite Hdirs; unfold add_directories in *.
  destruct (outcome_wbind_ok _ _ _ _ Eo) as [[] [Eo1 Eo2]].
  match goal with
  | |- context [w_after (wbind (add_each fs ds) ?k w)] =>
      destruct (after_wbind (add_each fs ds) k w tt Eo1) as [Ea _]
  end.
  rewrite Ea, (after_last_modify _ _ _ Eo2).
  cbn [analyze_btn status_bar set_status_bar].
  split; [reflexivity | apply analyze_btn_update_controls].
Qed.

(** X6: a drop adds each new directory once. A drop none of whose URLs is a
    directory does nothing at all. Otherwise, when the method returns, the
    directories of the window are those it had followed by the dropped
    paths that are directories and were not yet among them, each once;
    the list gets one item for each of these, showing the number of files
    of both kinds in it; directories that were pairwise distinct stay so;
    the analysis button is enabled, and the status bar counts the
    directories dropped, not the directories added. *)
Theorem drop_adds_new_directories_once (fs : filesystem) (urls : list QUrl)
  (w : MainWindow) :
  (filter (isdir fs) (map toLocalFile urls) = [] ->
   invoke (Drop fs urls) w = WStep (Ok tt) w [])
  /\ (w_outcome (invoke (Drop fs urls) w) = Ok tt ->
      exists added,
        window_directories (w_after (invoke (Drop fs urls) w)) =
        window_directories w ++ added
        /\ NoDup added
        /\ (forall d,
              In d added <->
              In d (map toLocalFile urls) /\ isdir fs d = true
              /\ ~ In d (window_directories w))
        /\ list_items (drop_widget (w_after (invoke (Drop fs urls) w))) =
           list_items (drop_widget w)
           ++ map (fun d => item_text d (file_count fs d)) added
        /\ (NoDup (window_directories w) ->
            NoDup (window_directories (w_after (invoke (Drop fs urls) w))))
        /\ (filter (isdir fs) (map toLocalFile urls) <> [] ->
            analyze_btn (w_after (invoke (Drop fs urls) w)) = true
            /\ status_bar (w_after (invoke (Drop fs urls) w)) =
               added_prefix
               ++ str_of_nat
                    (List.length (filter (isdir fs) (map toLocalFile urls)))
               ++ added_suffix)).
Proof.
  cbn [invoke]; unfold dropEvent; cbn [fst].
  set (ds := filter (isdir fs) (map toLocalFile urls)).
  split; [intros ->; reflexivity|].
  destruct ds as [|d0 ds0] eqn:Eds.
  - intros _; exists []; rewrite !app_nil_r; cbn [wret w_after map].
    split; [reflexivity|]. split; [constructor|]. split.
    + intros d; split; [intros []|]. intros [Hd [Hdir _]].
      assert (Hin : In d ds) by (apply filter_In; split; assumption).
      rewrite Eds in Hin; exact Hin.
    + split; [reflexivity|]. split; [auto|]. intros Hne; congruence.
  - rewrite <- Eds; intros Eo.
    destruct (add_directories_lists fs ds w Eo)
      as [added [Hd [Hnd [Hin Hitems]]]].
    destruct (add_directories_controls fs ds w Eo) as [Hstatus Hbtn].
    exists added; split; [exact Hd|]. split; [exact Hnd|].
    split; [|split; [exact Hitems|split]].
    + intros d; rewrite Hin; unfold ds; rewrite filter_In; tauto.
    + intros Hw; rewrite Hd. apply NoDup_app; [exact Hw | exact Hnd|].
      intros x Hx Hx'; apply Hin in Hx'; tauto.
    + intros _; split; [|exact Hstatus].
      rewrite Hbtn, Hd.
      assert (Hd0 : In d0 (window_directories w ++ added)).
      { destruct (in_dec (list_eq_dec Z.eq_dec) d0 (window_directories w))
          as [Hold|Hnew]; apply in_or_app; [left; exact Hold|].
        right; apply Hin; split; [rewrite Eds; left; reflexivity | exact Hnew]. }
      destruct (window_directories w ++ added); [destruct Hd0 | reflexivity].
Qed.

Lemma nth_error_set_at_other {A : Type} (i j : nat) (x : A) (l : list A) :
  j <> i -> nth_error (set_at j x l) i = nth_error l i.
Proof.
  revert i j; induction l as [|a l IH]; intros [|i] [|j] Hne;
    try reflexivity; [contradiction|].
  cbn [set_at nth_error]; apply IH; lia.
Qed.

(** X7: the editor gives back the names it was given, under the user's
    edits. A dialog nobody types into returns the headers it was made of;
    after any typing it returns these headers with, for each row typed
    into, the last text typed there: as many names as before, in the same
    order, the rows not typed into unchanged. *)
Theorem header_dialog_returns_edited_names (headers : list str)
  (user : session) :
  get_edited_headers (init_ui headers) = headers
  /\ get_edited_headers (fst (exec_ user (init_ui headers))) =
     edited headers (edits user)
  /\ List.length (get_edited_headers (fst (exec_ user (init_ui headers)))) =
     List.length headers
  /\ (forall i,
        (forall e, In e (edits user) -> fst e <> i) ->
        nth_error (get_edited_headers (fst (exec_ user (init_ui headers)))) i =
        nth_error headers i).
Proof.
  split; [|split; [|split]].
  - unfold get_edited_headers; rewrite init_ui_one_column.
    apply items_one_column.
  - apply get_edited_headers_spec.
  - rewrite get_edited_headers_spec; apply length_edited.
  - intros i Hi; rewrite get_edited_headers_spec.
    generalize dependent headers.
    induction (edits user) as [|e es IH]; intros headers; [reflexivity|].
    cbn [edited fold_left]; fold (edited (set_at (fst e) (snd e) headers) es).
    rewrite IH by (intros e' He'; apply Hi; right; exact He').
    apply nth_error_set_at_other, Hi; left; reflexivity.
Qed.

(** One call leaves the override as it is, unless it is an edit of the
    headers that the user accepts. *)
Lemma custom_headers_step (c : call) (w : MainWindow) :
  window_custom_headers (w_after (invoke c w)) =
  match c with
  | EditHeaders user =>
      if accepted user
      then Some (edited (combo_items (amount_combo w)) (edits user))
      else window_custom_headers w
  | _ => window_custom_headers w
  end.
Proof.
  destruct c as [fs urls|fs|user|i| |sg|fs file_path|]; cbn [invoke].
  - destruct (fst (dropEvent fs urls)); [|reflexivity].
    apply (keeps_factor results_part _ (fun p => fst (fst p)));
      [reflexivity | apply keeps_add_directories].
  - apply (keeps_factor results_part _ (fun p => fst (fst p)));
      [reflexivity | apply keeps_clear_directories].
  - rewrite edit_headers_spec; cbn [w_after].
    destruct (accepted user); reflexivity.
  - reflexivity.
  - apply (keeps_factor
             (fun w => (window_custom_headers w, directories_part w))
             window_custom_headers fst analyze_data);
      [reflexivity | apply keeps_analyze_data].
  - apply (keeps_factor
             (fun w => (window_custom_headers w, directories_part w))
             window_custom_headers fst (deliver sg));
      [reflexivity | apply keeps_deliver].
  - rewrite (keeps_export_data fs file_path w); reflexivity.
  - apply keeps_clear_data.
Qed.

(** X8: nothing removes the header override. A call other than an edit of
    the headers leaves the override as it is; an edit the user accepts sets
    it to the edited names of the box of the columns, an edit the user
    cancels leaves it; so once there is an override there is one after any
    calls, [clear_directories] and [clear_data] included. *)
Theorem override_is_never_removed (cs : list call) (w : MainWindow) :
  (forall c,
      (forall user, c <> EditHeaders user) ->
      window_custom_headers (w_after (invoke c w)) = window_custom_headers w)
  /\ (forall user,
        window_custom_headers (w_after (invoke (EditHeaders user) w)) =
        if accepted user
        then Some (edited (combo_items (amount_combo w)) (edits user))
        else window_custom_headers w)
  /\ (window_custom_headers w <> None ->
      window_custom_headers (w_after (invoke_all cs w)) <> None).
Proof.
  split; [|split].
  - intros c Hc; rewrite custom_headers_step.
    destruct c; try reflexivity. destruct (Hc user eq_refl).
  - intros user; exact (custom_headers_step (EditHeaders user) w).
  - revert w; induction cs as [|c cs IH]; intros w Hw; [exact Hw|].
    assert (Hstep : window_custom_headers (w_after (invoke c w)) <> None).
    { rewrite custom_headers_step.
      destruct c; try exact Hw. destruct (accepted user); [discriminate|exact Hw]. }
    cbn [invoke_all]; unfold wbind.
    destruct (w_outcome (invoke c w)); cbn [w_after]; [|exact Hstep].
    apply IH; exact Hstep.
Qed.

(** One call keeps the table of the results in step with the results. *)
Lemma shown_step (c : call) (w : MainWindow) :
  shown w -> shown (w_after (invoke c w)).
Proof.
  unfold shown; intros Hw.
  assert (Hkeep : forall w',
            (result_table w', all_results w') = (result_table w, all_results w) ->
            result_table w' = map table_row (all_results w')).
  { intros w' E; inversion E as [[E1 E2]]; rewrite E1, E2; exact Hw. }
  destruct c as [fs urls|fs|user|i| |sg|fs file_path|]; cbn [invoke].
  - destruct (fst (dropEvent fs urls)); [|exact Hw]. apply Hkeep.
    exact (keeps_factor results_part
             (fun w => (result_table w, all_results w))
             (fun p => (snd (fst p), snd p)) _
             (fun _ => eq_refl) (keeps_add_directories fs _) w).
  - apply Hkeep.
    exact (keeps_factor results_part
             (fun w => (result_table w, all_results w))
             (fun p => (snd (fst p), snd p)) _
             (fun _ => eq_refl) (keeps_clear_directories fs) w).
  - apply Hkeep.
    exact (keeps_factor
             (fun w => (result_table w, all_results w, directories_part w))
             (fun w => (result_table w, all_results w)) fst _
             (fun _ => eq_refl) (keeps_edit_headers user) w).
  - exact Hw.
  - unfold analyze_data. rewrite (wbind_quiet wget _ w w w eq_refl).
    destruct (window_directories w); [exact Hw|].
    destruct (PyStr.eqb _ _); [exact Hw | reflexivity].
  - destruct sg as [message|r|summary|error_msg]; cbn [deliver].
    + exact Hw.
    + rewrite update_result_table_spec; cbn [w_after result_table all_results
        set_all_results set_result_table].
      rewrite Hw, map_app; reflexivity.
    + exact Hw.
    + exact Hw.
  - rewrite (keeps_export_data fs file_path w); exact Hw.
  - reflexivity.
Qed.

(** X9: the table of the results shows the results received. Whatever is
    done with the window, the rows of the table are the results held for
    the export, one row each and in the same order, a row being the
    directory, the file name, the identifier and the amount as a text. It
    is so in a new window, and every call keeps it so. *)
Theorem result_table_shows_all_results (cs : list call) :
  shown MainWindow_init
  /\ (forall w c, shown w -> shown (w_after (invoke c w)))
  /\ (forall w, shown w -> shown (w_after (invoke_all cs w)))
  /\ shown (w_after (invoke_all cs MainWindow_init)).
Proof.
  assert (Hall : forall w, shown w -> shown (w_after (invoke_all cs w))).
  { induction cs as [|c cs IH]; intros w Hw; [exact Hw|].
    cbn [invoke_all]; unfold wbind.
    destruct (w_outcome (invoke c w)); cbn [w_after];
      [apply IH|]; apply shown_step; exact Hw. }
  split; [reflexivity|]. split; [intros w c; apply shown_step|].
  split; [exact Hall | apply Hall; reflexivity].
Qed.

(** One call that returns keeps the list in step with the directories. *)
Lemma listed_step (c : call) (w : MainWindow) :
  listed w -> w_outcome (invoke c w) = Ok tt -> listed (w_after (invoke c w)).
Proof.
  unfold listed; intros Hw Eo.
  assert (Hkeep : forall w',
            directories_part w' = directories_part w ->
            Forall2 (fun d text => exists n, text = item_text d n)
              (window_directories w') (list_items (drop_widget w'))).
  { intros w' E; unfold directories_part in E.
    pose proof (f_equal fst E) as E1; pose proof (f_equal snd E) as E2.
    cbn [fst snd] in E1, E2; rewrite E1, E2; exact Hw. }
  destruct c as [fs urls|fs|user|i| |sg|fs file_path|]; cbn [invoke] in *.
  - destruct (fst (dropEvent fs urls)) as [ds|]; [|exact Hw].
    destruct (add_directories_lists fs ds w Eo)
      as [added [Hd [_ [_ Hitems]]]].
    rewrite Hd, Hitems; apply Forall2_app; [exact Hw|].
    clear; induction added as [|d added IH]; constructor;
      [eexists; reflexivity | exact IH].
  - pose proof (clear_directories_lists fs w) as E.
    unfold directories_part in E.
    pose proof (f_equal fst E) as E1; pose proof (f_equal snd E) as E2.
    cbn [fst snd] in E1, E2; rewrite E1, E2; constructor.
  - apply Hkeep.
    exact (keeps_factor
             (fun w => (result_table w, all_results w, directories_part w))
             directories_part snd _
             (fun _ => eq_refl) (keeps_edit_headers user) w).
  - exact Hw.
  - apply Hkeep.
    exact (keeps_factor
             (fun w => (window_custom_headers w, directories_part w))
             directories_part snd _
             (fun _ => eq_refl) keeps_analyze_data w).
  - apply Hkeep.
    exact (keeps_factor
             (fun w => (window_custom_headers w, directories_part w))
             directories_part snd _
             (fun _ => eq_refl) (keeps_deliver sg) w).
  - rewrite (keeps_export_data fs file_path w); exact Hw.
  - constructor.
Qed.

(** X10: the list shows the directories. As long as no method raises, the
    items of the list of the window are those of its directories, one item
    for each directory and in the same order, the text of an item being
    the directory followed by a number of files: it is so after any calls
    on a window where it is so, and it is so in a new window. *)
Theorem list_shows_directories (cs : list call) (w : MainWindow) :
  listed w ->
  w_outcome (invoke_all cs w) = Ok tt ->
  listed (w_after (invoke_all cs w)).
Proof.
  revert w; induction cs as [|c cs IH]; intros w Hw Eo; [exact Hw|].
  cbn [invoke_all] in *.
  destruct (outcome_wbind_ok _ _ _ _ Eo) as [[] [Eo1 Eo2]].
  destruct (after_wbind (invoke c) (fun _ => invoke_all cs) w tt Eo1)
    as [-> _].
  apply IH; [apply listed_step; assumption | exact Eo2].
Qed.

(** X11: the scan offers the headers of the first file it can read. When
    no glob fails, [scan_first_file_headers] goes through the first
    spreadsheet and then the first delimited-text file of each directory,
    in the order of the directories, and stops at the first of them whose
    header is read and whose headers other than summary markers are all
    texts: the box of the columns then holds these headers, the first one
    current, the editor of the headers is enabled, nothing else of the
    window changes, each file passed over was read and its failure
    printed, and no later file is read. When there is no such file every
    candidate is read, and the window is as before but for the box. *)
Theorem scan_offers_first_readable_headers (fs : filesystem)
  (w : MainWindow) :
  (forall d, In d (window_directories w) ->
             scan_error (glob fs d pattern_xlsx) = None
             /\ scan_error (glob fs d pattern_csv) = None) ->
  (forall before f rest df,
      candidates fs (window_directories w) = before ++ f :: rest ->
      (forall g, In g before -> probe_failure g <> None) ->
      header_read f = Ok df ->
      forallb is_str (offered (columns df)) = true ->
      scan_first_file_headers fs w =
      WStep (Ok tt)
        (set_header_edit_btn true
           (set_amount_combo
              (combo_of (map str_label (offered (columns df)))) w))
        (flat_map failed_probe before ++ [read_of f]))
  /\ ((forall g, In g (candidates fs (window_directories w)) ->
                 probe_failure g <> None) ->
      w_outcome (scan_first_file_headers fs w) = Ok tt
      /\ but_amount_combo (w_after (scan_first_file_headers fs w)) =
         but_amount_combo w
      /\ w_trace (scan_first_file_headers fs w) =
         flat_map failed_probe (candidates fs (window_directories w))).
Proof.
  intros Hscan; unfold scan_first_file_headers.
  rewrite (wbind_quiet wget _ w w w eq_refl).
  rewrite (scan_directories_files fs _ w Hscan). split.
  - intros before f rest df Ec Hbefore Er Hstr; rewrite Ec.
    apply scan_files_found; assumption.
  - apply scan_files_none.
Qed.

Lemma length_offered_lt (cols : list label) :
  existsb is_total_label cols = true ->
  (List.length (offered cols) < List.length cols)%nat.
Proof.
  unfold offered; induction cols as [|c cols IH]; [discriminate|].
  cbn [existsb filter List.length].
  pose proof (filter_length_le (fun c => negb (is_total_label c)) cols).
  destruct (is_total_label c); cbn [negb orb List.length]; [lia|].
  intros E; specialize (IH E); lia.
Qed.

Lemma offered_all (cols : list label) :
  existsb is_total_label cols = false -> offered cols = cols.
Proof.
  unfold offered; induction cols as [|c cols IH]; [reflexivity|].
  cbn [existsb filter]; destruct (is_total_label c); [discriminate|].
  cbn [negb orb]; intros E; rewrite (IH E); reflexivity.
Qed.

(** X12: an override edited from the offered headers does not reach a
    file that has a summary column. When the headers of a file are read
    into the box and the user then edits them and accepts, the override has
    one name for each header that is not a summary marker. So when the file
    has a column named 合计 or 合 计, the override is shorter than any table
    with as many columns as the file and is not applied to it; when the
    file has none, the override has the length of the file's header and
    its names become the labels. *)
Theorem edited_override_is_as_long_as_offered_headers (f : file)
  (df : DataFrame) (user : session) (w : MainWindow) :
  header_read f = Ok df ->
  forallb is_str (offered (columns df)) = true ->
  accepted user = true ->
  exists names,
    window_custom_headers (w_after (edit_headers user (w_after (probe f w))))
    = Some names
    /\ combo_items
         (amount_combo (w_after (edit_headers user (w_after (probe f w)))))
       = names
    /\ names = edited (map str_label (offered (columns df))) (edits user)
    /\ List.length names = List.length (offered (columns df))
    /\ (existsb is_total_label (columns df) = true ->
        forall df',
          List.length (columns df') = List.length (columns df) ->
          apply_custom_headers (Some names) df' = df')
    /\ (existsb is_total_label (columns df) = false ->
        columns (apply_custom_headers (Some names) df) = map Name names).
Proof.
  intros Er Hstr Hacc.
  pose proof (probe_spec f w) as Hp; rewrite Er, Hstr in Hp.
  rewrite Hp, edit_headers_spec, Hacc; cbn [w_after].
  cbn [amount_combo set_amount_combo set_header_edit_btn set_custom_headers
         window_custom_headers combo_items combo_of].
  set (names := edited (map str_label (offered (columns df))) (edits user)).
  assert (Hlen : List.length names = List.length (offered (columns df)))
    by (unfold names; rewrite length_edited, length_map; reflexivity).
  exists names; split; [reflexivity|]. split; [reflexivity|].
  split; [reflexivity|]. split; [exact Hlen|]. split.
  - intros Ht df' Hdf'; unfold apply_custom_headers.
    pose proof (length_offered_lt _ Ht) as Hlt.
    replace (List.length names =? List.length (columns df'))%nat with false;
      [reflexivity|].
    symmetry; apply Nat.eqb_neq; lia.
  - intros Ht; rewrite (offered_all _ Ht) in Hlen.
    unfold apply_custom_headers; rewrite (proj2 (Nat.eqb_eq _ _) Hlen).
    apply set_columns_spec; exact Hlen.
Qed.

(** ** A run seen from the window *)





(** What a signal that is not the last one leaves as it was. *)
Lemma keeps_deliver_body (sg : signal) :
  is_terminal sg = false ->
  keeps (fun w => (analyze_btn w, header_edit_btn w, export_btn w,
                   drop_widget w, total_label w)) (deliver sg).
Proof.
  destruct sg; cbn [is_terminal deliver]; intros E; try discriminate;
    unfold update_progress, update_result_table; frame.
Qed.






(** The signals of a run: progress messages and results, and one last
    signal, the summary of the run when no glob fails. *)
Lemma run_signals_last (self : AnalysisWorker) (env : environment) :
  exists body last,
    signals (trace (run self env)) = body ++ [last]
    /\ filter is_terminal body = []
    /\ is_terminal last = true
    /\ (scans_succeed self env ->
        last = finished_analysis (summary_of (trace (run self env))))
    /\ (forall msg, last <> error_occurred msg ->
                    ~ In (error_occurred msg) (body ++ [last])).
Proof.
  rewrite run_spec; cbn [trace]; rewrite signals_app; cbn [signals].
  destruct (for_directories_inv self env (directories self) initial_state)
    as [Hb [Ht [_ Ho]]].
  pose proof (body_of_no_terminal _ _ _ _ Hb) as Hno.
  eexists; eexists; split; [reflexivity|]. split; [exact Hno|].
  split; [destruct (outcome _); reflexivity|]. split.
  - intros Hscan; rewrite (Ho Hscan).
    rewrite summary_of_app_signal by reflexivity.
    rewrite (summary_of_tallied _ _ Ht); reflexivity.
  - intros msg Hlast Hin; apply in_app_or in Hin; destruct Hin as [Hin|Hin].
    + assert (Hin' : In (error_occurred msg)
                       (filter is_terminal
                          (signals (trace (for_directories self env
                                             (directories self)
                                             initial_state)))))
        by (apply filter_In; split; [exact Hin | reflexivity]).
      rewrite Hno in Hin'; destruct Hin'.
    + destruct Hin as [E|[]]; apply Hlast; exact E.
Qed.



(** ** The export *)

(** The table of the export: the four renamed columns, one row for each
    result. *)
Lemma export_table_spec (rs : list FileResult) :
  export_table rs = Ok (sheet_of rs).
Proof.
  unfold export_table, getitem_list, sheet_of.
  cbn [DataFrame_of_records rename header rows columns map col_label
         col_dtype].
  replace (find _ _) with (@None label) by reflexivity.
  f_equal; f_equal.
  rewrite map_map; apply map_ext; intros r; reflexivity.
Qed.

(** X14: the export writes the results in their order, or nothing. With
    no result [export_data] shows a warning and opens no dialog; when the
    user cancels the file dialog nothing is written; otherwise exactly one
    sheet is written, to the chosen path: its columns are 目录, 文件名,
    月结卡号 and 金额 in this order, its rows are the results in the order
    they were received, the amounts as numbers; a failure of the writing
    is reported in a message box. In every case the method returns and
    the window is as it was. *)
Theorem export_writes_results_in_order (fs : filesystem) (file_path : str)
  (w : MainWindow) :
  export_table (all_results w) = Ok (sheet_of (all_results w))
  /\ w_outcome (export_data fs file_path w) = Ok tt
  /\ w_after (export_data fs file_path w) = w
  /\ w_trace (export_data fs file_path w) =
     match all_results w with
     | [] => [MessageBox warning warning_title nothing_to_export]
     | _ :: _ =>
         SaveFileDialog
         :: match file_path with
            | [] => []
            | _ :: _ =>
                [ToExcel file_path (sheet_of (all_results w));
                 match to_excel fs file_path (sheet_of (all_results w)) with
                 | None =>
                     MessageBox information success_title
                       (exported_prefix ++ file_path)
                 | Some e =>
                     MessageBox critical error_title
                       (export_failure_prefix ++ str_exn e)
                 end]
            end
     end.
Proof.
  split; [apply export_table_spec|].
  split; [|split; [apply (keeps_export_data fs file_path w)|]].
  - unfold export_data. rewrite (wbind_quiet wget _ w w w eq_refl).
    destruct (all_results w) as [|r rs]; [reflexivity|].
    destruct file_path as [|c p]; [reflexivity|].
    unfold wbind at 1; cbn [wtell w_outcome w_after].
    unfold wtry; rewrite (wbind_quiet (wlift _) _ w w _
                            (f_equal (fun x => WStep x w [])
                               (export_table_spec (r :: rs)))).
    unfold wbind, wtell, wlift; cbn.
    destruct (to_excel fs (c :: p) (sheet_of (r :: rs))); reflexivity.
  - unfold export_data. rewrite (wbind_quiet wget _ w w w eq_refl).
    destruct (all_results w) as [|r rs]; [reflexivity|].
    destruct file_path as [|c p]; [reflexivity|].
    unfold wbind at 1; cbn [wtell w_outcome w_after w_trace].
    unfold wtry; rewrite (wbind_quiet (wlift _) _ w w _
                            (f_equal (fun x => WStep x w [])
                               (export_table_spec (r :: rs)))).
    unfold wbind, wtell, wlift; cbn.
    destruct (to_excel fs (c :: p) (sheet_of (r :: rs))); reflexivity.
Qed.

Lemma prefix_of_body {A : Type} (pre post body : list A) (last : A) :
  pre ++ post = body ++ [last] -> post <> [] ->
  exists rest, body = pre ++ rest.
Proof.
  intros E Hpost.
  destruct (exists_last Hpost) as [post' [x Ep]]; subst post.
  rewrite app_assoc in E; apply app_inj_tail in E; destruct E as [E _].
  exists post'; symmetry; exact E.
Qed.

(** A call that can happen while the controls are disabled leaves them
    disabled, and starts no worker. *)
Lemma disabled_step (c : call) (w : MainWindow) :
  disabled w ->
  can_happen c w = true ->
  disabled (w_after (invoke c w))
  /\ forall t, ~ In (Start t) (w_trace (invoke c w)).
Proof.
  intros [Ha [Hh [He Hl]]] Hc.
  destruct c as [fs urls|fs|user|i| |sg|fs file_path| ];
    cbn [can_happen] in Hc; try congruence.
  - split; [|intros t []].
    unfold disabled; cbn; rewrite Hh, He, Hl; repeat split.
  - split; [|intros t []].
    unfold disabled; cbn; rewrite Ha, Hh, He, Hl; repeat split.
  - apply negb_true_iff in Hc.
    pose proof (keeps_deliver_body sg Hc w) as Hk; cbn beta in Hk.
    pose proof (f_equal (fun p => fst (fst (fst (fst p)))) Hk) as H1.
    pose proof (f_equal (fun p => snd (fst (fst (fst p)))) Hk) as H2.
    pose proof (f_equal (fun p => snd (fst (fst p))) Hk) as H3.
    pose proof (f_equal (fun p => list_enabled (snd (fst p))) Hk) as H4.
    cbn [fst snd] in H1, H2, H3, H4.
    split.
    + unfold disabled; cbn [invoke]; rewrite H1, H2, H3, H4.
      repeat split; assumption.
    + intros t Hin; cbn [invoke] in Hin.
      destruct sg as [message|r| |]; try discriminate Hc;
        cbn in Hin; exact Hin.
  - split; [|intros t []].
    unfold disabled; cbn; rewrite Hl; repeat split.
Qed.

(** X15: the controls stay disabled while the run goes on. Once
    [analyze_data] has started the worker, whatever reaches the window
    before the last signal of the run, a signal of the run or a call from
    a control that is still enabled, leaves the analysis button, the
    button of the header editor, the export button and the list of the
    directories disabled, and starts no worker: no second run begins
    before the last signal of the first. The signals of the run short of
    the last one are calls of this kind. *)
Theorem controls_stay_disabled_during_run (w : MainWindow)
  (cs : list call) :
  can_all_happen cs (started w) = true ->
  disabled (w_after (invoke_all cs (started w)))
  /\ (forall t, ~ In (Start t) (w_trace (invoke_all cs (started w))))
  /\ (forall env pre post,
        signals (trace (run (worker_of w) env)) = pre ++ post ->
        post <> [] ->
        forall w0, can_all_happen (map Deliver pre) w0 = true).
Proof.
  intros Hcs.
  assert (Hgen : forall cs w0,
            disabled w0 -> can_all_happen cs w0 = true ->
            disabled (w_after (invoke_all cs w0))
            /\ forall t, ~ In (Start t) (w_trace (invoke_all cs w0))).
  { clear; induction cs as [|c cs IH]; intros w0 Hd Hcs.
    - split; [exact Hd | intros t []].
    - cbn [can_all_happen] in Hcs; apply andb_true_iff in Hcs.
      destruct Hcs as [Hc Hcs].
      destruct (disabled_step c w0 Hd Hc) as [Hd1 Hs1].
      cbn [invoke_all]; unfold wbind.
      destruct (w_outcome (invoke c w0)) as [[]|e];
        cbn [w_after w_trace]; [|split; assumption].
      destruct (IH _ Hd1 Hcs) as [Hd2 Hs2].
      split; [exact Hd2|].
      intros t Hin; apply in_app_or in Hin; destruct Hin as [Hin|Hin];
        [exact (Hs1 t Hin) | exact (Hs2 t Hin)]. }
  destruct (Hgen cs (started w)) as [Hd Hs];
    [repeat split | exact Hcs|].
  split; [exact Hd|]. split; [exact Hs|].
  intros env pre post Es Hpost.
  destruct (run_signals_last (worker_of w) env)
    as [body [last [Eb [Hno _]]]].
  rewrite Es in Eb.
  destruct (prefix_of_body _ _ _ _ Eb Hpost) as [rest ->].
  rewrite filter_app in Hno; apply app_eq_nil in Hno; destruct Hno as [Hpre _].
  clear - Hpre; induction pre as [|sg pre IH]; intros w0; [reflexivity|].
  cbn [filter] in Hpre; destruct (is_terminal sg) eqn:Et; [discriminate|].
  cbn [map can_all_happen can_happen]; rewrite Et; cbn [negb andb].
  apply IH; exact Hpre.
Qed.

End WindowFacts.

End Analysis.

(** * The theorems at sample data *)

#[export] Existing Instance sample_pandas.
#[export] Existing Instance sample_format.

Arguments Step {A} outcome after trace.
Arguments outcome {A} s.
Arguments after {A} s.
Arguments trace {A} s.

(** The markers, the digits and the numbers at sample values: a marker is
    found inside a longer text, with one space between its characters or
    none; a name is a summary name up to the spaces around it; [\d] takes
    the digits of other scripts, here the Arabic-Indic ones; only a column
    of objects is searched for markers; a column of objects with a text
    that is no number becomes a column of doubles; two decimals are rounded
    to the nearest, ties to even. *)
Lemma definitions_at_samples :
  search_total (of_ascii "2024 " ++ heji ++ of_ascii ":") = true
  /\ search_total (of_ascii "2024 " ++ he_ji ++ of_ascii ":") = true
  /\ search_total [21512; 32; 32; 35745] = false
  /\ search_total (of_ascii "total") = false
  /\ is_total_label (Name heji_padded) = true
  /\ is_total_label (NotStr heji) = true
  /\ is_total_label (Name (heji ++ of_ascii "2024")) = false
  /\ _extract_monthly_card
       (of_ascii "card_" ++ map (fun z => 1632 + z) [2; 0; 2; 4; 0; 1; 0; 1; 1; 2])
     = map (fun z => 1632 + z) [2; 0; 2; 4; 0; 1; 0; 1; 1; 2]
  /\ map is_object [object; int64; float64; bool_]
     = [true; false; false; false]
  /\ pd_to_numeric {| dtype_of := object;
                      values := [CNum (I64 5); text "7"; text "n/a"] |}
     = {| dtype_of := float64;
          values := [CNum (F64 (float_of_Z 5)); CNum (F64 (float_of_Z 7));
                     CNaN] |}
  /\ pd_to_numeric {| dtype_of := object;
                      values := [CNum (I64 5); text "7"] |}
     = {| dtype_of := int64; values := [CNum (I64 5); CNum (I64 7)] |}
  /\ map float_ [I64 9007199254740993; F64 (double 1 (-1))]
     = [F64 (float_of_Z 9007199254740992); F64 (double 1 (-1))]
  /\ map format_amount
       [F64 (double 1 (-3)); F64 (double 3 (-3)); F64 (float_of_Z 1234567);
        F64 (float_of_Z (- 5)); I64 12]
     = [of_ascii "0.12"; of_ascii "0.38"; of_ascii "1,234,567.00";
        of_ascii "-5.00"; of_ascii "12.00"].
Proof. repeat split. Qed.

(** C5: a name with a longer digit run. It contains the digits 2024010112,
    its only maximal digit run has 14 digits, and the identifier is the
    first ten of them. *)
Lemma extract_monthly_card_longer_run :
  contains card_2024010112 name_with_long_run = true
  /\ map (@List.length Z) (digit_runs name_with_long_run) = [14%nat]
  /\ _extract_monthly_card name_with_long_run = of_ascii "0000202401"
  /\ PyStr.eqb (_extract_monthly_card name_with_long_run) card_2024010112
     = false.
Proof. repeat split. Qed.

Lemma extract_monthly_card_leftmost_ten_digits_witness :
  _extract_monthly_card name_with_card = card_2024010112
  /\ _extract_monthly_card name_without_card = [].
Proof.
  split.
  - apply (proj1 (proj2 (extract_monthly_card_leftmost_ten_digits name_with_card))
             (of_ascii "report_") (of_ascii ".xlsx")); [reflexivity|].
    intros i Hi; do 7 (destruct i as [|i]; [reflexivity|]).
    simpl in Hi; lia.
  - apply (proj2 (proj2 (extract_monthly_card_leftmost_ten_digits name_without_card))).
    intros i; do 17 (destruct i as [|i]; [reflexivity|]).
    unfold ten_digits_at; rewrite skipn_all2 by (simpl; lia); reflexivity.
Defined.

(** C3: a table two columns of which carry the same name, which is what a
    header override that repeats a name makes of a file of two columns.
    The table has no summary column and no summary row, so that the filter
    as its docstring words it returns the table as it is; [_preprocess_df]
    raises [AttributeError] instead, at [df[col].dtype], and the worker
    skips the file. *)
Lemma preprocess_df_repeated_name :
  columns (apply_custom_headers (Some [of_ascii "a"; of_ascii "a"])
             sample_notes)
  = [Name (of_ascii "a"); Name (of_ascii "a")]
  /\ filter_spec (apply_custom_headers (Some [of_ascii "a"; of_ascii "a"])
                    sample_notes)
     = apply_custom_headers (Some [of_ascii "a"; of_ascii "a"]) sample_notes
  /\ _preprocess_df (apply_custom_headers (Some [of_ascii "a"; of_ascii "a"])
                       sample_notes)
     = Raise (AttributeError no_attribute_dtype)
  /\ _preprocess_df twice_named = Raise (AttributeError no_attribute_dtype).
Proof. repeat split. Qed.

Lemma preprocess_df_drops_totals_witness :
  NoDup (columns (filter_spec sample_sheet))
  /\ _preprocess_df sample_sheet = Ok sample_sheet_filtered.
Proof.
  assert (Hnd : NoDup (columns (filter_spec sample_sheet)))
    by (repeat (constructor; [simpl; intuition discriminate|]);
        constructor).
  split; [exact Hnd|].
  exact (proj1 (preprocess_df_drops_totals sample_sheet Hnd)).
Defined.

Lemma preprocess_df_idempotent_witness :
  _preprocess_df sample_sheet_filtered = Ok sample_sheet_filtered.
Proof.
  apply (proj2 (preprocess_df_idempotent sample_sheet)).
  reflexivity.
Defined.

Lemma apply_custom_headers_same_length_witness :
  columns (apply_custom_headers
             (Some [of_ascii "A"; of_ascii "B"; of_ascii "C"]) sample_sheet)
  = [Name (of_ascii "A"); Name (of_ascii "B"); Name (of_ascii "C")]
  /\ apply_custom_headers
       (Some [of_ascii "A"; of_ascii "B"]) sample_sheet
     = sample_sheet.
Proof.
  split.
  - apply (proj1 (apply_custom_headers_same_length
                    (Some [of_ascii "A"; of_ascii "B"; of_ascii "C"])
                    sample_sheet) _ eq_refl eq_refl).
  - apply (proj1 (proj2 (apply_custom_headers_same_length
                           (Some [of_ascii "A"; of_ascii "B"])
                           sample_sheet)) _ eq_refl).
    simpl; lia.
Defined.









Lemma failing_file_is_skipped_witness :
  process_xlsx sample_worker jan broken_xlsx initial_state
  = Step (Ok tt) initial_state
      [ReadExcel jan (of_ascii "broken.xlsx");
       Print jan (of_ascii "broken.xlsx")
         (Exception (of_ascii "File is not a zip file"))]
  /\ process_csv sample_worker jan binary_csv initial_state
     = Step (Ok tt) initial_state
         [ReadCsv jan (of_ascii "binary.csv") utf_8;
          ReadCsv jan (of_ascii "binary.csv") gbk;
          Print jan (of_ascii "binary.csv")
            (UnicodeDecodeError (of_ascii "invalid start byte"))].
Proof.
  split.
  - exact (proj1 (failing_file_is_skipped sample_worker
                    (sample_env None))
             jan broken_xlsx _ initial_state eq_refl).
  - exact (proj1 (proj2 (failing_file_is_skipped sample_worker
                           (sample_env None)))
             jan binary_csv _ initial_state eq_refl).
Defined.

Lemma plain_scans_succeed (self : AnalysisWorker) :
  scans_succeed self plain_env.
Proof. intros d _; split; reflexivity. Qed.

Lemma override_total_name_is_dropped_witness :
  existsb is_total_label (columns plain_sheet) = false
  /\ is_total_label (Name (amount_column naming_worker)) = true
  /\ is_total_label (Name he_ji) = true
  /\ is_total_label (Name heji_padded) = true
  /\ (exists df,
        load_xlsx naming_worker plain_xlsx = Ok df
        /\ columns df = [Name (of_ascii "city")]
        /\ ~ In (Name he_ji) (columns df)
        /\ ~ In (Name heji) (columns df))
  /\ file_results (signals (trace (run naming_worker plain_env))) = []
  /\ List.length
       (file_results (signals (trace (run renaming_worker plain_env))))
     = 2%nat.
Proof.
  split; [reflexivity|]. split; [reflexivity|]. split; [reflexivity|].
  split; [reflexivity|]. split; [|split; [|reflexivity]].
  - assert (Hload : exists df, load_xlsx naming_worker plain_xlsx = Ok df)
      by (eexists; vm_compute; reflexivity).
    destruct Hload as [df Hload]; exists df.
    destruct (proj1 (override_total_name_is_dropped naming_worker)
                [of_ascii "city"; he_ji; heji] plain_sheet df
                eq_refl eq_refl Hload) as [Ecols Hno].
    split; [exact Hload|]. split; [exact Ecols|]. split.
    + apply (Hno he_ji); [right; left; reflexivity | reflexivity].
    + apply (Hno heji); [right; right; left; reflexivity | reflexivity].
  - exact (proj1 (proj2 (proj2 (proj2 (override_total_name_is_dropped
                                         naming_worker) eq_refl))
                   plain_env)).
Defined.

(** * More theorems at sample data *)

Arguments WStep {A} w_outcome w_after w_trace.
Arguments w_outcome {A} w.
Arguments w_after {A} w.
Arguments w_trace {A} w.

Lemma failing_glob_ends_run_with_error_witness :
  signals (trace (run sample_worker failing_env))
  = signals_of_directory sample_worker failing_env jan
    ++ [progress_updated (progress_prefix ++ feb);
        file_result_ready
          {| directory := feb;
             filename := name_with_card;
             monthly_card := card_2024010112;
             amount := F64 (float_of_Z 42) |};
        error_occurred (of_ascii "Input/output error")].
Proof.
  rewrite (failing_glob_ends_run_with_error sample_worker
             failing_env [jan] feb [mar]
             (Exception (of_ascii "Input/output error")) eq_refl eq_refl);
    [vm_compute; reflexivity | | reflexivity].
  intros d [<-|[]]; split; reflexivity.
Defined.

Lemma loaded_table_stays_rectangular_witness :
  rectangular sample_sheet
  /\ rectangular sample_sheet_filtered.
Proof.
  assert (Hr : rectangular sample_sheet)
    by (repeat constructor).
  split; [exact Hr|].
  exact (proj1 (loaded_table_stays_rectangular None sample_sheet
                  sample_sheet_filtered Hr eq_refl)).
Defined.

Lemma preprocessed_table_has_no_total_witness :
  existsb is_total_label (columns sample_sheet) = true
  /\ forallb (fun c => negb (is_total_label c))
       (columns sample_sheet_filtered) = true.
Proof.
  split; [reflexivity|]. apply forallb_forall; intros c Hc.
  rewrite (proj1 (preprocessed_table_has_no_total sample_sheet
                    sample_sheet_filtered eq_refl) c Hc).
  reflexivity.
Defined.

Lemma repeated_override_name_skips_every_file_witness :
  process_xlsx repeating_worker jan sample_xlsx initial_state
  = Step (Ok tt) initial_state
      [ReadExcel jan name_with_card;
       Print jan name_with_card (AttributeError no_attribute_dtype)].
Proof.
  refine (proj1 (proj1 (repeated_override_name_skips_every_file
                          repeating_worker
                          [of_ascii "a"; of_ascii "a"; of_ascii "amount"]
                          jan initial_state eq_refl _)
                   sample_xlsx sample_sheet eq_refl eq_refl)).
  intros Hnd; inversion Hnd as [|x l Hout _]; apply Hout; left; reflexivity.
Defined.

Lemma drop_adds_new_directories_once_witness :
  invoke
    (Drop sample_fs [url (of_ascii "readme.txt")]) MainWindow_init
  = WStep (Ok tt) MainWindow_init []
  /\ window_directories
       (w_after (invoke
                   (Drop sample_fs [url jan; url feb; url jan])
                   (set_directories [feb] MainWindow_init)))
     = [feb; jan].
Proof.
  split.
  - exact (proj1 (drop_adds_new_directories_once sample_fs
                    [url (of_ascii "readme.txt")] MainWindow_init) eq_refl).
  - destruct (proj2 (drop_adds_new_directories_once sample_fs
                       [url jan; url feb; url jan]
                       (set_directories [feb] MainWindow_init)) eq_refl)
      as [added [E _]].
    reflexivity.
Defined.

Lemma header_dialog_returns_edited_names_witness :
  get_edited_headers
    (fst (exec_ sample_session
            (init_ui [of_ascii "city"; of_ascii "amount"])))
  = [of_ascii "city"; of_ascii "total"].
Proof.
  rewrite (proj1 (proj2 (header_dialog_returns_edited_names
                           [of_ascii "city"; of_ascii "amount"]
                           sample_session))).
  reflexivity.
Defined.

Lemma override_is_never_removed_witness :
  window_custom_headers
    (w_after (invoke (EditHeaders sample_session) sample_window))
  = Some [of_ascii "city"; of_ascii "total"]
  /\ window_custom_headers
       (w_after (invoke_all sample_clearing
                   (w_after (invoke (EditHeaders sample_session)
                               sample_window))))
     <> None.
Proof.
  split.
  - rewrite (proj1 (proj2 (override_is_never_removed []
                             sample_window))).
    reflexivity.
  - apply (proj2 (proj2 (override_is_never_removed
                           sample_clearing
                           (w_after (invoke
                                       (EditHeaders sample_session)
                                       sample_window))))).
    rewrite (proj1 (proj2 (override_is_never_removed []
                             sample_window))).
    discriminate.
Defined.

Lemma list_shows_directories_witness :
  listed MainWindow_init
  /\ w_outcome (invoke_all sample_drops MainWindow_init) = Ok tt
  /\ listed (w_after (invoke_all sample_drops MainWindow_init))
  /\ list_items
       (drop_widget
          (w_after (invoke_all sample_drops MainWindow_init)))
     = [item_text jan 3; item_text feb 1].
Proof.
  assert (Hinit : listed MainWindow_init) by constructor.
  assert (Hok : w_outcome (invoke_all sample_drops MainWindow_init)
                = Ok tt) by (vm_compute; reflexivity).
  split; [exact Hinit|]. split; [exact Hok|].
  split; [|vm_compute; reflexivity].
  exact (list_shows_directories sample_drops MainWindow_init
           Hinit Hok).
Defined.

Lemma scan_offers_first_readable_headers_witness :
  scan_first_file_headers sample_fs
    (set_directories [jan; feb] MainWindow_init)
  = WStep (Ok tt)
      (set_header_edit_btn true
         (set_amount_combo
            {| combo_items := [of_ascii "city"; of_ascii "amount"];
               currentIndex := Some 0%nat |}
            (set_directories [jan; feb] MainWindow_init)))
      [ReadHeader (of_ascii "broken.xlsx") false;
       PrintHeaderFailure (Exception (of_ascii "File is not a zip file"));
       ReadHeader (of_ascii "old_2023123101.csv") true;
       PrintHeaderFailure
         (UnicodeDecodeError (of_ascii "invalid start byte"));
       ReadHeader name_with_card false].
Proof.
  rewrite (proj1 (scan_offers_first_readable_headers sample_fs
                    (set_directories [jan; feb] MainWindow_init)
                    (fun d _ => conj eq_refl eq_refl))
             [broken_file; gbk_file] sheet_file [] sample_sheet_head
             eq_refl);
    [reflexivity | | reflexivity | reflexivity].
  intros g [<-|[<-|[]]]; discriminate.
Defined.

Lemma edited_override_is_as_long_as_offered_headers_witness :
  window_custom_headers
    (w_after (edit_headers sample_session
                (w_after (probe sheet_file MainWindow_init))))
  = Some [of_ascii "city"; of_ascii "total"]
  /\ apply_custom_headers
       (Some [of_ascii "city"; of_ascii "total"]) sample_sheet
     = sample_sheet.
Proof.
  destruct (edited_override_is_as_long_as_offered_headers
              sheet_file sample_sheet_head sample_session MainWindow_init
              eq_refl eq_refl eq_refl)
    as [names [E1 [_ [E3 [_ [Hshort _]]]]]].
  rewrite E1; change (edited (map str_label
                                (offered (columns sample_sheet_head)))
                        (edits sample_session))
    with [of_ascii "city"; of_ascii "total"] in E3.
  subst names; split; [reflexivity|].
  exact (Hshort eq_refl sample_sheet eq_refl).
Defined.


Lemma export_writes_results_in_order_witness :
  w_trace (export_data sample_fs (of_ascii "out.xlsx")
             MainWindow_init)
  = [MessageBox warning warning_title nothing_to_export].
Proof.
  exact (proj2 (proj2 (proj2 (export_writes_results_in_order
                                sample_fs (of_ascii "out.xlsx")
                                MainWindow_init)))).
Defined.

Lemma controls_stay_disabled_during_run_witness :
  can_all_happen sample_interruptions (started sample_window) = true
  /\ disabled (w_after (invoke_all sample_interruptions
                          (started sample_window)))
  /\ can_happen AnalyzeData
       (w_after (invoke_all sample_interruptions (started sample_window)))
     = false.
Proof.
  assert (Hcan : can_all_happen sample_interruptions (started sample_window)
                 = true) by (vm_compute; reflexivity).
  pose proof (proj1 (controls_stay_disabled_during_run sample_window
                       sample_interruptions Hcan)) as Hd.
  split; [exact Hcan|]. split; [exact Hd|].
  exact (proj1 Hd).
Defined.
